(** * Stock Analyzer backend: a shallow embedding of [backend/index.js]

    The backend is one Express application: a rate limiter mounted on
    [/api], twelve route handlers that call the market-data provider
    (through [axios.get]) and the text-generation provider (through
    [genAI.models.generateContent]), and the reshaping of the providers'
    JSON into the dashboard's records. The requests the dashboard makes
    when it is mounted ([frontend/src/App.tsx]) are embedded after it.

    The embedding keeps the handlers as they are written:
    - JavaScript values are the inductive [value] (undefined, null,
      booleans, numbers, strings, arrays, objects); property access,
      optional chaining, [||] and [??] are functions on it;
    - strings are [string]: the model covers ASCII text, one byte per
      UTF-16 code unit (bytes above 127 are kept as they are by
      [toUpperCase] and [trim]);
    - numbers are exact rationals with [NaN] and the two infinities; the
      rounding of binary64 is not modelled;
    - the two providers are oracles of a [world]; a handler runs in the
      monad [M], which threads the list of calls issued so far and
      carries JavaScript exceptions, so that [try]/[catch] and
      [Promise.all] are written as in the source;
    - what the handlers write to the console is left out. *)

From Stdlib Require Import ZArith QArith Qabs List String Ascii Bool Lia Lqa.
From Stdlib Require Import DecimalString Sorting.Sorted Sorting.Permutation.
Import ListNotations.

Set Warnings "-register-all".

Local Open Scope list_scope.
Local Open Scope string_scope.

(** ** Strings *)

Module Str.

Definition code (c : ascii) : nat := nat_of_ascii c.

Definition is_lower (c : ascii) : bool := (97 <=? code c)%nat && (code c <=? 122)%nat.
Definition is_upper (c : ascii) : bool := (65 <=? code c)%nat && (code c <=? 90)%nat.
Definition is_digit (c : ascii) : bool := (48 <=? code c)%nat && (code c <=? 57)%nat.

(** [WhiteSpace] and [LineTerminator] of ECMAScript, within ASCII:
    TAB, LF, VT, FF, CR and SPACE. *)
Definition is_space (c : ascii) : bool :=
  ((9 <=? code c)%nat && (code c <=? 13)%nat) || (code c =? 32)%nat.

Definition upcase (c : ascii) : ascii :=
  if is_lower c then ascii_of_nat (code c - 32) else c.

Definition downcase (c : ascii) : ascii :=
  if is_upper c then ascii_of_nat (code c + 32) else c.

Fixpoint map (f : ascii -> ascii) (s : string) : string :=
  match s with
  | EmptyString => EmptyString
  | String c s' => String (f c) (map f s')
  end.

Fixpoint forallb (p : ascii -> bool) (s : string) : bool :=
  match s with
  | EmptyString => true
  | String c s' => p c && forallb p s'
  end.

Fixpoint existsb (p : ascii -> bool) (s : string) : bool :=
  match s with
  | EmptyString => false
  | String c s' => p c || existsb p s'
  end.

(** [String.prototype.toUpperCase] and [toLowerCase]. *)
Definition toUpperCase (s : string) : string := map upcase s.
Definition toLowerCase (s : string) : string := map downcase s.

(** [String.prototype.trim]. *)
Fixpoint trimStart (s : string) : string :=
  match s with
  | EmptyString => EmptyString
  | String c s' => if is_space c then trimStart s' else s
  end.

Fixpoint trimEnd (s : string) : string :=
  match s with
  | EmptyString => EmptyString
  | String c s' =>
      match trimEnd s' with
      | EmptyString => if is_space c then EmptyString else String c EmptyString
      | r => String c r
      end
  end.

Definition trim (s : string) : string := trimEnd (trimStart s).

Definition is_empty (s : string) : bool :=
  match s with EmptyString => true | _ => false end.

(** [s.split(c)] for a one-character separator. *)
Fixpoint split (sep : ascii) (s : string) : list string :=
  match s with
  | EmptyString => [EmptyString]
  | String c s' =>
      if Ascii.eqb c sep then EmptyString :: split sep s'
      else match split sep s' with
           | [] => [String c EmptyString]
           | w :: ws => String c w :: ws
           end
  end.

(** [s.includes(t)]. *)
Fixpoint includes (s t : string) : bool :=
  String.prefix t s ||
  match s with
  | EmptyString => false
  | String _ s' => includes s' t
  end.

End Str.

(** ** Numbers *)

(** A JavaScript number: a finite value, [NaN], or an infinity. *)
Inductive number : Type :=
| Fin (q : Q)
| NaN
| Inf (negative : bool).

Module Num.

Definition of_Z (z : Z) : number := Fin (inject_Z z).
Definition of_nat (n : nat) : number := of_Z (Z.of_nat n).

Definition is_zero (n : number) : bool :=
  match n with
  | Fin q => Qeq_bool q 0
  | _ => false
  end.

(** The binary [-] on numbers. *)
Definition sub (a b : number) : number :=
  match a, b with
  | NaN, _ | _, NaN => NaN
  | Fin x, Fin y => Fin (x - y)
  | Fin _, Inf s => Inf (negb s)
  | Inf s, Fin _ => Inf s
  | Inf s, Inf t => if Bool.eqb s t then NaN else Inf s
  end.

(** The binary [*] on numbers. *)
Definition mul (a b : number) : number :=
  match a, b with
  | NaN, _ | _, NaN => NaN
  | Fin x, Fin y => Fin (x * y)
  | Fin x, Inf s | Inf s, Fin x =>
      match Qcompare x 0 with
      | Eq => NaN
      | Lt => Inf (negb s)
      | Gt => Inf s
      end
  | Inf s, Inf t => Inf (xorb s t)
  end.

(** How [Array.prototype.sort] reads the number a comparator returns:
    negative, zero or positive, [NaN] counting as zero. *)
Definition sign (n : number) : comparison :=
  match n with
  | Fin q => Qcompare q 0
  | NaN => Eq
  | Inf true => Lt
  | Inf false => Gt
  end.

(** *** [StringToNumber]: the numeric value of a string *)

Definition digit_val (c : ascii) : option Z :=
  let n := Z.of_nat (Str.code c) in
  if Str.is_digit c then Some (n - 48)%Z
  else if ((97 <=? n) && (n <=? 102))%Z then Some (n - 87)%Z
  else if ((65 <=? n) && (n <=? 70))%Z then Some (n - 55)%Z
  else None.

(** The digits of [s] read in [base], most significant first; [None]
    when some character is not a digit of that base. *)
Fixpoint radix (base acc : Z) (s : string) : option Z :=
  match s with
  | EmptyString => Some acc
  | String c s' =>
      match digit_val c with
      | Some d => if (d <? base)%Z then radix base (base * acc + d) s' else None
      | None => None
      end
  end.

Definition integer_literal (base : Z) (s : string) : number :=
  match s with
  | EmptyString => NaN
  | _ => match radix base 0 s with Some z => of_Z z | None => NaN end
  end.

Fixpoint span_digits (s : string) : string * string :=
  match s with
  | EmptyString => (EmptyString, EmptyString)
  | String c s' =>
      if Str.is_digit c
      then let (d, r) := span_digits s' in (String c d, r)
      else (EmptyString, s)
  end.

Definition decimal (s : string) : Z :=
  match radix 10 0 s with Some z => z | None => 0%Z end.

(** [ExponentPart] then the end of the string; [None] when [s] is
    neither empty nor a well-formed exponent. *)
Definition exponent (s : string) : option Z :=
  match s with
  | EmptyString => Some 0%Z
  | String c r =>
      if Ascii.eqb c "e" || Ascii.eqb c "E" then
        let '(neg, r') :=
          match r with
          | String "-" t => (true, t)
          | String "+" t => (false, t)
          | _ => (false, r)
          end in
        match span_digits r' with
        | (EmptyString, _) => None
        | (ds, EmptyString) => Some (if neg then - decimal ds else decimal ds)%Z
        | _ => None
        end
      else None
  end.

(** [StrUnsignedDecimalLiteral]. *)
Definition unsigned_decimal (s : string) : number :=
  if String.eqb s "Infinity" then Inf false else
  let (ip, r1) := span_digits s in
  let (fp, r2) :=
    match r1 with
    | String "." t => span_digits t
    | _ => (EmptyString, r1)
    end in
  if Str.is_empty ip && Str.is_empty fp then NaN else
  match exponent r2 with
  | None => NaN
  | Some e =>
      let scale := Z.of_nat (String.length fp) in
      Fin (inject_Z (decimal (ip ++ fp)) * Qpower (10 # 1) (e - scale))
  end.

Definition neg (n : number) : number :=
  match n with
  | Fin q => Fin (- q)
  | NaN => NaN
  | Inf s => Inf (negb s)
  end.

(** [StringToNumber]: white space is trimmed, the empty string is [0],
    [0x]/[0o]/[0b] literals take no sign, decimal literals may. *)
Definition StringToNumber (s : string) : number :=
  match Str.trim s with
  | EmptyString => of_Z 0
  | String "0" (String "x" r) | String "0" (String "X" r) => integer_literal 16 r
  | String "0" (String "o" r) | String "0" (String "O" r) => integer_literal 8 r
  | String "0" (String "b" r) | String "0" (String "B" r) => integer_literal 2 r
  | String "-" r => neg (unsigned_decimal r)
  | String "+" r => unsigned_decimal r
  | t => unsigned_decimal t
  end.

End Num.

(** ** Values *)

Inductive value : Type :=
| VUndefined
| VNull
| VBool (b : bool)
| VNum (n : number)
| VStr (s : string)
| VArr (elems : list value)
| VObj (props : list (string * value)).

(** The exceptions the handlers can meet. An axios error carries the
    upstream response when there was one. *)
Record axios_response : Type := { status : Z; data : value }.

Inductive exn : Type :=
| TypeError (message : string)
| RangeError (message : string)
| AxiosError (message : string) (response : option axios_response)
| Error (message : string).

Definition message_of (e : exn) : string :=
  match e with
  | TypeError m | RangeError m | AxiosError m _ | Error m => m
  end.

Inductive completion (A : Type) : Type :=
| Normal (a : A)
| Throw (e : exn).
Arguments Normal {A} a.
Arguments Throw {A} e.

Module Js.

Definition vnum (z : Z) : value := VNum (Num.of_Z z).

(** [ToBoolean]. *)
Definition truthy (v : value) : bool :=
  match v with
  | VUndefined | VNull => false
  | VBool b => b
  | VNum NaN => false
  | VNum n => negb (Num.is_zero n)
  | VStr s => negb (Str.is_empty s)
  | VArr _ | VObj _ => true
  end.

Definition nullish (v : value) : bool :=
  match v with
  | VUndefined | VNull => true
  | _ => false
  end.

(** [a || b] and [a ?? b] (both operands are pure wherever the handlers
    use them). *)
Definition or (a b : value) : value := if truthy a then a else b.
Definition coalesce (a b : value) : value := if nullish a then b else a.

Fixpoint assoc (k : string) (ps : list (string * value)) : option value :=
  match ps with
  | [] => None
  | (k', v) :: ps' => if String.eqb k k' then Some v else assoc k ps'
  end.

Definition key_of_nat (i : nat) : string :=
  DecimalString.NilZero.string_of_uint (Nat.to_uint i).

(** [v[k]] on a base that is neither [null] nor [undefined]. The
    property names the handlers read are data properties: none of them
    is inherited from a prototype, except [length] of arrays and
    strings. *)
Definition own (v : value) (k : string) : value :=
  match v with
  | VObj ps => match assoc k ps with Some x => x | None => VUndefined end
  | VArr xs => if String.eqb k "length" then VNum (Num.of_nat (List.length xs)) else VUndefined
  | VStr s => if String.eqb k "length" then VNum (Num.of_nat (String.length s)) else VUndefined
  | _ => VUndefined
  end.

(** [v[i]] for an index, on a base that is not nullish. *)
Definition index (v : value) (i : nat) : value :=
  match v with
  | VArr xs => nth i xs VUndefined
  | VStr s => match String.get i s with Some c => VStr (String c EmptyString) | None => VUndefined end
  | VObj ps => match assoc (key_of_nat i) ps with Some x => x | None => VUndefined end
  | _ => VUndefined
  end.

(** [v.k]: a [TypeError] on [null] and [undefined]. *)
Definition get (v : value) (k : string) : completion value :=
  if nullish v then Throw (TypeError ("Cannot read properties of null or undefined, reading " ++ k))
  else Normal (own v k).

(** [v?.k] where nothing follows in the chain. *)
Definition opt (v : value) (k : string) : value :=
  if nullish v then VUndefined else own v k.

(** [v?. rest]: when [v] is nullish the whole rest of the chain is
    skipped and the chain is [undefined]. *)
Definition chain {A : Type} (v : value) (undef : A) (rest : value -> A) : A :=
  if nullish v then undef else rest v.

(** [v === s] for a string literal [s]. *)
Definition is_str (v : value) (s : string) : bool :=
  match v with
  | VStr t => String.eqb t s
  | _ => false
  end.

(** [Object.keys(v).length === 0] for a value that is not nullish:
    objects count their properties, arrays and strings their indices,
    numbers and booleans have none. *)
Definition no_keys (v : value) : bool :=
  match v with
  | VObj ps => match ps with [] => true | _ => false end
  | VArr xs => match xs with [] => true | _ => false end
  | VStr s => Str.is_empty s
  | _ => true
  end.

(** [v.length === 0]. *)
Definition length_is_zero (v : value) : bool :=
  match own v "length" with
  | VNum n => Num.is_zero n
  | _ => false
  end.

(** [ToNumber]. An array goes through its string: no element is the
    empty string, one element is that element's own string, more
    contain a comma. Objects print as [[object Object]]. *)
Fixpoint ToNumber (v : value) : number :=
  match v with
  | VUndefined => NaN
  | VNull => Num.of_Z 0
  | VBool b => Num.of_Z (if b then 1 else 0)
  | VNum n => n
  | VStr s => Num.StringToNumber s
  | VObj _ => NaN
  | VArr [] => Num.of_Z 0
  | VArr [x] =>
      match x with
      | VUndefined | VNull => Num.of_Z 0
      | VBool _ => NaN
      | _ => ToNumber x
      end
  | VArr _ => NaN
  end.

End Js.

(** ** Dates *)

Module JsDate.

Local Open Scope Z_scope.

Definition msPerDay : Z := 86400000.
Definition maxTime : Z := 8640000000000000.

(** [TimeClip]: a time value further than 10^8 days from the epoch is
    not a time ([None] is the invalid date). *)
Definition TimeClip (t : Z) : option Z :=
  if Z.abs t <=? maxTime then Some t else None.

(** [new Date()] at clock time [now], [date.getTime()], and
    [date.setTime(n)]: the number is truncated to an integer and
    clipped. *)
Definition new_Date (now : Z) : option Z := TimeClip now.

Definition getTime (date : option Z) : number :=
  match date with
  | Some t => Num.of_Z t
  | None => NaN
  end.

Definition setTime (n : number) : option Z :=
  match n with
  | Fin q =>
      if Qle_bool (Qabs q) (inject_Z maxTime)
      then Some (Z.quot (Qnum q) (Zpos (Qden q)))
      else None
  | _ => None
  end.

(** [Day(t)] and [TimeWithinDay(t)]. *)
Definition Day (t : Z) : Z := t / msPerDay.
Definition TimeWithinDay (t : Z) : Z := t mod msPerDay.

(** The proleptic Gregorian date of day number [d] (day 0 is
    1970-01-01), by eras of 400 years counted from 1 March. *)
Definition civil (d : Z) : Z * Z * Z :=
  let z := d + 719468 in
  let era := z / 146097 in
  let doe := z - era * 146097 in
  let yoe := (doe - doe / 1460 + doe / 36524 - doe / 146096) / 365 in
  let doy := doe - (365 * yoe + yoe / 4 - yoe / 100) in
  let mp := (5 * doy + 2) / 153 in
  let day := doy - (153 * mp + 2) / 5 + 1 in
  let month := if mp <? 10 then mp + 3 else mp - 9 in
  let year := yoe + era * 400 + (if month <=? 2 then 1 else 0) in
  (year, month, day).

Definition digit (n : Z) : ascii := ascii_of_nat (48 + Z.to_nat (n mod 10)).

(** The last [w] decimal digits of [n], zero-padded. *)
Fixpoint pad (w : nat) (n : Z) : string :=
  match w with
  | O => EmptyString
  | S w' => (pad w' (n / 10) ++ String (digit n) EmptyString)%string
  end.

(** The year of the ISO format: four digits from 0 to 9999, a sign and
    six digits otherwise. *)
Definition year_string (y : Z) : string :=
  if (0 <=? y) && (y <=? 9999) then pad 4 y
  else String.append (if y <? 0 then "-" else "+") (pad 6 (Z.abs y)).

(** [YYYY-MM-DD] for a day number. *)
Definition isoDate (d : Z) : string :=
  let '(y, m, dd) := civil d in
  String.concat "" [year_string y; "-"; pad 2 m; "-"; pad 2 dd].

Definition isoTime (ms : Z) : string :=
  String.concat ""
    [pad 2 (ms / 3600000); ":"; pad 2 (ms / 60000 mod 60); ":";
     pad 2 (ms / 1000 mod 60); "."; pad 3 (ms mod 1000); "Z"].

(** [Date.prototype.toISOString]: a [RangeError] on the invalid date. *)
Definition toISOString (date : option Z) : completion string :=
  match date with
  | None => Throw (RangeError "Invalid time value")
  | Some t => Normal (String.concat "" [isoDate (Day t); "T"; isoTime (TimeWithinDay t)])
  end.

End JsDate.

(** ** The outside world and the handler monad *)

(** A template literal: its fixed text and the values substituted in
    it. The string a substituted value prints as is left to the reader
    of the template (the provider), so no [ToString] is needed. *)
Inductive part : Type :=
| Lit (s : string)
| Sub (v : value).

Definition template : Type := list part.

(** A call that leaves the process. *)
Inductive call : Type :=
| AxiosGet (url : template)
| GenerateContent (model : string) (prompt : template).

(** What a handler cannot decide: the API key of the environment, what
    the market-data provider answers to a URL ([axios.get] resolves with
    a response whose [data] is the given value, or rejects), what the
    text-generation provider answers to the [n]-th prompt of the
    request, and the clock. *)
Record world : Type := {
  POLYGON_API_KEY : value;
  axios_get : template -> completion value;
  models_generateContent : nat -> template -> completion value;
  Date_now : Z
}.

Definition M (A : Type) : Type := world -> list call -> completion A * list call.

Definition ret {A} (a : A) : M A := fun _ t => (Normal a, t).

Definition bind {A B} (m : M A) (k : A -> M B) : M B :=
  fun w t =>
    match m w t with
    | (Normal a, t') => k a w t'
    | (Throw e, t') => (Throw e, t')
    end.

Definition throw {A} (e : exn) : M A := fun _ t => (Throw e, t).

(** [try { m } catch (e) { h e }]. *)
Definition try_catch {A} (m : M A) (h : exn -> M A) : M A :=
  fun w t =>
    match m w t with
    | (Normal a, t') => (Normal a, t')
    | (Throw e, t') => h e w t'
    end.

Definition lift {A} (c : completion A) : M A := fun _ t => (c, t).

Definition ask : M world := fun w t => (Normal w, t).

Declare Scope js_scope.
Delimit Scope js_scope with js.
Notation "x <- m ;; k" := (bind m (fun x => k))
  (at level 61, m at next level, right associativity) : js_scope.
Local Open Scope js_scope.

Definition is_generate (c : call) : bool :=
  match c with
  | GenerateContent _ _ => true
  | AxiosGet _ => false
  end.

(** [await axios.get(url)]: the [data] of the response. *)
Definition axios (url : template) : M value :=
  fun w t => (axios_get w url, (t ++ [AxiosGet url])%list).

(** [await genAI.models.generateContent({ model, contents: [{ role:
    "user", parts: [{ text: prompt }] }] })]. *)
Definition generateContent (model : string) (prompt : template) : M value :=
  fun w t =>
    (models_generateContent w (List.length (List.filter is_generate t)) prompt,
     (t ++ [GenerateContent model prompt])%list).

(** Every task of [xs.map(async f)] runs to its end, whatever the
    others do: each issues its calls when it is started, in the order of
    [xs]. *)
Fixpoint settle {A B} (f : A -> M B) (xs : list A) : M (list (completion B)) :=
  match xs with
  | [] => ret []
  | x :: xs' =>
      fun w t =>
        let (r, t1) := f x w t in
        match settle f xs' w t1 with
        | (Normal rs, t2) => (Normal (r :: rs), t2)
        | (Throw e, t2) => (Throw e, t2)
        end
  end.

Fixpoint collect {B} (rs : list (completion B)) : completion (list B) :=
  match rs with
  | [] => Normal []
  | Throw e :: _ => Throw e
  | Normal b :: rs' =>
      match collect rs' with
      | Normal bs => Normal (b :: bs)
      | Throw e => Throw e
      end
  end.

(** [await Promise.all(xs.map(async f))]: the results in the order of
    [xs], or a rejection when some task rejects. Which rejection wins
    depends on timing; the handlers only log its message, and the model
    takes the first in the order of [xs]. *)
Definition Promise_all {A B} (f : A -> M B) (xs : list A) : M (list B) :=
  rs <- settle f xs ;; lift (collect rs).

(** What the client gets: a status and the value given to [res.json]
    (or [res.send]); Express's own page when no route matches; nothing
    when the handler's promise rejects, which nothing handles. *)
Inductive reply : Type :=
| Reply (code : Z) (body : value)
| NoRoute
| Unhandled (e : exn).

Definition json (body : value) : M reply := ret (Reply 200 body).
Definition status_json (code : Z) (body : value) : M reply := ret (Reply code body).
Definition error (code : Z) (msg : string) : M reply :=
  ret (Reply code (VObj [("error", VStr msg)])).

(** One request: the handler starts with no call issued. *)
Definition run (h : M reply) (w : world) : reply * list call :=
  match h w [] with
  | (Normal r, t) => (r, t)
  | (Throw e, t) => (Unhandled e, t)
  end.

(** ** Methods called on values *)

Module Call.

Definition not_a_function {A} (name : string) : completion A :=
  Throw (TypeError (name ++ " is not a function")).

(** [v.toUpperCase()]: only strings have the method. *)
Definition toUpperCase (v : value) : completion string :=
  match v with
  | VStr s => Normal (Str.toUpperCase s)
  | VUndefined | VNull => Throw (TypeError "Cannot read properties of null or undefined")
  | _ => not_a_function "toUpperCase"
  end.

(** [v.trim()]. *)
Definition trim (v : value) : completion string :=
  match v with
  | VStr s => Normal (Str.trim s)
  | VUndefined | VNull => Throw (TypeError "Cannot read properties of null or undefined")
  | _ => not_a_function "trim"
  end.

(** [v.split(/\n/)]. *)
Definition split_lines (v : value) : completion (list string) :=
  match v with
  | VStr s => Normal (Str.split "010"%char s)
  | VUndefined | VNull => Throw (TypeError "Cannot read properties of null or undefined")
  | _ => not_a_function "split"
  end.

(** [v.map(f)]: only arrays have the method; an exception of [f] ends
    the loop. *)
Fixpoint map_list {A B} (f : A -> completion B) (xs : list A) : completion (list B) :=
  match xs with
  | [] => Normal []
  | x :: xs' =>
      match f x with
      | Throw e => Throw e
      | Normal y =>
          match map_list f xs' with
          | Throw e => Throw e
          | Normal ys => Normal (y :: ys)
          end
      end
  end.

Definition map (v : value) (f : value -> completion value) : completion (list value) :=
  match v with
  | VArr xs => map_list f xs
  | VUndefined | VNull => Throw (TypeError "Cannot read properties of null or undefined")
  | _ => not_a_function "map"
  end.

(** [xs.sort(cmp)], where [cmp a b] is the sign of what the comparator
    returns: a stable sort. (For a comparator that is not a consistent
    order the language leaves the result to the engine; every stable
    sort agrees when it is.) The elements are taken from the right, and
    each goes before the first one it must not follow. *)
Fixpoint insert {A} (cmp : A -> A -> comparison) (x : A) (sorted : list A) : list A :=
  match sorted with
  | [] => [x]
  | y :: ys =>
      match cmp x y with
      | Gt => y :: insert cmp x ys
      | _ => x :: y :: ys
      end
  end.

Definition sort {A} (cmp : A -> A -> comparison) (xs : list A) : list A :=
  fold_right (insert cmp) [] xs.

(** [xs.slice(0, n)]. *)
Definition slice0 {A} (n : nat) (xs : list A) : list A := firstn n xs.

End Call.

(** ** Request validation *)

(** Modelled from the spec: the validation chain of [express-validator]
    and the checks of [validator.js], which are not in the repository.
    The spec's words: "symbol: alphanumeric, length 1-10", and "a single
    human-readable message (the first validation failure encountered)".
    Every check of a chain is run; a failing check reports the message
    given to it by [withMessage], or the library's ["Invalid value"]. *)
Module Validator.

Record check : Type := { passes : string -> bool; msg : string }.

(** [isAlphanumeric()]: one or more of [0-9A-Za-z]. *)
Definition isAlphanumeric (s : string) : bool :=
  negb (Str.is_empty s) &&
  Str.forallb (fun c => Str.is_digit c || Str.is_upper c || Str.is_lower c) s.

(** [isLength({ min, max })], on ASCII strings. *)
Definition isLength (min max : nat) (s : string) : bool :=
  (min <=? String.length s)%nat && (String.length s <=? max)%nat.

(** [validationResult(req).array()], as the messages of the failures. *)
Definition validationResult (chain : list check) (v : string) : list string :=
  List.map msg (List.filter (fun c => negb (passes c v)) chain).

End Validator.

(** ** The application *)

Module Server.

Import Js.

(** [param('symbol').isAlphanumeric().isLength({ min: 1, max: 10 })
    .withMessage('Invalid stock symbol')]: the message is given to the
    last check. *)
Definition symbol_chain : list Validator.check :=
  [ {| Validator.passes := Validator.isAlphanumeric; Validator.msg := "Invalid value" |};
    {| Validator.passes := Validator.isLength 1 10; Validator.msg := "Invalid stock symbol" |} ].

Definition polygon : string := "https://api.polygon.io".

Definition apiKey (w : world) : part := Sub (POLYGON_API_KEY w).

Definition snapshot_url (w : world) (ticker : string) : template :=
  [Lit (polygon ++ "/v2/snapshot/locale/us/markets/stocks/tickers/"); Sub (VStr ticker);
   Lit "?apiKey="; apiKey w].

Definition reference_url (w : world) (ticker : string) : template :=
  [Lit (polygon ++ "/v3/reference/tickers/"); Sub (VStr ticker); Lit "?apiKey="; apiKey w].

(** [err.response && err.response.status === 404]. *)
Definition is_404 (err : exn) : bool :=
  match err with
  | AxiosError _ (Some r) => (status r =? 404)%Z
  | _ => false
  end.

(** *** [GET /api/quote/:symbol] *)

(** The object given to [res.json] once the snapshot is there. *)
Definition quote_json (snapshot metadata : value) : value :=
  let day := or (own snapshot "day") (VObj []) in
  let min := or (own snapshot "min") (VObj []) in
  let open := or (or (own day "o") (own min "o")) (vnum 0) in
  let high := or (or (own day "h") (own min "h")) (vnum 0) in
  let low := or (or (own day "l") (own min "l")) (vnum 0) in
  let close := or (or (own day "c") (own min "c")) (vnum 0) in
  let volume := or (or (own day "v") (own min "v")) (vnum 0) in
  VObj
    [ ("symbol", own snapshot "ticker");
      ("name", coalesce (opt metadata "name") (own snapshot "ticker"));
      ("exchange", coalesce (opt metadata "primary_exchange") (VStr "NASDAQ"));
      ("price", VNum (ToNumber close));
      ("volume", volume);
      ("change", coalesce (own snapshot "todaysChange") (vnum 0));
      ("changePercent", coalesce (own snapshot "todaysChangePerc") (vnum 0));
      ("open", open);
      ("prevClose", coalesce (opt (own snapshot "prevDay") "c") (vnum 0));
      ("high", high);
      ("low", low);
      ("avgVolume", coalesce (opt metadata "average_volume") VNull);
      ("marketCap", coalesce (opt metadata "market_cap") VNull);
      ("week52High", coalesce (opt metadata "week_52_high") VNull);
      ("week52Low", coalesce (opt metadata "week_52_low") VNull);
      ("description", coalesce (opt metadata "description") VNull) ].

Definition quote (symbol : string) : M reply :=
  match Validator.validationResult symbol_chain symbol with
  | first :: _ => error 400 first
  | [] =>
      try_catch
        (w <- ask ;;
         snapshotRes <- axios (snapshot_url w (Str.toUpperCase symbol)) ;;
         metaRes <- axios (reference_url w (Str.toUpperCase symbol)) ;;
         let snapshot := opt snapshotRes "ticker" in
         let metadata := opt metaRes "results" in
         if negb (truthy snapshot) || no_keys snapshot then
           error 404 "Stock not found or no snapshot data available"
         else json (quote_json snapshot metadata))
        (fun err =>
           if is_404 err then error 404 "Stock not found"
           else error 500 "Failed to fetch quote from Polygon")
  end.

(** *** [GET /api/search/:query] *)
Definition search (query : string) : M reply :=
  try_catch
    (w <- ask ;;
     data <- axios [Lit (polygon ++ "/v3/reference/tickers?search="); Sub (VStr query);
                    Lit "&active=true&limit=10&apiKey="; apiKey w] ;;
     results <- lift (get data "results") ;;
     json (or results (VArr [])))
    (fun err =>
       if is_404 err then json (VArr [])
       else error 500 "Search failed").

(** *** [GET /api/chart/:symbol] *)

Definition interval (multiplier : Z) (timespan : string) (from : Z) : value :=
  VObj [("multiplier", vnum multiplier); ("timespan", VStr timespan); ("from", vnum from)].

Definition POLYGON_INTERVALS : list (string * value) :=
  [ ("1D", interval 1 "minute" 1);
    ("1W", interval 15 "minute" 7);
    ("1M", interval 1 "day" 30);
    ("6M", interval 1 "day" 180);
    ("1Y", interval 1 "day" 365);
    ("ALL", interval 1 "day" 1825) ].

(** The names every object literal inherits from [Object.prototype]. *)
Definition Object_prototype : list string :=
  [ "constructor"; "__defineGetter__"; "__defineSetter__"; "hasOwnProperty";
    "__lookupGetter__"; "__lookupSetter__"; "isPrototypeOf"; "propertyIsEnumerable";
    "toString"; "valueOf"; "__proto__"; "toLocaleString" ].

(** An inherited member: a function (for [__proto__], the prototype
    itself). It is truthy and has none of the properties [multiplier],
    [timespan], [from]. *)
Definition inherited : value := VObj [].

(** [obj[k]] for an object literal [obj] and an arbitrary key: own
    properties first, then the prototype. *)
Definition member (obj : list (string * value)) (k : string) : value :=
  match assoc k obj with
  | Some v => v
  | None => if List.existsb (String.eqb k) Object_prototype then inherited else VUndefined
  end.

Definition msPerDayFactors (from : value) : number :=
  Num.mul (Num.mul (Num.mul (Num.mul (ToNumber from) (Num.of_Z 24)) (Num.of_Z 60))
             (Num.of_Z 60)) (Num.of_Z 1000).

(** [date.toISOString().split("T")[0]]. *)
Definition date_string (date : option Z) : completion string :=
  match JsDate.toISOString date with
  | Throw e => Throw e
  | Normal s => Normal (nth 0 (Str.split "T" s) "")
  end.

Definition aggs_url (w : world) (ticker : string) (multiplier timespan : value)
    (fromStr toStr : string) : template :=
  [Lit (polygon ++ "/v2/aggs/ticker/"); Sub (VStr ticker); Lit "/range/"; Sub multiplier;
   Lit "/"; Sub timespan; Lit "/"; Sub (VStr fromStr); Lit "/"; Sub (VStr toStr);
   Lit "?adjusted=true&sort=asc&apiKey="; apiKey w].

(** The configuration chosen for [req.query.range]: the range in upper
    case, and the three fields destructured from the table's row. *)
Definition chart_range (range_param : value) : completion string :=
  Call.toUpperCase (or range_param (VStr "1D")).

Definition chart_config (range : string) : value :=
  or (member POLYGON_INTERVALS range) (member POLYGON_INTERVALS "1D").

Definition chart (symbol : string) (query : value) : M reply :=
  range <- lift (chart_range (own query "range")) ;;
  let cfg := chart_config range in
  let multiplier := own cfg "multiplier" in
  let timespan := own cfg "timespan" in
  let from := own cfg "from" in
  w <- ask ;;
  let toDate := JsDate.new_Date (Date_now w) in
  let fromDate := JsDate.setTime (Num.sub (JsDate.getTime toDate) (msPerDayFactors from)) in
  fromStr <- lift (date_string fromDate) ;;
  toStr <- lift (date_string toDate) ;;
  try_catch
    (data <- axios (aggs_url w (Str.toUpperCase symbol) multiplier timespan fromStr toStr) ;;
     let results := opt data "results" in
     if negb (truthy results) || length_is_zero results then json (VArr [])
     else json results)
    (fun _ => error 500 "Failed to fetch chart data").

(** *** [GET /api/ai/suggest/:symbol] *)

Definition model : string := "gemini-1.5-pro".

(** [response.candidates?.[0]?.content?.parts?.[0]], which the three
    AI handlers read before [text]: [None] when the chain was cut short
    by a nullish link. *)
Definition first_part (response : value) : completion (option value) :=
  match get response "candidates" with
  | Throw e => Throw e
  | Normal candidates =>
      Normal
        (chain candidates None (fun cs =>
         chain (index cs 0) None (fun c =>
         chain (own c "content") None (fun content =>
         chain (own content "parts") None (fun parts =>
         chain (index parts 0) None (fun p => Some p))))))
  end.

(** [...?.parts?.[0]?.text]. *)
Definition first_text (response : value) : completion value :=
  match first_part response with
  | Throw e => Throw e
  | Normal None => Normal VUndefined
  | Normal (Some p) => Normal (own p "text")
  end.

(** [line.replace(/^(\*|\d+\.|\s)+/, "")]: stars, numbers followed by a
    dot, and white space are removed from the start of the line. *)
Fixpoint strip_markup (fuel : nat) (line : string) : string :=
  match fuel with
  | O => line
  | S fuel' =>
      match line with
      | EmptyString => EmptyString
      | String c rest =>
          if Ascii.eqb c "*" then strip_markup fuel' rest
          else if Str.is_space c then strip_markup fuel' rest
          else
            match Num.span_digits line with
            | (String _ _, String "." rest') => strip_markup fuel' rest'
            | _ => line
            end
      end
  end.

Definition is_outlook (line : string) : bool :=
  Str.includes (Str.toLowerCase line) "short-term" ||
  Str.includes (Str.toLowerCase line) "long-term".

Definition clean (line : string) : string :=
  Str.trim (strip_markup (String.length line) line).

Definition nth_or_undefined (i : nat) (xs : list string) : value :=
  match nth_error xs i with
  | Some s => VStr s
  | None => VUndefined
  end.

Definition suggest (symbol : string) : M reply :=
  let suggestionPrompt :=
    [Lit "
  Give two bullet point suggestions for "; Sub (VStr symbol); Lit " stock:
  1. Short-Term outlook (1-3 months)
  2. Long-Term outlook (6+ months)
  Use plain language, no disclaimers.
  "] in
  let highlightsPrompt :=
    [Lit "
  In 2-3 bullet points, explain the key drivers currently influencing "; Sub (VStr symbol);
     Lit "'s stock trend.
  Use plain language. Return only the bullets.
  "] in
  try_catch
    (suggestionRes <- generateContent model suggestionPrompt ;;
     text <- lift (first_text suggestionRes) ;;
     let suggestionText := or text (VStr "") in
     lines <- lift (Call.split_lines suggestionText) ;;
     let outlooks := List.map clean (List.filter is_outlook lines) in
     let shortTerm := nth_or_undefined 0 outlooks in
     let longTerm := nth_or_undefined 1 outlooks in
     highlightsRes <- generateContent model highlightsPrompt ;;
     text' <- lift (first_text highlightsRes) ;;
     let highlightsText := or text' (VStr "") in
     trimmed <- lift (Call.trim highlightsText) ;;
     json (VObj
       [ ("shortTerm", coalesce shortTerm (VStr "Short-term insight unavailable."));
         ("longTerm", coalesce longTerm (VStr "Long-term insight unavailable."));
         ("highlights", or (VStr trimmed) (VStr "No highlights available.")) ]))
    (fun _ => error 500 "Failed to generate suggestions").

(** *** [GET /api/top-gainers], [/api/top-losers], [/api/most-active] *)

(** The callback of [tickers.map]: one entry of the list. *)
Definition mover (t : value) : completion value :=
  match get t "ticker" with
  | Throw e => Throw e
  | Normal ticker =>
      Normal (VObj
        [ ("symbol", ticker);
          ("name", ticker);
          ("price", coalesce (opt (own t "lastTrade") "p") (vnum 0));
          ("changePercent", coalesce (own t "todaysChangePerc") (vnum 0));
          ("volume", coalesce (opt (own t "day") "v") (vnum 0)) ])
  end.

(** [response.data.tickers.map(...)]. *)
Definition movers (data : value) : completion (list value) :=
  match get data "tickers" with
  | Throw e => Throw e
  | Normal tickers => Call.map tickers mover
  end.

Definition top_gainers : M reply :=
  try_catch
    (w <- ask ;;
     data <- axios [Lit (polygon ++ "/v2/snapshot/locale/us/markets/stocks/gainers?apiKey="); apiKey w] ;;
     result <- lift (movers data) ;;
     json (VArr (Call.slice0 5 result)))
    (fun _ => error 500 "Failed to fetch top gainers").

Definition top_losers : M reply :=
  try_catch
    (w <- ask ;;
     data <- axios [Lit (polygon ++ "/v2/snapshot/locale/us/markets/stocks/losers?apiKey="); apiKey w] ;;
     result <- lift (movers data) ;;
     json (VArr (Call.slice0 5 result)))
    (fun _ => error 500 "Failed to fetch top losers").

(** [(a, b) => b.volume - a.volume], as [sort] reads it. *)
Definition by_volume_desc (a b : value) : comparison :=
  Num.sign (Num.sub (ToNumber (own b "volume")) (ToNumber (own a "volume"))).

Definition most_active : M reply :=
  try_catch
    (w <- ask ;;
     data <- axios [Lit (polygon ++ "/v2/snapshot/locale/us/markets/stocks/tickers?sort=volume&order=desc&limit=100&apiKey="); apiKey w] ;;
     mapped <- lift (movers data) ;;
     let result := Call.slice0 7 (Call.sort by_volume_desc mapped) in
     json (VArr result))
    (fun _ => error 500 "Failed to fetch most active stocks").

(** *** [GET /api/news/top] and [GET /api/news/:symbol] *)

Definition quoted (middle : value) (before after : string) : template :=
  [Lit (before ++ String (ascii_of_nat 34) EmptyString); Sub middle;
   Lit (String (ascii_of_nat 34) after)].

(** The prompt, with the headline between double quotes. *)
Definition sentiment_prompt (title : value) : template :=
  quoted title "
Analyze the sentiment of the following news headline and return ONLY one word: Positive, Negative, or Neutral.

Headline: " "
        ".

(** [response.candidates?.[0]?.content?.parts?.[0]?.text.trim() ||
    "Neutral"]: [trim] is called on whatever [text] is, unless the chain
    was cut short before it. *)
Definition sentiment_of (response : value) : completion value :=
  match first_part response with
  | Throw e => Throw e
  | Normal None => Normal (or VUndefined (VStr "Neutral"))
  | Normal (Some p) =>
      match Call.trim (own p "text") with
      | Throw e => Throw e
      | Normal s => Normal (or (VStr s) (VStr "Neutral"))
      end
  end.

(** How the two handlers name the publication time. *)
Definition published_field (by_symbol : bool) (article : value) : string * value :=
  if by_symbol then ("published_utc", coalesce (own article "published_utc") VNull)
  else ("published", own article "published_utc").

Definition news_item (by_symbol : bool) (article title sentiment : value) : value :=
  VObj
    [ ("title", title);
      ("url", own article "article_url");
      published_field by_symbol article;
      ("source", or (opt (own article "publisher") "name") (VStr "Unknown"));
      ("sentiment", sentiment) ].

(** The callback of [articles.map(async (article) => ...)]. *)
Definition analyze (by_symbol : bool) (article : value) : M value :=
  title <- lift (get article "title") ;;
  let prompt := sentiment_prompt title in
  try_catch
    (response <- generateContent model prompt ;;
     sentiment <- lift (sentiment_of response) ;;
     ret (news_item by_symbol article title sentiment))
    (fun _ => ret (news_item by_symbol article title (VStr "Neutral"))).

(** What follows the fetch of the articles in both handlers. *)
Definition news_of (by_symbol : bool) (data : value) : M reply :=
  results <- lift (get data "results") ;;
  let articles := or results (VArr []) in
  if negb (truthy articles) || length_is_zero articles then
    error 404 "No news found for this ticker"
  else
    match articles with
    | VArr xs =>
        analyzed <- Promise_all (analyze by_symbol) xs ;;
        json (VArr analyzed)
    | _ => lift (Call.not_a_function "map")
    end.

Definition news_top : M reply :=
  try_catch
    (w <- ask ;;
     data <- axios [Lit (polygon ++ "/v2/reference/news?limit=5&order=desc&apiKey="); apiKey w] ;;
     news_of false data)
    (fun _ => error 500 "Failed to fetch top news").

Definition news_symbol (symbol : string) : M reply :=
  try_catch
    (w <- ask ;;
     data <- axios [Lit (polygon ++ "/v2/reference/news?ticker="); Sub (VStr (Str.toUpperCase symbol));
                    Lit "&limit=5&order=desc&apiKey="; apiKey w] ;;
     news_of true data)
    (fun _ => error 500 "Failed to fetch news for this ticker").

(** *** [POST /api/ai/chat] *)

(** [...?.text?.trim()]. *)
Definition trimmed_text (response : value) : completion value :=
  match first_text response with
  | Throw e => Throw e
  | Normal text =>
      chain text (Normal VUndefined) (fun t =>
        match Call.trim t with
        | Throw e => Throw e
        | Normal s => Normal (VStr s)
        end)
  end.

Definition chat (body : value) : M reply :=
  question <- lift (get body "question") ;;
  symbol <- lift (get body "symbol") ;;
  let prompt :=
    ([Lit "
You are a helpful AI financial assistant. Answer this question related to the stock ";
      Sub symbol] ++ quoted question ":

" "

Respond with a concise, investor-friendly answer.")%list in
  try_catch
    (response <- generateContent model prompt ;;
     trimmed <- lift (trimmed_text response) ;;
     let text := or trimmed (VStr "Sorry, I couldn’t find an answer.") in
     json (VObj [("answer", text)]))
    (fun _ => error 500 "Failed to get response from AI").

(** *** [GET /api/sectors] *)

Definition sectorETFs : list (string * string) :=
  [ ("Technology", "XLK");
    ("Healthcare", "XLV");
    ("Financials", "XLF");
    ("Energy", "XLE");
    ("Consumer Discretionary", "XLY") ].

(** The callback of [sectorETFs.map(async ({ name, symbol }) => ...)]:
    nothing in it catches. *)
Definition sector (etf : string * string) : M value :=
  let (name, symbol) := etf in
  w <- ask ;;
  data <- axios (snapshot_url w symbol) ;;
  ticker <- lift (get data "ticker") ;;
  changePerc <- lift (get ticker "todaysChangePerc") ;;
  ret (VObj [("name", VStr name); ("changePercent", coalesce changePerc (vnum 0))]).

Definition sectors : M reply :=
  try_catch
    (results <- Promise_all sector sectorETFs ;;
     json (VArr results))
    (fun _ => error 500 "Failed to fetch sector data").

(** *** [GET /api/market-status] *)

Definition market_status : M reply :=
  try_catch
    (w <- ask ;;
     data <- axios [Lit (polygon ++ "/v1/marketstatus/now?apiKey="); apiKey w] ;;
     market <- lift (get data "market") ;;
     nextOpen <- lift (get data "nextOpen") ;;
     nextClose <- lift (get data "nextClose") ;;
     json (VObj
       [ ("status", VStr (if is_str market "open" then "OPEN" else "CLOSED"));
         ("nextOpen", nextOpen);
         ("nextClose", nextClose) ]))
    (fun _ => error 500 "Failed to fetch market status").

End Server.

(** ** The rate limiter *)

(** Modelled from the spec: the middleware built by [rateLimit] of
    [express-rate-limit], which is not in the repository. The spec's
    words: "a fixed window (10 minutes) capping total requests per client
    IP (500); requests over the cap receive HTTP 429 with a static
    message, with standard rate-limit response headers set and legacy
    headers suppressed". A client's window opens with its first request
    and lasts [windowMs]; each request is counted, and is refused once
    the count of the window passes [max]. *)
Module RateLimit.

Local Open Scope Z_scope.

Record options : Type := {
  windowMs : Z;
  max : Z;
  message : string;
  standardHeaders : bool;
  legacyHeaders : bool
}.

(** The count of a client's current window and the time it ends. *)
Record client : Type := { totalHits : Z; resetTime : Z }.

Definition store : Type := list (string * client).

Fixpoint lookup (key : string) (st : store) : option client :=
  match st with
  | [] => None
  | (k, c) :: st' => if String.eqb key k then Some c else lookup key st'
  end.

(** The client's window at time [now]: the stored one while it lasts, a
    new one otherwise. *)
Definition current (opts : options) (st : store) (key : string) (now : Z) : client :=
  match lookup key st with
  | Some c => if resetTime c <=? now
              then {| totalHits := 0; resetTime := now + windowMs opts |}
              else c
  | None => {| totalHits := 0; resetTime := now + windowMs opts |}
  end.

Definition increment (opts : options) (st : store) (key : string) (now : Z) : client * store :=
  let c := current opts st key now in
  let c' := {| totalHits := totalHits c + 1; resetTime := resetTime c |} in
  (c', (key, c') :: st).

Definition standard_headers (opts : options) (c : client) (now : Z) : list (string * Z) :=
  [ ("RateLimit-Limit", max opts);
    ("RateLimit-Remaining", Z.max 0 (max opts - totalHits c));
    ("RateLimit-Reset", (resetTime c - now + 999) / 1000) ].

Definition legacy_headers (opts : options) (c : client) (now : Z) : list (string * Z) :=
  [ ("X-RateLimit-Limit", max opts);
    ("X-RateLimit-Remaining", Z.max 0 (max opts - totalHits c));
    ("X-RateLimit-Reset", (resetTime c + 999) / 1000) ].

Definition headers (opts : options) (c : client) (now : Z) : list (string * Z) :=
  ((if standardHeaders opts then standard_headers opts c now else []) ++
   (if legacyHeaders opts then legacy_headers opts c now else []))%list.

Definition exceeded (opts : options) (c : client) : bool := max opts <? totalHits c.

End RateLimit.

(** ** Routing *)

Module App.

Inductive method : Type := GET | HEAD | POST | OtherMethod.

(** A request as the router sees it: the decoded segments of the path,
    the parsed query ([req.query]) and body ([req.body]), and the
    client's address. *)
Record request : Type := {
  verb : method;
  path : list string;
  query : value;
  body : value;
  ip : string
}.

Record response : Type := {
  answer : reply;
  headers : list (string * Z)
}.

(** [apiLimiter]. *)
Definition apiLimiter : RateLimit.options :=
  {| RateLimit.windowMs := 10 * 60 * 1000;
     RateLimit.max := 500;
     RateLimit.message := "🚫 Too many requests from this IP. Please try again later.";
     RateLimit.standardHeaders := true;
     RateLimit.legacyHeaders := false |}.

(** The limiter with another cap, as a test configures it. *)
Definition with_max (n : Z) (opts : RateLimit.options) : RateLimit.options :=
  {| RateLimit.windowMs := RateLimit.windowMs opts;
     RateLimit.max := n;
     RateLimit.message := RateLimit.message opts;
     RateLimit.standardHeaders := RateLimit.standardHeaders opts;
     RateLimit.legacyHeaders := RateLimit.legacyHeaders opts |}.

(** A segment of a route's path matches whatever the case of the
    letters (Express's default). *)
Definition seg (s literal : string) : bool := String.eqb (Str.toLowerCase s) literal.

Definition is_get (m : method) : bool :=
  match m with GET | HEAD => true | _ => false end.

Definition is_post (m : method) : bool :=
  match m with POST => true | _ => false end.

(** A path parameter [:name] takes one segment, which is not empty. *)
Definition param (s : string) : bool := negb (Str.is_empty s).

(** The routes, in the order in which the file registers them; the
    first that matches handles the request. *)
Definition routes (req : request) : option (M reply) :=
  match path req with
  | [api; a] =>
      if negb (seg api "api") then None
      else if is_get (verb req) && seg a "top-gainers" then Some Server.top_gainers
      else if is_get (verb req) && seg a "top-losers" then Some Server.top_losers
      else if is_get (verb req) && seg a "most-active" then Some Server.most_active
      else if is_get (verb req) && seg a "sectors" then Some Server.sectors
      else if is_get (verb req) && seg a "market-status" then Some Server.market_status
      else None
  | [api; a; b] =>
      if negb (seg api "api") then None
      else if is_get (verb req) && seg a "quote" && param b then Some (Server.quote b)
      else if is_get (verb req) && seg a "search" && param b then Some (Server.search b)
      else if is_get (verb req) && seg a "chart" && param b then Some (Server.chart b (query req))
      else if is_get (verb req) && seg a "news" && seg b "top" then Some Server.news_top
      else if is_post (verb req) && seg a "ai" && seg b "chat" then Some (Server.chat (body req))
      else if is_get (verb req) && seg a "news" && param b then Some (Server.news_symbol b)
      else None
  | [api; a; b; c] =>
      if negb (seg api "api") then None
      else if is_get (verb req) && seg a "ai" && seg b "suggest" && param c then Some (Server.suggest c)
      else None
  | _ => None
  end.

Definition dispatch (w : world) (req : request) : reply * list call :=
  match routes req with
  | Some h => run h w
  | None => (NoRoute, [])
  end.

(** [app.use('/api', apiLimiter)]: the paths the limiter sees. *)
Definition under_api (req : request) : bool :=
  match path req with
  | api :: _ => seg api "api"
  | [] => false
  end.

(** One request through the application: the limiter on [/api], then
    the routes. The limiter's key is the client's address, its clock
    the world's. *)
Definition serve (opts : RateLimit.options) (st : RateLimit.store) (w : world) (req : request)
  : response * list call * RateLimit.store :=
  if under_api req then
    let (c, st') := RateLimit.increment opts st (ip req) (Date_now w) in
    let hs := RateLimit.headers opts c (Date_now w) in
    if RateLimit.exceeded opts c then
      ({| answer := Reply 429 (VStr (RateLimit.message opts)); headers := hs |}, [], st')
    else
      let (r, calls) := dispatch w req in
      ({| answer := r; headers := hs |}, calls, st')
  else
    let (r, calls) := dispatch w req in
    ({| answer := r; headers := [] |}, calls, st).

(** The application of [index.js]. *)
Definition app := serve apiLimiter.

(** A sequence of requests, each in its own world, served one after the
    other from the store [st]. *)
Fixpoint serve_all (opts : RateLimit.options) (st : RateLimit.store)
    (rs : list (world * request)) : list response :=
  match rs with
  | [] => []
  | (w, req) :: rs' =>
      let '(resp, _, st') := serve opts st w req in
      resp :: serve_all opts st' rs'
  end.

End App.

(** ** The dashboard *)

(** [frontend/src/App.tsx]: what the dashboard asks the backend when it
    is mounted, and the state it sets from the answers. Its functions
    run in the same monad [M]: there [axios_get] is the browser's and
    stands for the backend, resolving with the body of a reply and
    rejecting with the error of axios. The effect starts three
    activities, [quickPicks], [marketStatus] and [fetchAllData]; each
    sets its own part of the state and is modelled on its own, with its
    own list of calls. *)
Module Dashboard.

Import Js.

Definition backend : string := "http://localhost:4000".

Definition quote_url (symbol : string) : template :=
  [Lit (backend ++ "/api/quote/"); Sub (VStr symbol)].

Definition sectors_url : template := [Lit (backend ++ "/api/sectors")].
Definition top_gainers_url : template := [Lit (backend ++ "/api/top-gainers")].
Definition top_losers_url : template := [Lit (backend ++ "/api/top-losers")].
Definition most_active_url : template := [Lit (backend ++ "/api/most-active")].
Definition top_news_url : template := [Lit (backend ++ "/api/news/top")].
Definition market_status_url : template := [Lit (backend ++ "/api/market-status")].

(** The setters of the component's state, with the value they are
    called with. *)
Inductive update : Type :=
| setQuickPicks (v : value)
| setIndices (v : value)
| setSectors (v : value)
| setTopGainers (v : value)
| setTopLosers (v : value)
| setMostActive (v : value)
| setTopNews (v : value)
| setMarketStatus (v : value).

Definition popularSymbols : list string :=
  ["AAPL"; "TSLA"; "NVDA"; "AMZN"; "MSFT"; "GOOGL"].

(** [Promise.all(popularSymbols.map((sym) => axios.get(...).then((res)
    => res.data))).then((results) => setQuickPicks(results))]: nothing
    handles a rejection. *)
Definition quickPicks : M (list update) :=
  results <- Promise_all (fun sym => axios (quote_url sym)) popularSymbols ;;
  ret [setQuickPicks (VArr results)].

Definition indexSymbols : list (string * string) :=
  [ ("SPY", "S&P 500"); ("QQQ", "NASDAQ 100"); ("DIA", "Dow Jones") ].

(** [for (const idx of indexSymbols) { try { ... indexResults.push(...)
    } catch (err) { ... } }]: the array is threaded through the loop. *)
Fixpoint index_loop (idxs : list (string * string)) (indexResults : list value)
  : M (list value) :=
  match idxs with
  | [] => ret indexResults
  | (symbol, name) :: rest =>
      pushed <-
        try_catch
          (data <- axios (quote_url symbol) ;;
           price <- lift (get data "price") ;;
           changePercent <- lift (get data "changePercent") ;;
           ret (indexResults ++
                [VObj [("name", VStr name); ("price", price);
                       ("changePercent", changePercent)]])%list)
          (fun _ => ret indexResults) ;;
      index_loop rest pushed
  end.

(** [fetchAllData]: the indices, then the sectors, then the three
    lists of movers, then the news, each in its own [try]. *)
Definition fetchAllData : M (list update) :=
  indexResults <- index_loop indexSymbols [] ;;
  sectors <-
    try_catch (data <- axios sectors_url ;; ret [setSectors data])
      (fun _ => ret []) ;;
  movers <-
    try_catch
      (responses <- Promise_all axios [top_gainers_url; top_losers_url; most_active_url] ;;
       ret [setTopGainers (nth 0 responses VUndefined);
            setTopLosers (nth 1 responses VUndefined);
            setMostActive (nth 2 responses VUndefined)])
      (fun _ => ret []) ;;
  news <-
    try_catch (data <- axios top_news_url ;; ret [setTopNews data])
      (fun _ => ret []) ;;
  ret (setIndices (VArr indexResults) :: sectors ++ movers ++ news)%list.

(** [axios.get(...).then((res) => setMarketStatus(res.data.status))
    .catch(() => setMarketStatus("UNKNOWN"))]. *)
Definition marketStatus : M (list update) :=
  try_catch
    (data <- axios market_status_url ;;
     status <- lift (get data "status") ;;
     ret [setMarketStatus status])
    (fun _ => ret [setMarketStatus (VStr "UNKNOWN")]).

(** The state set by an activity once it has come to its end: nothing
    when its promise rejects. *)
Definition settled (activity : M (list update)) (w : world) : list update * list call :=
  match activity w [] with
  | (Normal updates, t) => (updates, t)
  | (Throw _, t) => ([], t)
  end.

(** What a body given to [res.json] is on the other side, once written
    as JSON and read again (for a body that is not [undefined]): a
    number that is not finite is [null], a property that is [undefined]
    is left out, an element that is [undefined] is [null]. *)
Fixpoint wire (v : value) : value :=
  match v with
  | VNum (Fin q) => VNum (Fin q)
  | VNum _ => VNull
  | VArr xs =>
      VArr (List.map (fun x => match x with VUndefined => VNull | _ => wire x end) xs)
  | VObj ps =>
      VObj ((fix props (ps : list (string * value)) : list (string * value) :=
               match ps with
               | [] => []
               | (k, VUndefined) :: ps' => props ps'
               | (k, x) :: ps' => (k, wire x) :: props ps'
               end) ps)
  | _ => v
  end.

(** What the browser's [axios.get] makes of a reply of the backend: it
    resolves with the body of a reply 2xx and rejects with the response
    otherwise. *)
Definition response_of (code : Z) (body : value) : completion value :=
  if ((200 <=? code) && (code <? 300))%Z then Normal (wire body)
  else Throw (AxiosError "Request failed" (Some {| status := code; data := wire body |})).

End Dashboard.

(** * Vocabulary of the statements *)

Module Spec.

Import Js Server.

(** A symbol that passes both checks of [symbol_chain]. *)
Definition valid (symbol : string) : bool :=
  Validator.isAlphanumeric symbol && Validator.isLength 1 10 symbol.

(** The snapshot the handler looks at, and whether it stops on it. *)
Definition no_snapshot (snapshotRes : value) : bool :=
  negb (truthy (opt snapshotRes "ticker")) || no_keys (opt snapshotRes "ticker").

Definition failure (e : exn) : reply :=
  if is_404 e then Reply 404 (VObj [("error", VStr "Stock not found")])
  else Reply 500 (VObj [("error", VStr "Failed to fetch quote from Polygon")]).

(** What the daily bar ([which] is ["day"]) or the minute bar (["min"])
    of a snapshot holds for a field: [undefined] when the bar or the
    field is missing. *)
Definition bar (snapshot : value) (which field : string) : value :=
  own (or (own snapshot which) (VObj [])) field.

(** [field] is chosen between the daily value [d] and the minute value
    [m] by truthiness, with [0] for want of both. *)
Definition selects (d m field : value) : Prop :=
  (truthy d = true -> field = d) /\
  (truthy d = false -> truthy m = true -> field = m) /\
  (truthy d = false -> truthy m = false -> field = vnum 0).

(** The selection as the spec words it: the first source that is not
    null wins. *)
Definition first_non_null (d m : value) : value :=
  if nullish d then (if nullish m then vnum 0 else m) else d.

(** *** News *)

(** The three words of the sentiment. *)
Definition sentiment_word (v : value) : Prop :=
  v = VStr "Positive" \/ v = VStr "Negative" \/ v = VStr "Neutral".

(** The sentiment read from the provider's answer to one prompt: the
    text of the first part of the first candidate, trimmed, when there
    is such a text and it is not blank; ["Neutral"] when the call
    failed, when the answer has no such text, or when the text is
    blank. *)
Definition sentiment_text (answer : completion value) : string :=
  match answer with
  | Throw _ => "Neutral"
  | Normal response =>
      match first_part response with
      | Normal (Some p) =>
          match own p "text" with
          | VStr s => if Str.is_empty (Str.trim s) then "Neutral" else Str.trim s
          | _ => "Neutral"
          end
      | _ => "Neutral"
      end
  end.

(** The answer to the prompt about [article] when it is the [n]-th
    prompt of the request, and the item made of it. *)
Definition answer (w : world) (n : nat) (article : value) : completion value :=
  models_generateContent w n (sentiment_prompt (own article "title")).

Definition item (by_symbol : bool) (w : world) (n : nat) (article : value) : value :=
  news_item by_symbol article (own article "title") (VStr (sentiment_text (answer w n article))).

Fixpoint analyzed (by_symbol : bool) (w : world) (n : nat) (articles : list value) : list value :=
  match articles with
  | [] => []
  | a :: rest => item by_symbol w n a :: analyzed by_symbol w (S n) rest
  end.

(** The same when some article is [null]: its task throws before it
    asks anything. *)
Fixpoint outcomes (by_symbol : bool) (w : world) (n : nat) (articles : list value)
  : list (completion value) :=
  match articles with
  | [] => []
  | a :: rest =>
      match get a "title" with
      | Throw e => Throw e :: outcomes by_symbol w n rest
      | Normal _ => Normal (item by_symbol w n a) :: outcomes by_symbol w (S n) rest
      end
  end.

Definition prompts (articles : list value) : list call :=
  flat_map (fun a => if nullish a then []
                     else [GenerateContent model (sentiment_prompt (own a "title"))]) articles.

Definition top_news_url (w : world) : template :=
  [Lit (polygon ++ "/v2/reference/news?limit=5&order=desc&apiKey="); apiKey w].

Definition symbol_news_url (w : world) (symbol : string) : template :=
  [Lit (polygon ++ "/v2/reference/news?ticker="); Sub (VStr (Str.toUpperCase symbol));
   Lit "&limit=5&order=desc&apiKey="; apiKey w].

(** The handler of the news and the URL it fetches. *)
Definition news (by_symbol : bool) (symbol : string) : M reply :=
  if by_symbol then news_symbol symbol else news_top.

Definition news_url (by_symbol : bool) (w : world) (symbol : string) : template :=
  if by_symbol then symbol_news_url w symbol else top_news_url w.

(** *** Chart ranges *)

(** The table of the spec: multiplier, unit and days of lookback of each
    range, the row of [1D] for any other key. *)
Definition range_table (range : string) : Z * string * Z :=
  if String.eqb range "1D" then (1, "minute", 1)%Z
  else if String.eqb range "1W" then (15, "minute", 7)%Z
  else if String.eqb range "1M" then (1, "day", 30)%Z
  else if String.eqb range "6M" then (1, "day", 180)%Z
  else if String.eqb range "1Y" then (1, "day", 365)%Z
  else if String.eqb range "ALL" then (1, "day", 1825)%Z
  else (1, "minute", 1)%Z.

Definition lookback_days (range : string) : Z := snd (range_table range).

(** The key a range string is looked up with: the string in upper
    case, [1D] for the empty string. *)
Definition range_key (r : string) : string :=
  if Str.is_empty r then "1D" else Str.toUpperCase r.

(** The URL of the aggregates for a symbol, a key of the table and the
    day number of today. *)
Definition chart_url (w : world) (symbol key : string) (today : Z) : template :=
  let '(multiplier, timespan, days) := range_table key in
  aggs_url w (Str.toUpperCase symbol) (vnum multiplier) (VStr timespan)
    (JsDate.isoDate (today - days)) (JsDate.isoDate today).

(** *** The calendar *)

(** The calendar of ECMAScript: the day number of 1 January of a year,
    leap years, and the days of a year that come before a month. *)
Definition DayFromYear (y : Z) : Z :=
  (365 * (y - 1970) + (y - 1969) / 4 - (y - 1901) / 100 + (y - 1601) / 400)%Z.

Definition InLeapYear (y : Z) : bool :=
  (((y mod 4 =? 0) && negb (y mod 100 =? 0)) || (y mod 400 =? 0))%Z.

Definition days_before_month (leap : bool) (m : Z) : Z :=
  (let extra := if leap then 1 else 0 in
   if m =? 1 then 0 else if m =? 2 then 31
   else extra +
        (if m =? 3 then 59 else if m =? 4 then 90 else if m =? 5 then 120
         else if m =? 6 then 151 else if m =? 7 then 181 else if m =? 8 then 212
         else if m =? 9 then 243 else if m =? 10 then 273 else if m =? 11 then 304
         else 334))%Z.

(** [date] is the year, month and day of the month of day number [d]:
    the month is one of the twelve, and [d] is the day of that rank in
    that month of that year. *)
Definition gregorian (d : Z) (date : Z * Z * Z) : bool :=
  (let '(y, m, dd) := date in
   let leap := InLeapYear y in
   (1 <=? m) && (m <=? 12) && (1 <=? dd) &&
   (d =? DayFromYear y + days_before_month leap m + dd - 1) &&
   (d <? DayFromYear y +
         (if m =? 12 then (if leap then 366 else 365) else days_before_month leap (m + 1))))%Z.

(** [p] holds of the [fuel] integers from [i] on. *)
Fixpoint all_from (fuel : nat) (i : Z) (p : Z -> bool) : bool :=
  match fuel with
  | O => true
  | S fuel' => p i && all_from fuel' (i + 1)%Z p
  end.

(** *** Movers *)

Definition gainers_url (w : world) : template :=
  [Lit (polygon ++ "/v2/snapshot/locale/us/markets/stocks/gainers?apiKey="); apiKey w].

Definition losers_url (w : world) : template :=
  [Lit (polygon ++ "/v2/snapshot/locale/us/markets/stocks/losers?apiKey="); apiKey w].

Definition most_active_url (w : world) : template :=
  [Lit (polygon ++ "/v2/snapshot/locale/us/markets/stocks/tickers?sort=volume&order=desc&limit=100&apiKey=");
   apiKey w].

(** The entry made of a ticker of the page that is not [null]. *)
Definition entry (t : value) : value :=
  VObj
    [ ("symbol", own t "ticker");
      ("name", own t "ticker");
      ("price", coalesce (opt (own t "lastTrade") "p") (vnum 0));
      ("changePercent", coalesce (own t "todaysChangePerc") (vnum 0));
      ("volume", coalesce (opt (own t "day") "v") (vnum 0)) ].

(** The volume of an entry, as the comparator reads it. *)
Definition volume_of (e : value) : number := ToNumber (own e "volume").

(** [b] does not have to come before [a]: the comparator, called on
    [a] and [b], does not return a positive number. *)
Definition not_below (a b : value) : Prop := by_volume_desc a b <> Gt.

(** Both volumes are finite numbers, and [a]'s is at least [b]'s. *)
Definition volume_ge (a b : value) : Prop :=
  exists qa qb, volume_of a = Fin qa /\ volume_of b = Fin qb /\ (qb <= qa)%Q.

Definition finite_volume (e : value) : Prop := exists q, volume_of e = Fin q.

(** A page of tickers: the body is not [null], its [tickers] is an
    array, and no ticker is [null]. *)
Definition page (data : value) (tickers : list value) : Prop :=
  nullish data = false /\ own data "tickers" = VArr tickers /\
  forallb (fun t => negb (nullish t)) tickers = true.

(** *** Sectors *)

(** What the task of one sector ETF comes to. *)
Definition sector_outcome (w : world) (etf : string * string) : completion value :=
  match axios_get w (snapshot_url w (snd etf)) with
  | Throw e => Throw e
  | Normal data =>
      match get data "ticker" with
      | Throw e => Throw e
      | Normal ticker =>
          match get ticker "todaysChangePerc" with
          | Throw e => Throw e
          | Normal changePerc =>
              Normal (VObj [("name", VStr (fst etf));
                            ("changePercent", coalesce changePerc (vnum 0))])
          end
      end
  end.

Definition is_normal {A} (c : completion A) : bool :=
  match c with Normal _ => true | Throw _ => false end.

(** *** The rate limiter *)

(** A request of the client [c] that the limiter sees. *)
Definition from_client (c : string) (x : world * App.request) : bool :=
  App.under_api (snd x) && String.eqb (App.ip (snd x)) c.

(** How many of the requests are the client's. *)
Definition count_client (c : string) (rs : list (world * App.request)) : Z :=
  Z.of_nat (List.length (List.filter (from_client c) rs)).

(** No window of the client is open at time [t0]. *)
Definition no_window (st : RateLimit.store) (c : string) (t0 : Z) : bool :=
  match RateLimit.lookup c st with
  | None => true
  | Some cl => (RateLimit.resetTime cl <=? t0)%Z
  end.

(** Every request of the client falls in the [windowMs] milliseconds
    that start at [t0]. *)
Definition in_window (opts : RateLimit.options) (c : string) (t0 : Z)
    (rs : list (world * App.request)) : bool :=
  forallb (fun x => negb (from_client c x) ||
                    ((t0 <=? Date_now (fst x))%Z &&
                     (Date_now (fst x) <? t0 + RateLimit.windowMs opts)%Z)) rs.

(** The names of the headers the limiter sets. *)
Definition header_names (opts : RateLimit.options) : list string :=
  ((if RateLimit.standardHeaders opts
    then ["RateLimit-Limit"; "RateLimit-Remaining"; "RateLimit-Reset"] else []) ++
   (if RateLimit.legacyHeaders opts
    then ["X-RateLimit-Limit"; "X-RateLimit-Remaining"; "X-RateLimit-Reset"] else []))%list.

Definition too_many (opts : RateLimit.options) : reply :=
  Reply 429 (VStr (RateLimit.message opts)).

(** *** Helpers of the proofs *)

(** The prompts among the calls issued so far. *)
Definition generated (t : list call) : nat := List.length (List.filter is_generate t).

(** The reply of a news handler to any failure. *)
Definition news_failed (by_symbol : bool) : reply :=
  Reply 500 (VObj [("error", VStr (if by_symbol then "Failed to fetch news for this ticker"
                                   else "Failed to fetch top news"))]).

(** A handler that lists movers: the reply and the call, by what the
    provider answers. *)
Definition listing (failed : string) (keep : list value -> list value) (url : template)
    (w : world) : reply * list call :=
  (match axios_get w url with
   | Throw _ => Reply 500 (VObj [("error", VStr failed)])
   | Normal data =>
       match movers data with
       | Normal entries => Reply 200 (VArr (keep entries))
       | Throw _ => Reply 500 (VObj [("error", VStr failed)])
       end
   end, [AxiosGet url]).

Definition is_T (c : ascii) : bool := Ascii.eqb c "T".

(** What the store holds for the client after [k] of its requests in
    the window that starts at [t0]. *)
Definition counted (opts : RateLimit.options) (c : string) (t0 : Z)
    (st : RateLimit.store) (k : Z) : Prop :=
  (k = 0 /\ no_window st c t0 = true)%Z \/
  (0 < k /\ exists reset, RateLimit.lookup c st = Some {| RateLimit.totalHits := k;
                                                          RateLimit.resetTime := reset |} /\
                          t0 + RateLimit.windowMs opts <= reset)%Z.

(** *** Search, suggestions and chat *)

Definition search_url (w : world) (query : string) : template :=
  [Lit (polygon ++ "/v3/reference/tickers?search="); Sub (VStr query);
   Lit "&active=true&limit=10&apiKey="; apiKey w].

Definition search_failed : reply := Reply 500 (VObj [("error", VStr "Search failed")]).

Definition chart_failed : reply :=
  Reply 500 (VObj [("error", VStr "Failed to fetch chart data")]).

Definition suggest_failed : reply :=
  Reply 500 (VObj [("error", VStr "Failed to generate suggestions")]).

Definition chat_failed : reply :=
  Reply 500 (VObj [("error", VStr "Failed to get response from AI")]).

(** The prompts of the suggestions and of the chat. *)
Definition suggestion_prompt (symbol : string) : template :=
    [Lit "
  Give two bullet point suggestions for "; Sub (VStr symbol); Lit " stock:
  1. Short-Term outlook (1-3 months)
  2. Long-Term outlook (6+ months)
  Use plain language, no disclaimers.
  "].

Definition highlights_prompt (symbol : string) : template :=
    [Lit "
  In 2-3 bullet points, explain the key drivers currently influencing "; Sub (VStr symbol);
     Lit "'s stock trend.
  Use plain language. Return only the bullets.
  "].

Definition chat_prompt (symbol question : value) : template :=
    ([Lit "
You are a helpful AI financial assistant. Answer this question related to the stock ";
      Sub symbol] ++ quoted question ":

" "

Respond with a concise, investor-friendly answer.")%list.

(** The string has some text, and no white space around it. *)
Definition trimmed (s : string) : Prop := s <> "" /\ Str.trim s = s.

(** The lines of a suggestion that mention an outlook, cleaned, in the
    order of the text. *)
Definition outlooks (lines : list string) : list string :=
  List.map clean (List.filter is_outlook lines).

(** The suggestion made of the lines of the first answer and of the
    trimmed text of the second. *)
Definition suggestion (lines : list string) (highlights : string) : value :=
  VObj
    [ ("shortTerm", coalesce (nth_or_undefined 0 (outlooks lines))
                      (VStr "Short-term insight unavailable."));
      ("longTerm", coalesce (nth_or_undefined 1 (outlooks lines))
                     (VStr "Long-term insight unavailable."));
      ("highlights", or (VStr highlights) (VStr "No highlights available.")) ].

(** The characters the clean-up of a line can remove from its start. *)
Definition markup (c : ascii) : bool :=
  Ascii.eqb c "*" || Str.is_space c || Str.is_digit c || Ascii.eqb c ".".

(** An entry whose volume is the finite number [q]. *)
Definition same_volume (q : Q) (e : value) : bool :=
  match volume_of e with
  | Fin v => Qeq_bool v q
  | _ => false
  end.

(** *** News items and movers *)

(** The publication time of an item: the top news name it [published]
    and leave it out when the article has none; the news of a symbol
    name it [published_utc] and give [null] for want of it. *)
Definition published_as (by_symbol : bool) (item : value) : Prop :=
  if by_symbol
  then own item "published_utc" <> VUndefined /\ own item "published" = VUndefined
  else own item "published_utc" = VUndefined.

(** An item made of an article: the title and the URL are the
    article's; the source is the publisher's name, [Unknown] for want of
    it; the sentiment is a text with no white space around it. *)
Definition item_of (by_symbol : bool) (article it : value) : Prop :=
  own it "title" = own article "title" /\
  own it "url" = own article "article_url" /\
  truthy (own it "source") = true /\
  (truthy (opt (own article "publisher") "name") = false -> own it "source" = VStr "Unknown") /\
  (exists s, own it "sentiment" = VStr s /\ trimmed s) /\
  published_as by_symbol it.

(** An entry of a list of movers: its name is its symbol, and price,
    changePercent and volume hold a value. *)
Definition mover_entry (e : value) : Prop :=
  own e "name" = own e "symbol" /\
  nullish (own e "price") = false /\
  nullish (own e "changePercent") = false /\
  nullish (own e "volume") = false.

(** *** The dashboard *)

(** The row of an index in the dashboard: there is one when the quote
    of its symbol was answered with a body. *)
Definition index_row (w : world) (idx : string * string) : list value :=
  match axios_get w (Dashboard.quote_url (fst idx)) with
  | Normal data =>
      if nullish data then []
      else [VObj [("name", VStr (snd idx)); ("price", own data "price");
                  ("changePercent", own data "changePercent")]]
  | Throw _ => []
  end.

(** What [fetchAllData] sets besides the indices, by what the backend
    answers. *)
Definition sectors_part (w : world) : list Dashboard.update :=
  match axios_get w Dashboard.sectors_url with
  | Normal data => [Dashboard.setSectors data]
  | Throw _ => []
  end.

Definition movers_part (w : world) : list Dashboard.update :=
  match axios_get w Dashboard.top_gainers_url, axios_get w Dashboard.top_losers_url,
        axios_get w Dashboard.most_active_url with
  | Normal gainers, Normal losers, Normal active =>
      [Dashboard.setTopGainers gainers; Dashboard.setTopLosers losers;
       Dashboard.setMostActive active]
  | _, _, _ => []
  end.

Definition news_part (w : world) : list Dashboard.update :=
  match axios_get w Dashboard.top_news_url with
  | Normal data => [Dashboard.setTopNews data]
  | Throw _ => []
  end.

(** The requests of [fetchAllData], in the order in which it makes
    them. *)
Definition dashboard_requests : list call :=
  (List.map (fun idx => AxiosGet (Dashboard.quote_url (fst idx))) Dashboard.indexSymbols ++
   List.map AxiosGet
     [Dashboard.sectors_url; Dashboard.top_gainers_url; Dashboard.top_losers_url;
      Dashboard.most_active_url; Dashboard.top_news_url])%list.

(** An update of one of the three lists of movers. *)
Definition sets_movers (u : Dashboard.update) : bool :=
  match u with
  | Dashboard.setTopGainers _ | Dashboard.setTopLosers _ | Dashboard.setMostActive _ => true
  | _ => false
  end.

(** A request for the market status, from any address. *)
Definition asks_market_status (req : App.request) : Prop :=
  App.verb req = App.GET /\ App.path req = ["api"; "market-status"].

(** *** Error replies *)

Definition failed (code : Z) (msg : string) : Z * value :=
  (code, VObj [("error", VStr msg)]).

(** The error replies the handlers are written with: a status and a
    fixed message. *)
Definition error_catalogue : list (Z * value) :=
  [ failed 400 "Invalid value";
    failed 400 "Invalid stock symbol";
    failed 404 "Stock not found or no snapshot data available";
    failed 404 "Stock not found";
    failed 500 "Failed to fetch quote from Polygon";
    failed 500 "Search failed";
    failed 500 "Failed to fetch chart data";
    failed 500 "Failed to generate suggestions";
    failed 500 "Failed to fetch top gainers";
    failed 500 "Failed to fetch top losers";
    failed 500 "Failed to fetch most active stocks";
    failed 404 "No news found for this ticker";
    failed 500 "Failed to fetch top news";
    failed 500 "Failed to get response from AI";
    failed 500 "Failed to fetch sector data";
    failed 500 "Failed to fetch news for this ticker";
    failed 500 "Failed to fetch market status" ].

(** A reply of a handler is a success, or one of the catalogue. *)
Definition catalogued (r : reply) : Prop :=
  match r with
  | Reply code body => code = 200%Z \/ In (code, body) error_catalogue
  | NoRoute | Unhandled _ => True
  end.

(** *** Where the calls go *)

(** A call of the backend goes to one of its two providers: a URL
    starts with a fixed text that holds the whole of the provider's
    address, before anything of the request is substituted; a prompt goes
    to the one model. *)
Definition to_provider (c : call) : Prop :=
  match c with
  | AxiosGet (Lit s :: _) => String.prefix (polygon ++ "/") s = true
  | AxiosGet _ => False
  | GenerateContent m _ => m = model
  end.

(** The URLs fetched among the calls of a request. *)
Definition fetched (t : list call) : list call :=
  List.filter (fun c => negb (is_generate c)) t.

(** The URLs fetched for a request are all different, and there are at
    most [n] of them. *)
Definition at_most (n : nat) (t : list call) : Prop :=
  NoDup (fetched t) /\ (List.length (fetched t) <= n)%nat.

(** The fields of a quote that hold a number, and those that hold
    [null] for want of metadata. *)
Definition quote_numbers : list string :=
  ["price"; "volume"; "change"; "changePercent"; "open"; "prevClose"; "high"; "low"].

Definition quote_optionals : list string :=
  ["avgVolume"; "marketCap"; "week52High"; "week52Low"; "description"].

End Spec.

(** * Worlds of the examples *)

Module Examples.

Import Js.

Definition no_ai : nat -> template -> completion value :=
  fun _ _ => Throw (Error "unavailable").

Definition noon : Z := 1700000000000.

(** The provider answers every URL with [data]. *)
Definition always (data : value) : world :=
  {| POLYGON_API_KEY := VStr "key";
     axios_get := fun _ => Normal data;
     models_generateContent := no_ai;
     Date_now := noon |}.

Definition snapshot_of (ticker : value) : value := VObj [("ticker", ticker)].

(** A snapshot whose daily bar opens at [0] while the minute bar has
    [5]. *)
Definition zero_open : value :=
  VObj [("ticker", VStr "AAPL");
        ("day", VObj [("o", vnum 0); ("h", vnum 9); ("l", vnum 4); ("c", vnum 7); ("v", vnum 100)]);
        ("min", VObj [("o", vnum 5); ("h", vnum 8); ("l", vnum 6); ("c", vnum 7); ("v", vnum 10)])].

(** A provider that names the ticker in lower case. *)
Definition lower_case : value := VObj [("ticker", VStr "aapl"); ("day", VObj [("c", vnum 7)])].

(** The snapshot call resolves without a ticker; the metadata call
    fails with no response. *)
Definition metadata_down : world :=
  {| POLYGON_API_KEY := VStr "key";
     axios_get := fun url =>
       match url with
       | Lit "https://api.polygon.io/v3/reference/tickers/" :: _ =>
           Throw (AxiosError "socket hang up" None)
       | _ => Normal (VObj [])
       end;
     models_generateContent := no_ai;
     Date_now := noon |}.

(** An answer of the text-generation provider with one candidate of one
    part. *)
Definition ai_answer (text : string) : value :=
  VObj [("candidates",
         VArr [VObj [("content", VObj [("parts", VArr [VObj [("text", VStr text)]])])]])].

Definition headlines : list value :=
  [ VObj [("title", VStr "Shares slide")]; VObj [("title", VStr "Record quarter")] ].

(** Two headlines; the first prompt fails, the second is answered with
    a word and an exclamation mark. *)
Definition noisy_ai : world :=
  {| POLYGON_API_KEY := VStr "key";
     axios_get := fun _ => Normal (VObj [("results", VArr headlines)]);
     models_generateContent := fun n _ =>
       match n with
       | O => Throw (Error "quota exceeded")
       | _ => Normal (ai_answer " Positive! ")
       end;
     Date_now := noon |}.

(** Every sector snapshot is there but the one of [XLF]. *)
Definition one_sector_down : world :=
  {| POLYGON_API_KEY := VStr "key";
     axios_get := fun url =>
       match url with
       | [_; Sub (VStr "XLF"); _; _] => Throw (AxiosError "timeout of 1000ms exceeded" None)
       | _ => Normal (VObj [("ticker", VObj [("todaysChangePerc", vnum 1)])])
       end;
     models_generateContent := no_ai;
     Date_now := noon |}.

(** Eleven requests for the market status from one address, one
    second apart. *)
Definition at_time (now : Z) : world :=
  {| POLYGON_API_KEY := VStr "key";
     axios_get := fun _ => Normal (VObj [("market", VStr "open")]);
     models_generateContent := no_ai;
     Date_now := now |}.

Definition status_request : App.request :=
  {| App.verb := App.GET; App.path := ["api"; "market-status"]; App.query := VObj [];
     App.body := VUndefined; App.ip := "203.0.113.7" |}.

Definition eleven : list (world * App.request) :=
  List.map (fun n => (at_time (noon + 1000 * Z.of_nat n), status_request)) (List.seq 0 11).

(** A page of three tickers. *)
Definition three_tickers : list value :=
  [ VObj [("ticker", VStr "A"); ("day", VObj [("v", vnum 1)])];
    VObj [("ticker", VStr "B"); ("day", VObj [("v", vnum 3)])];
    VObj [("ticker", VStr "C")] ].

(** The text-generation provider answers the first prompt of a request
    with [first] and every other with [other]. *)
Definition ai_says (first other : string) : world :=
  {| POLYGON_API_KEY := VStr "key";
     axios_get := fun _ => Normal (VObj []);
     models_generateContent := fun n _ =>
       match n with
       | O => Normal (ai_answer first)
       | _ => Normal (ai_answer other)
       end;
     Date_now := noon |}.

(** An answer that puts the long-term outlook first. *)
Definition long_term_first : string :=
  "* Long-Term: hold
2. Short-Term: wait".

(** The market-data provider refuses every URL with the status [code]. *)
Definition refuses (code : Z) : world :=
  {| POLYGON_API_KEY := VStr "key";
     axios_get := fun _ =>
       Throw (AxiosError "Request failed" (Some {| status := code; data := VNull |}));
     models_generateContent := no_ai;
     Date_now := noon |}.

(** A page on which two tickers have the same volume. *)
Definition tied_tickers : list value :=
  [ VObj [("ticker", VStr "A"); ("day", VObj [("v", vnum 3)])];
    VObj [("ticker", VStr "B"); ("day", VObj [("v", vnum 5)])];
    VObj [("ticker", VStr "C"); ("day", VObj [("v", vnum 3)])] ].

(** A request for the news of [Top]. *)
Definition top_request : App.request :=
  {| App.verb := App.GET; App.path := ["api"; "news"; "Top"]; App.query := VObj [];
     App.body := VUndefined; App.ip := "203.0.113.7" |}.

(** The browser's side: the backend answers every quote but the one of
    [down], and nothing else. *)
Definition backend_without (down : string) : world :=
  {| POLYGON_API_KEY := VUndefined;
     axios_get := fun url =>
       match url with
       | [Lit "http://localhost:4000/api/quote/"; Sub (VStr symbol)] =>
           if String.eqb symbol down
           then Throw (AxiosError "Request failed" (Some {| status := 500; data := VNull |}))
           else Normal (VObj [("price", vnum 100); ("changePercent", vnum 1)])
       | _ => Throw (AxiosError "Network Error" None)
       end;
     models_generateContent := no_ai;
     Date_now := noon |}.

End Examples.

(** * Properties *)

Local Open Scope js_scope.

(** ** The quote handler *)

Module QuoteFacts.

Import Js Server Spec.

Lemma valid_no_error symbol :
  valid symbol = true -> Validator.validationResult symbol_chain symbol = [].
Proof.
  unfold valid, Validator.validationResult, symbol_chain. cbn.
  intros H. apply andb_prop in H. destruct H as [-> ->]. reflexivity.
Qed.

Lemma invalid_first_error symbol :
  valid symbol = false ->
  Validator.validationResult symbol_chain symbol =
    if Validator.isAlphanumeric symbol
    then ["Invalid stock symbol"]
    else "Invalid value" ::
         (if Validator.isLength 1 10 symbol then [] else ["Invalid stock symbol"]).
Proof.
  unfold valid, Validator.validationResult, symbol_chain. cbn.
  destruct (Validator.isAlphanumeric symbol), (Validator.isLength 1 10 symbol);
    cbn; intros H; try discriminate; reflexivity.
Qed.

(** What the handler does on a valid symbol, by the outcome of its two
    calls. *)
Lemma quote_run symbol w :
  valid symbol = true ->
  let ticker := Str.toUpperCase symbol in
  run (quote symbol) w =
    match axios_get w (snapshot_url w ticker) with
    | Throw e => (failure e, [AxiosGet (snapshot_url w ticker)])
    | Normal snapshotRes =>
        let calls := [AxiosGet (snapshot_url w ticker); AxiosGet (reference_url w ticker)] in
        match axios_get w (reference_url w ticker) with
        | Throw e => (failure e, calls)
        | Normal metaRes =>
            if no_snapshot snapshotRes
            then (Reply 404 (VObj [("error", VStr "Stock not found or no snapshot data available")]),
                  calls)
            else (Reply 200 (quote_json (opt snapshotRes "ticker") (opt metaRes "results")), calls)
        end
    end.
Proof.
  intros Hv ticker. unfold quote. rewrite (valid_no_error _ Hv).
  unfold run, try_catch, bind, ask, axios, failure, error, json, ret, no_snapshot. cbn.
  fold ticker.
  destruct (axios_get w (snapshot_url w ticker)) as [sd|e]; cbn.
  - destruct (axios_get w (reference_url w ticker)) as [md|e]; cbn.
    + destruct (negb (truthy (opt sd "ticker")) || no_keys (opt sd "ticker")); reflexivity.
    + destruct (is_404 e); reflexivity.
  - destruct (is_404 e); reflexivity.
Qed.

(** A symbol that fails a check is answered 400 with the message of the
    first failure, and nothing is asked upstream. *)
Lemma quote_run_invalid symbol w :
  valid symbol = false ->
  run (quote symbol) w =
    (Reply 400 (VObj [("error", VStr (if Validator.isAlphanumeric symbol
                                      then "Invalid stock symbol" else "Invalid value"))]),
     []).
Proof.
  intros Hv. unfold quote. rewrite (invalid_first_error _ Hv).
  destruct (Validator.isAlphanumeric symbol); reflexivity.
Qed.

(** A reply 200 comes from a valid symbol and two calls that resolved. *)
Lemma quote_200 symbol w body :
  fst (run (quote symbol) w) = Reply 200 body ->
  valid symbol = true /\
  exists snapshotRes metaRes,
    axios_get w (snapshot_url w (Str.toUpperCase symbol)) = Normal snapshotRes /\
    axios_get w (reference_url w (Str.toUpperCase symbol)) = Normal metaRes /\
    no_snapshot snapshotRes = false /\
    body = quote_json (opt snapshotRes "ticker") (opt metaRes "results").
Proof.
  destruct (valid symbol) eqn:Hv.
  - rewrite (quote_run symbol w Hv). cbv zeta.
    destruct (axios_get w (snapshot_url w (Str.toUpperCase symbol))) as [sd|e].
    + destruct (axios_get w (reference_url w (Str.toUpperCase symbol))) as [md|e].
      * destruct (no_snapshot sd) eqn:Hn; cbn; intros H; [discriminate|].
        injection H as <-. split; [reflexivity|]. exists sd, md. auto.
      * unfold failure. destruct (is_404 e); discriminate.
    + unfold failure. destruct (is_404 e); discriminate.
  - rewrite (quote_run_invalid symbol w Hv). discriminate.
Qed.

Lemma or_selects d m : selects d m (or (or d m) (vnum 0)).
Proof.
  unfold selects, or.
  destruct (truthy d) eqn:Hd; [| destruct (truthy m) eqn:Hm];
    rewrite ?Hd, ?Hm; repeat split; intros; try discriminate; reflexivity.
Qed.

(** C4, as stated, fails: with a daily open of [0] and a minute open of
    [5] the quote opens at [5], where the first source that is not null
    is the daily bar's [0]. *)
Lemma quote_skips_zero_daily_bar :
  let w := Examples.always (Examples.snapshot_of Examples.zero_open) in
  let body := quote_json Examples.zero_open VUndefined in
  fst (run (quote "AAPL") w) = Reply 200 body /\
  bar Examples.zero_open "day" "o" = vnum 0 /\
  bar Examples.zero_open "min" "o" = vnum 5 /\
  first_non_null (bar Examples.zero_open "day" "o") (bar Examples.zero_open "min" "o") = vnum 0 /\
  own body "open" = vnum 5 /\
  own body "open" <> first_non_null (bar Examples.zero_open "day" "o") (bar Examples.zero_open "min" "o").
Proof.
  cbv zeta. repeat split; try reflexivity.
  vm_compute. discriminate.
Qed.

(** C4, amended: in every quote, each of open, high, low, volume is the
    daily bar's value when that value is truthy, otherwise the minute
    bar's value when truthy, otherwise [0]; the price is the number of
    the close chosen in the same way. A number is truthy unless it is
    zero (or [NaN]); [null] and a missing value are not: a daily [0] is
    passed over like a missing one. *)
Theorem quote_first_truthy_wins symbol w body :
  fst (run (quote symbol) w) = Reply 200 body ->
  exists snapshotRes,
    axios_get w (snapshot_url w (Str.toUpperCase symbol)) = Normal snapshotRes /\
    let daily := bar (opt snapshotRes "ticker") "day" in
    let minute := bar (opt snapshotRes "ticker") "min" in
    selects (daily "o") (minute "o") (own body "open") /\
    selects (daily "h") (minute "h") (own body "high") /\
    selects (daily "l") (minute "l") (own body "low") /\
    selects (daily "v") (minute "v") (own body "volume") /\
    (exists close,
       selects (daily "c") (minute "c") close /\ own body "price" = VNum (ToNumber close)) /\
    (forall q, truthy (VNum (Fin q)) = negb (Qeq_bool q 0)) /\
    truthy VNull = false /\ truthy VUndefined = false.
Proof.
  intros H. apply quote_200 in H.
  destruct H as (_ & sd & md & Hs & _ & _ & ->).
  exists sd. split; [exact Hs|]. cbv zeta.
  repeat split; try apply or_selects.
  exists (or (or (bar (opt sd "ticker") "day" "c") (bar (opt sd "ticker") "min" "c")) (vnum 0)).
  split; [apply or_selects | reflexivity].
Qed.

(** C4 (amended) at work on the snapshot whose daily bar opens at [0]. *)
Lemma quote_first_truthy_wins_example :
  let w := Examples.always (Examples.snapshot_of Examples.zero_open) in
  let body := quote_json Examples.zero_open VUndefined in
  fst (run (quote "AAPL") w) = Reply 200 body /\
  exists snapshotRes,
    axios_get w (snapshot_url w (Str.toUpperCase "AAPL")) = Normal snapshotRes /\
    let daily := bar (opt snapshotRes "ticker") "day" in
    let minute := bar (opt snapshotRes "ticker") "min" in
    selects (daily "o") (minute "o") (own body "open") /\
    selects (daily "h") (minute "h") (own body "high") /\
    selects (daily "l") (minute "l") (own body "low") /\
    selects (daily "v") (minute "v") (own body "volume") /\
    (exists close,
       selects (daily "c") (minute "c") close /\ own body "price" = VNum (ToNumber close)) /\
    (forall q, truthy (VNum (Fin q)) = negb (Qeq_bool q 0)) /\
    truthy VNull = false /\ truthy VUndefined = false.
Proof.
  cbv zeta. split; [reflexivity|].
  apply (quote_first_truthy_wins "AAPL"
           (Examples.always (Examples.snapshot_of Examples.zero_open))
           (quote_json Examples.zero_open VUndefined)).
  reflexivity.
Defined.

(** *** Letter case *)

Ltac by_cases_on_char c :=
  destruct c as [[] [] [] [] [] [] [] []]; reflexivity.

Lemma upcase_idempotent c : Str.upcase (Str.upcase c) = Str.upcase c.
Proof. by_cases_on_char c. Qed.

Lemma upcase_alnum c :
  (Str.is_digit (Str.upcase c) || Str.is_upper (Str.upcase c) || Str.is_lower (Str.upcase c)) =
  (Str.is_digit c || Str.is_upper c || Str.is_lower c).
Proof. by_cases_on_char c. Qed.

Lemma upcase_not_lower c : Str.is_lower (Str.upcase c) = false.
Proof. by_cases_on_char c. Qed.

Lemma toUpperCase_idempotent s :
  Str.toUpperCase (Str.toUpperCase s) = Str.toUpperCase s.
Proof.
  unfold Str.toUpperCase.
  induction s as [|c s IH]; cbn; [reflexivity|].
  now rewrite upcase_idempotent, IH.
Qed.

Lemma toUpperCase_length s : String.length (Str.toUpperCase s) = String.length s.
Proof. unfold Str.toUpperCase. induction s as [|c s IH]; cbn; congruence. Qed.

Lemma toUpperCase_no_lower s : Str.existsb Str.is_lower (Str.toUpperCase s) = false.
Proof.
  unfold Str.toUpperCase.
  induction s as [|c s IH]; cbn; [reflexivity|].
  now rewrite upcase_not_lower, IH.
Qed.

Lemma valid_toUpperCase s : valid (Str.toUpperCase s) = valid s.
Proof.
  unfold valid, Validator.isAlphanumeric, Validator.isLength.
  rewrite toUpperCase_length. f_equal. unfold Str.toUpperCase. f_equal.
  - now destruct s.
  - induction s as [|c s IH]; cbn; [reflexivity|].
    now rewrite upcase_alnum, IH.
Qed.

(** C7, as stated, fails: the handler passes the provider's ticker on
    as it is, and a provider that writes it in lower case gets it back
    in lower case. *)
Lemma quote_symbol_not_uppercased :
  let w := Examples.always (Examples.snapshot_of Examples.lower_case) in
  let body := quote_json Examples.lower_case VUndefined in
  valid "aapl" = true /\
  fst (run (quote "aapl") w) = Reply 200 body /\
  own Examples.lower_case "ticker" = VStr "aapl" /\
  own body "symbol" = VStr "aapl" /\
  own body "symbol" <> VStr (Str.toUpperCase "aapl").
Proof.
  cbv zeta. repeat split; try reflexivity.
  vm_compute. discriminate.
Qed.

(** C7, amended: for every valid symbol, in whatever letter case, the
    provider is asked for the symbol in upper case (so the case of the
    request changes nothing), and the [symbol] of a quote is the ticker
    of the provider's snapshot, as the provider wrote it; it is the
    symbol in upper case whenever the provider names the ticker it was
    asked for. *)
Theorem quote_symbol_is_upstream_ticker symbol w :
  valid symbol = true ->
  run (quote symbol) w = run (quote (Str.toUpperCase symbol)) w /\
  forall body,
    fst (run (quote symbol) w) = Reply 200 body ->
    exists snapshotRes,
      axios_get w (snapshot_url w (Str.toUpperCase symbol)) = Normal snapshotRes /\
      snd (run (quote symbol) w) =
        [AxiosGet (snapshot_url w (Str.toUpperCase symbol));
         AxiosGet (reference_url w (Str.toUpperCase symbol))] /\
      own body "symbol" = own (opt snapshotRes "ticker") "ticker" /\
      (own (opt snapshotRes "ticker") "ticker" = VStr (Str.toUpperCase symbol) ->
       own body "symbol" = VStr (Str.toUpperCase symbol)).
Proof.
  intros Hv. split.
  - rewrite (quote_run symbol w Hv).
    rewrite (quote_run (Str.toUpperCase symbol) w) by now rewrite valid_toUpperCase.
    cbv zeta. now rewrite toUpperCase_idempotent.
  - intros body H. pose proof (quote_200 _ _ _ H) as (_ & sd & md & Hs & Hm & Hn & ->).
    exists sd. split; [exact Hs|].
    rewrite (quote_run symbol w Hv). cbv zeta. rewrite Hs, Hm, Hn. cbn [snd].
    repeat split. intros Ht. rewrite <- Ht. reflexivity.
Qed.

(** C7 (amended) at work on the symbol [aapl]. *)
Lemma quote_symbol_is_upstream_ticker_example :
  let symbol := "aapl" in
  let w := Examples.always (Examples.snapshot_of Examples.zero_open) in
  valid symbol = true /\
  run (quote symbol) w = run (quote (Str.toUpperCase symbol)) w /\
  forall body,
    fst (run (quote symbol) w) = Reply 200 body ->
    exists snapshotRes,
      axios_get w (snapshot_url w (Str.toUpperCase symbol)) = Normal snapshotRes /\
      snd (run (quote symbol) w) =
        [AxiosGet (snapshot_url w (Str.toUpperCase symbol));
         AxiosGet (reference_url w (Str.toUpperCase symbol))] /\
      own body "symbol" = own (opt snapshotRes "ticker") "ticker" /\
      (own (opt snapshotRes "ticker") "ticker" = VStr (Str.toUpperCase symbol) ->
       own body "symbol" = VStr (Str.toUpperCase symbol)).
Proof.
  cbv zeta. split; [reflexivity|].
  apply (quote_symbol_is_upstream_ticker "aapl"
           (Examples.always (Examples.snapshot_of Examples.zero_open))).
  reflexivity.
Defined.

(** *** Status codes *)




End QuoteFacts.

(** ** Validation of the symbol, route by route *)

Module ValidationFacts.

Import Js Server Spec.

(** C3 at work on the one route that validates: a symbol that is not
    alphanumeric of length 1 to 10 is answered 400 with the message of
    the first failing check, and no call is issued. *)
Lemma quote_rejects_invalid_symbol symbol w :
  valid symbol = false ->
  exists first rest,
    Validator.validationResult symbol_chain symbol = first :: rest /\
    run (quote symbol) w = (Reply 400 (VObj [("error", VStr first)]), []).
Proof.
  intros Hv. rewrite (QuoteFacts.quote_run_invalid symbol w Hv).
  rewrite (QuoteFacts.invalid_first_error symbol Hv).
  destruct (Validator.isAlphanumeric symbol); eauto.
Qed.

(** C3 fails on the chart route, which has no validation chain: the
    symbol [AB-C] is not alphanumeric, and the request is answered 200
    after the provider was asked for [AB-C]. The routes of the news and
    of the AI outlook forward their symbol in the same way. *)
Lemma chart_forwards_invalid_symbol :
  let w := Examples.always (VObj [("results", VArr [vnum 1])]) in
  let req := {| App.verb := App.GET; App.path := ["api"; "chart"; "AB-C"];
                App.query := VObj []; App.body := VUndefined; App.ip := "10.0.0.1" |} in
  valid "AB-C" = false /\
  App.dispatch w req =
    (Reply 200 (VArr [vnum 1]),
     [AxiosGet (aggs_url w "AB-C" (vnum 1) (VStr "minute") "2023-11-13" "2023-11-14")]) /\
  hd_error
    (snd (App.dispatch w {| App.verb := App.GET; App.path := ["api"; "news"; "AB-C"];
                            App.query := VObj []; App.body := VUndefined; App.ip := "10.0.0.1" |})) =
    Some (AxiosGet [Lit "https://api.polygon.io/v2/reference/news?ticker="; Sub (VStr "AB-C");
                    Lit "&limit=5&order=desc&apiKey="; Sub (VStr "key")]) /\
  (exists prompt,
     hd_error
       (snd (App.dispatch w {| App.verb := App.GET; App.path := ["api"; "ai"; "suggest"; "AB-C"];
                               App.query := VObj []; App.body := VUndefined;
                               App.ip := "10.0.0.1" |})) =
       Some (GenerateContent model prompt) /\
     nth_error prompt 1 = Some (Sub (VStr "AB-C"))) /\
  App.dispatch w {| App.verb := App.GET; App.path := ["api"; "quote"; "AB-C"];
                    App.query := VObj []; App.body := VUndefined; App.ip := "10.0.0.1" |} =
    (Reply 400 (VObj [("error", VStr "Invalid value")]), []).
Proof.
  cbv zeta. repeat apply conj; try (vm_compute; reflexivity).
  eexists. split; vm_compute; reflexivity.
Qed.

End ValidationFacts.

(** ** The market status *)

Module MarketFacts.

Import Js Server Spec.

Lemma is_str_true v s : is_str v s = true <-> v = VStr s.
Proof.
  destruct v; cbn; try (split; [discriminate | discriminate]).
  rewrite String.eqb_eq. split; [now intros -> | now intros [= ->]].
Qed.

(** C10: a successful market status is [OPEN] exactly when the
    provider's [market] is the string [open], and [CLOSED] in every
    other case; [UNKNOWN] is never produced. The reply is successful as
    soon as the provider answers with a body that is not null. *)
Theorem market_status_is_open_or_closed w :
  let url := [Lit (polygon ++ "/v1/marketstatus/now?apiKey="); apiKey w] in
  (forall body,
     fst (run market_status w) = Reply 200 body ->
     exists data,
       axios_get w url = Normal data /\
       (own data "market" = VStr "open" -> own body "status" = VStr "OPEN") /\
       (own data "market" <> VStr "open" -> own body "status" = VStr "CLOSED") /\
       (own body "status" = VStr "OPEN" \/ own body "status" = VStr "CLOSED") /\
       own body "status" <> VStr "UNKNOWN") /\
  (forall data,
     axios_get w url = Normal data -> nullish data = false ->
     exists body, fst (run market_status w) = Reply 200 body).
Proof.
  cbv zeta. unfold market_status, run, try_catch, bind, ask, axios, lift, json, error, ret, get.
  cbn. destruct (axios_get w _) as [data|e]; cbn.
  - destruct (nullish data) eqn:Hn; cbn.
    + split; [discriminate|]. intros d [= <-]. congruence.
    + split; [|eauto]. intros body [= <-]. exists data. split; [reflexivity|]. cbn.
      destruct (is_str (own data "market") "open") eqn:Ho.
      * apply is_str_true in Ho.
        split; [reflexivity|]. split; [congruence|]. split; [now left | discriminate].
      * split; [|split; [reflexivity | split; [now right | discriminate]]].
        intros Hm. apply is_str_true in Hm. congruence.
  - split; [discriminate|]. discriminate.
Qed.

(** C10 at work: the provider says [open], the reply is 200 and its
    status is [OPEN]. *)
Lemma market_status_is_open_or_closed_example :
  let w := Examples.at_time Examples.noon in
  exists body,
    fst (run market_status w) = Reply 200 body /\ own body "status" = VStr "OPEN".
Proof.
  cbv zeta.
  destruct (market_status_is_open_or_closed (Examples.at_time Examples.noon)) as [Hbody Hok].
  destruct (Hok (VObj [("market", VStr "open")]) eq_refl eq_refl) as [body Hb].
  exists body. split; [exact Hb|].
  destruct (Hbody body Hb) as (data & Hd & Hopen & _).
  apply Hopen. injection Hd as <-. reflexivity.
Defined.

End MarketFacts.

(** ** Batches: the news and the sectors *)

Module BatchFacts.

Import Js Server Spec.

Local Open Scope nat_scope.

Lemma generated_app t u : generated (t ++ u) = generated t + generated u.
Proof. unfold generated. now rewrite filter_app, length_app. Qed.

(** The sentiment the handler computes from an answer is
    [sentiment_text]: an exception on the way is caught and gives
    ["Neutral"]. *)
Lemma sentiment_of_text response :
  match sentiment_of response with
  | Normal v => v
  | Throw _ => VStr "Neutral"
  end = VStr (sentiment_text (Normal response)).
Proof.
  unfold sentiment_of, sentiment_text.
  destruct (first_part response) as [[p|]|e]; try reflexivity.
  destruct (own p "text"); try reflexivity.
  cbn. unfold or. cbn. destruct (Str.trim s); reflexivity.
Qed.

(** One task of the batch: it asks one prompt unless the article is
    [null], and nothing it meets after that escapes it. *)
Lemma analyze_run by_symbol article w t :
  analyze by_symbol article w t =
    match get article "title" with
    | Throw e => (Throw e, t)
    | Normal _ =>
        (Normal (item by_symbol w (generated t) article),
         t ++ [GenerateContent model (sentiment_prompt (own article "title"))])%list
    end.
Proof.
  unfold analyze, bind, lift, get, item, answer.
  destruct (nullish article); [reflexivity|].
  unfold try_catch, bind, generateContent, lift, ret. fold (generated t).
  destruct (models_generateContent w (generated t) (sentiment_prompt (own article "title")))
    as [response|e]; [|reflexivity].
  pose proof (sentiment_of_text response) as H.
  destruct (sentiment_of response) as [v|e]; now rewrite <- H.
Qed.

Lemma settle_analyze by_symbol w articles : forall t,
  settle (analyze by_symbol) articles w t =
    (Normal (outcomes by_symbol w (generated t) articles), (t ++ prompts articles)%list).
Proof.
  induction articles as [|a rest IH]; intros t; cbn [settle outcomes prompts flat_map].
  - unfold ret. now rewrite app_nil_r.
  - rewrite analyze_run. unfold get. destruct (nullish a); cbn [app].
    + now rewrite IH.
    + rewrite IH. rewrite generated_app.
      change (generated [GenerateContent model (sentiment_prompt (own a "title"))]) with 1.
      replace (generated t + 1) with (S (generated t)) by lia.
      rewrite <- app_assoc. reflexivity.
Qed.

Lemma collect_outcomes by_symbol w articles : forall n,
  forallb (fun a => negb (nullish a)) articles = true ->
  collect (outcomes by_symbol w n articles) = Normal (analyzed by_symbol w n articles).
Proof.
  induction articles as [|a rest IH]; intros n; cbn; [reflexivity|].
  unfold get. destruct (nullish a); cbn; [discriminate|].
  intros H. now rewrite (IH (S n) H).
Qed.

Lemma collect_outcomes_throw by_symbol w articles : forall n,
  forallb (fun a => negb (nullish a)) articles = false ->
  exists e, collect (outcomes by_symbol w n articles) = Throw e.
Proof.
  induction articles as [|a rest IH]; intros n; cbn; [discriminate|].
  unfold get. destruct (nullish a); cbn; [eauto|].
  intros H. destruct (IH (S n) H) as [e ->]. eauto.
Qed.

Lemma analyzed_length by_symbol w articles : forall n,
  List.length (analyzed by_symbol w n articles) = List.length articles.
Proof. induction articles as [|a rest IH]; intros n; cbn; [reflexivity | now rewrite IH]. Qed.

Lemma analyzed_nth by_symbol w articles : forall n i article,
  nth_error articles i = Some article ->
  nth_error (analyzed by_symbol w n articles) i = Some (item by_symbol w (n + i) article).
Proof.
  induction articles as [|a rest IH]; intros n [|i] article; cbn; try discriminate.
  - intros [= ->]. now rewrite Nat.add_0_r.
  - intros H. rewrite (IH (S n) i article H). f_equal. f_equal. lia.
Qed.

(** The two news handlers, by what the provider of the articles and the
    provider of the sentiments answer. *)
Lemma news_run by_symbol symbol w :
  run (news by_symbol symbol) w =
    let url := news_url by_symbol w symbol in
    match axios_get w url with
    | Throw _ => (news_failed by_symbol, [AxiosGet url])
    | Normal data =>
        match get data "results" with
        | Throw _ => (news_failed by_symbol, [AxiosGet url])
        | Normal results =>
            let articles := or results (VArr []) in
            if negb (truthy articles) || length_is_zero articles then
              (Reply 404 (VObj [("error", VStr "No news found for this ticker")]), [AxiosGet url])
            else
              match articles with
              | VArr xs =>
                  if forallb (fun a => negb (nullish a)) xs
                  then (Reply 200 (VArr (analyzed by_symbol w 0 xs)), AxiosGet url :: prompts xs)
                  else (news_failed by_symbol, AxiosGet url :: prompts xs)
              | _ => (news_failed by_symbol, [AxiosGet url])
              end
        end
    end.
Proof.
  cbv zeta.
  assert (Hof : forall data t,
    try_catch (news_of by_symbol data) (fun _ => ret (news_failed by_symbol)) w t =
      match get data "results" with
      | Throw _ => (Normal (news_failed by_symbol), t)
      | Normal results =>
          let articles := or results (VArr []) in
          if negb (truthy articles) || length_is_zero articles then
            (Normal (Reply 404 (VObj [("error", VStr "No news found for this ticker")])), t)
          else
            match articles with
            | VArr xs =>
                if forallb (fun a => negb (nullish a)) xs
                then (Normal (Reply 200 (VArr (analyzed by_symbol w (generated t) xs))),
                      (t ++ prompts xs)%list)
                else (Normal (news_failed by_symbol), (t ++ prompts xs)%list)
            | _ => (Normal (news_failed by_symbol), t)
            end
      end).
  { intros data t. unfold try_catch, news_of, bind, lift.
    destruct (get data "results") as [results|e]; [|reflexivity]. cbv zeta.
    destruct (negb (truthy (or results (VArr []))) || length_is_zero (or results (VArr [])));
      [reflexivity|].
    destruct (or results (VArr [])) as [| | | | |xs|]; try reflexivity.
    unfold Promise_all, bind, lift. rewrite settle_analyze.
    destruct (forallb (fun a => negb (nullish a)) xs) eqn:Hall.
    - now rewrite (collect_outcomes _ _ _ _ Hall).
    - destruct (collect_outcomes_throw by_symbol w xs (generated t) Hall) as [e ->].
      reflexivity. }
  assert (Hrun : forall url,
    run (try_catch (w' <- ask ;; data <- axios (url w') ;; news_of by_symbol data)
           (fun _ => ret (news_failed by_symbol))) w =
      match axios_get w (url w) with
      | Throw _ => (news_failed by_symbol, [AxiosGet (url w)])
      | Normal data =>
          match try_catch (news_of by_symbol data) (fun _ => ret (news_failed by_symbol))
                  w [AxiosGet (url w)] with
          | (Normal r, t) => (r, t)
          | (Throw e, t) => (Unhandled e, t)
          end
      end).
  { intros url. unfold run, try_catch, bind, ask, axios, ret. cbn [app].
    destruct (axios_get w (url w)) as [data|e]; [|reflexivity].
    destruct (news_of by_symbol data w [AxiosGet (url w)]) as [[r|e] t]; reflexivity. }
  assert (Hnews : run (news by_symbol symbol) w =
    run (try_catch (w' <- ask ;; data <- axios (news_url by_symbol w' symbol) ;;
                    news_of by_symbol data)
           (fun _ => ret (news_failed by_symbol))) w).
  { destruct by_symbol; reflexivity. }
  rewrite Hnews, (Hrun (fun w' => news_url by_symbol w' symbol)).
  destruct (axios_get w (news_url by_symbol w symbol)) as [data|e]; [|reflexivity].
  rewrite Hof.
  destruct (get data "results") as [results|e']; [|reflexivity]. cbv zeta.
  destruct (negb (truthy (or results (VArr []))) || length_is_zero (or results (VArr [])));
    [reflexivity|].
  destruct (or results (VArr [])) as [| | | | |xs|]; try reflexivity.
  destruct (forallb (fun a => negb (nullish a)) xs); reflexivity.
Qed.

Lemma item_fields by_symbol w n article :
  own (item by_symbol w n article) "title" = own article "title" /\
  own (item by_symbol w n article) "sentiment" = VStr (sentiment_text (answer w n article)).
Proof. destruct by_symbol; split; reflexivity. Qed.

(** A reply 200 of a news handler: the articles were there, none of
    them [null], and the body is what [analyzed] makes of them. *)
Lemma news_200 by_symbol symbol w body :
  fst (run (news by_symbol symbol) w) = Reply 200 body ->
  exists data articles,
    axios_get w (news_url by_symbol w symbol) = Normal data /\
    nullish data = false /\
    own data "results" = VArr articles /\
    articles <> [] /\
    body = VArr (analyzed by_symbol w 0 articles).
Proof.
  rewrite news_run. cbv zeta.
  destruct (axios_get w (news_url by_symbol w symbol)) as [data|e];
    [|destruct by_symbol; discriminate].
  unfold get. destruct (nullish data) eqn:Hn; [destruct by_symbol; discriminate|].
  destruct (negb (truthy (or (own data "results") (VArr []))) ||
            length_is_zero (or (own data "results") (VArr []))) eqn:Hz; [discriminate|].
  destruct (or (own data "results") (VArr [])) as [| | | | |xs|] eqn:Hor;
    try (destruct by_symbol; discriminate).
  destruct (forallb (fun a => negb (nullish a)) xs); [|destruct by_symbol; discriminate].
  cbn [fst]. intros [= <-]. exists data, xs.
  assert (Hxs : xs <> []).
  { intros ->. cbn in Hz. discriminate. }
  repeat split; auto.
  unfold or in Hor. destruct (truthy (own data "results")); [exact Hor|].
  injection Hor as <-. congruence.
Qed.




(** *** Sectors *)

Lemma sector_run etf w t :
  sector etf w t = (sector_outcome w etf, (t ++ [AxiosGet (snapshot_url w (snd etf))])%list).
Proof.
  destruct etf as [name symbol]. unfold sector, sector_outcome, bind, ask, axios, lift, ret.
  cbn [fst snd].
  destruct (axios_get w (snapshot_url w symbol)) as [data|e]; [|reflexivity].
  destruct (get data "ticker") as [ticker|e]; [|reflexivity].
  destruct (get ticker "todaysChangePerc"); reflexivity.
Qed.

Lemma settle_sector w etfs : forall t,
  settle sector etfs w t =
    (Normal (List.map (sector_outcome w) etfs),
     (t ++ List.map (fun etf => AxiosGet (snapshot_url w (snd etf))) etfs)%list).
Proof.
  induction etfs as [|etf rest IH]; intros t; cbn [settle List.map].
  - unfold ret. now rewrite app_nil_r.
  - rewrite sector_run, IH. now rewrite <- app_assoc.
Qed.

Lemma collect_some_throw {B} (rs : list (completion B)) :
  forallb is_normal rs = false -> exists e, collect rs = Throw e.
Proof.
  induction rs as [|[b|e] rs IH]; cbn; [discriminate| |eauto].
  intros H. destruct (IH H) as [e ->]. eauto.
Qed.

Lemma collect_all_normal {B} (rs : list (completion B)) :
  forallb is_normal rs = true ->
  exists bs, collect rs = Normal bs /\ List.length bs = List.length rs.
Proof.
  induction rs as [|[b|e] rs IH]; cbn; [eauto| |discriminate].
  intros H. destruct (IH H) as (bs & -> & Hl). exists (b :: bs). cbn. auto.
Qed.

Lemma forallb_of_map {A B} (f : B -> bool) (g : A -> B) (l : list A) :
  forallb f (List.map g l) = forallb (fun x => f (g x)) l.
Proof. induction l as [|x l IH]; cbn; [reflexivity | now rewrite IH]. Qed.

Lemma sectors_run w :
  run sectors w =
    (match collect (List.map (sector_outcome w) sectorETFs) with
     | Normal entries => Reply 200 (VArr entries)
     | Throw _ => Reply 500 (VObj [("error", VStr "Failed to fetch sector data")])
     end,
     List.map (fun etf => AxiosGet (snapshot_url w (snd etf))) sectorETFs).
Proof.
  unfold run, sectors, try_catch, bind, Promise_all, bind, lift, json, error, ret.
  rewrite settle_sector. cbn [app].
  destruct (collect (List.map (sector_outcome w) sectorETFs)); reflexivity.
Qed.




End BatchFacts.

(** ** Movers *)

Module MoverFacts.

Import Js Server Spec.

Local Open Scope nat_scope.

(** A handler that fetches one URL and hands the body to [k], every
    exception ending in [failed]. *)
Lemma run_fetch (url : world -> template) (k : value -> M reply) (failed : reply) w :
  run (try_catch (w' <- ask ;; data <- axios (url w') ;; k data) (fun _ => ret failed)) w =
    match axios_get w (url w) with
    | Throw _ => (failed, [AxiosGet (url w)])
    | Normal data =>
        match k data w [AxiosGet (url w)] with
        | (Normal r, t) => (r, t)
        | (Throw _, t) => (failed, t)
        end
    end.
Proof.
  unfold run, try_catch, bind, ask, axios, ret. cbn [app].
  destruct (axios_get w (url w)) as [data|e]; [|reflexivity].
  destruct (k data w [AxiosGet (url w)]) as [[r|e] t]; reflexivity.
Qed.

Lemma mover_entry t : nullish t = false -> mover t = Normal (entry t).
Proof. intros H. unfold mover, get. now rewrite H. Qed.

Lemma mover_null t : nullish t = true -> exists e, mover t = Throw e.
Proof. intros H. unfold mover, get. rewrite H. eauto. Qed.

Lemma map_list_mover tickers :
  forallb (fun t => negb (nullish t)) tickers = true ->
  Call.map_list mover tickers = Normal (List.map entry tickers).
Proof.
  induction tickers as [|t rest IH]; cbn [Call.map_list List.map forallb]; [reflexivity|].
  intros H. apply andb_prop in H. destruct H as [Ht Hr].
  rewrite mover_entry by now destruct (nullish t).
  now rewrite (IH Hr).
Qed.

Lemma map_list_mover_throw tickers :
  forallb (fun t => negb (nullish t)) tickers = false ->
  exists e, Call.map_list mover tickers = Throw e.
Proof.
  induction tickers as [|t rest IH]; cbn [Call.map_list forallb]; [discriminate|].
  destruct (nullish t) eqn:Hn.
  - destruct (mover_null t Hn) as [e ->]. eauto.
  - rewrite (mover_entry t Hn). cbn. intros H. destruct (IH H) as [e ->]. eauto.
Qed.

Lemma movers_page data tickers :
  page data tickers -> movers data = Normal (List.map entry tickers).
Proof.
  intros (Hn & Ht & Hall). unfold movers, get. rewrite Hn, Ht. cbn.
  now apply map_list_mover.
Qed.

Lemma movers_normal data entries :
  movers data = Normal entries ->
  exists tickers, page data tickers /\ entries = List.map entry tickers.
Proof.
  unfold movers, get. destruct (nullish data) eqn:Hn; [discriminate|].
  destruct (own data "tickers") as [| | | | |ts|] eqn:Ht; cbn; try discriminate.
  destruct (forallb (fun t => negb (nullish t)) ts) eqn:Hall.
  - rewrite (map_list_mover _ Hall). intros [= <-]. exists ts. repeat split; auto.
  - destruct (map_list_mover_throw _ Hall) as [e ->]. discriminate.
Qed.

(** *** The sort *)

Section Sort.

Variable A : Type.
Variable cmp : A -> A -> comparison.

(** The one property of the comparator the sort needs here: when [x]
    must follow [y], [y] need not follow [x]. *)
Hypothesis cmp_anti : forall x y, cmp x y = Gt -> cmp y x <> Gt.

Let R (a b : A) : Prop := cmp a b <> Gt.

Lemma insert_perm x l : Permutation (Call.insert cmp x l) (x :: l).
Proof.
  induction l as [|y l IH]; cbn; [reflexivity|].
  destruct (cmp x y); try reflexivity.
  rewrite IH. apply perm_swap.
Qed.

Lemma sort_perm l : Permutation (Call.sort cmp l) l.
Proof.
  unfold Call.sort. induction l as [|x l IH]; cbn; [reflexivity|].
  rewrite insert_perm. now constructor.
Qed.

Lemma insert_hd x y l : R y x -> HdRel R y l -> HdRel R y (Call.insert cmp x l).
Proof.
  intros Hyx Hl. destruct l as [|z l]; cbn; [now constructor|].
  inversion Hl; subst. destruct (cmp x z); now constructor.
Qed.

Lemma insert_sorted x l : Sorted R l -> Sorted R (Call.insert cmp x l).
Proof.
  induction 1 as [|y l Hs IH Hh]; cbn; [repeat constructor|].
  destruct (cmp x y) eqn:Hc.
  - constructor; [now constructor|]. constructor. unfold R. congruence.
  - constructor; [now constructor|]. constructor. unfold R. congruence.
  - constructor; [exact IH|]. apply insert_hd; [|exact Hh]. now apply cmp_anti.
Qed.

Lemma sort_sorted l : Sorted R (Call.sort cmp l).
Proof.
  unfold Call.sort. induction l as [|x l IH]; cbn; [constructor|].
  now apply insert_sorted.
Qed.

End Sort.

Lemma sign_sub_anti a b :
  Num.sign (Num.sub a b) = Gt -> Num.sign (Num.sub b a) <> Gt.
Proof.
  destruct a as [x| |[]], b as [y| |[]]; cbn; try discriminate.
  intros H1 H2. apply Qgt_alt in H1, H2. lra.
Qed.

Lemma by_volume_desc_anti x y : by_volume_desc x y = Gt -> by_volume_desc y x <> Gt.
Proof. apply sign_sub_anti. Qed.

Lemma not_below_volume_ge a b :
  finite_volume a -> finite_volume b -> not_below a b -> volume_ge a b.
Proof.
  intros [qa Ha] [qb Hb] H. exists qa, qb. repeat split; auto.
  unfold not_below, by_volume_desc in H. fold (volume_of a) (volume_of b) in H.
  rewrite Ha, Hb in H. cbn in H.
  destruct (Qlt_le_dec qa qb) as [Hlt|Hle]; [|exact Hle].
  exfalso. apply H. apply Qgt_alt. lra.
Qed.

Lemma volume_ge_trans a b c : volume_ge a b -> volume_ge b c -> volume_ge a c.
Proof.
  intros (qa & qb & Ha & Hb & Hab) (qb' & qc & Hb' & Hc & Hbc).
  rewrite Hb in Hb'. injection Hb' as <-.
  exists qa, qc. repeat split; auto. lra.
Qed.

Lemma sorted_finite l :
  Forall finite_volume l -> Sorted not_below l -> StronglySorted volume_ge l.
Proof.
  intros Hf Hs. apply Sorted_StronglySorted; [exact volume_ge_trans|].
  induction Hs as [|a l Hs IH Hh]; [constructor|].
  inversion Hf as [|? ? Ha Hl]; subst.
  constructor; [now apply IH|].
  destruct Hh as [|b l Hab]; constructor.
  inversion Hl; subst. now apply not_below_volume_ge.
Qed.

Lemma firstn_incl {A} n : forall (l : list A) x, In x (firstn n l) -> In x l.
Proof.
  induction n as [|n IH]; intros [|a l] x; cbn; try contradiction.
  intros [->|H]; [now left | right; now apply IH].
Qed.

Lemma firstn_StronglySorted {A} (R : A -> A -> Prop) n : forall l,
  StronglySorted R l -> StronglySorted R (firstn n l).
Proof.
  induction n as [|n IH]; intros l Hs; cbn; [constructor|].
  destruct Hs as [|a l Hs Hall]; constructor; [now apply IH|].
  rewrite Forall_forall in *. intros x Hx. apply Hall. eapply firstn_incl, Hx.
Qed.

Lemma firstn_Sorted {A} (R : A -> A -> Prop) n : forall l,
  Sorted R l -> Sorted R (firstn n l).
Proof.
  induction n as [|n IH]; intros l Hs; cbn; [constructor|].
  destruct Hs as [|a l Hs Hh]; constructor; [now apply IH|].
  destruct Hh as [|b l Hab]; destruct n; cbn; now constructor.
Qed.

(** *** The three handlers *)

Ltac run_listing w :=
  unfold listing, run, try_catch, bind, ask, axios, lift, json, error, ret; cbn [app];
  destruct (axios_get w _) as [data|e]; [|reflexivity];
  destruct (movers data); reflexivity.

Lemma top_gainers_run w :
  run top_gainers w = listing "Failed to fetch top gainers" (firstn 5) (gainers_url w) w.
Proof. unfold top_gainers, gainers_url. run_listing w. Qed.

Lemma top_losers_run w :
  run top_losers w = listing "Failed to fetch top losers" (firstn 5) (losers_url w) w.
Proof. unfold top_losers, losers_url. run_listing w. Qed.

Lemma most_active_run w :
  run most_active w =
    listing "Failed to fetch most active stocks"
      (fun entries => firstn 7 (Call.sort by_volume_desc entries)) (most_active_url w) w.
Proof. unfold most_active, most_active_url. run_listing w. Qed.

Lemma listing_page failed keep url w data tickers :
  axios_get w url = Normal data -> page data tickers ->
  fst (listing failed keep url w) = Reply 200 (VArr (keep (List.map entry tickers))).
Proof.
  intros Hd Hp. unfold listing. cbn [fst]. now rewrite Hd, (movers_page _ _ Hp).
Qed.

Lemma listing_200 failed keep url w body :
  fst (listing failed keep url w) = Reply 200 body ->
  exists data tickers,
    axios_get w url = Normal data /\ page data tickers /\
    body = VArr (keep (List.map entry tickers)).
Proof.
  unfold listing. cbn [fst].
  destruct (axios_get w url) as [data|e]; [|discriminate].
  destruct (movers data) as [entries|e] eqn:Hm; [|discriminate].
  intros [= <-]. destruct (movers_normal _ _ Hm) as (ts & Hp & ->).
  exists data, ts. auto.
Qed.



End MoverFacts.

(** ** The chart *)

Module ChartFacts.

Import Js Server Spec.

Local Open Scope Z_scope.

(** *** The table *)

Lemma prototype_names_have_lower_case name :
  In name Object_prototype -> Str.existsb Str.is_lower name = true.
Proof.
  unfold Object_prototype. cbn [In].
  intros H. repeat (destruct H as [<-|H]; [reflexivity|]). contradiction.
Qed.

(** A key without lower-case letters is not found on the prototype. *)
Lemma not_inherited key :
  Str.existsb Str.is_lower key = false ->
  List.existsb (String.eqb key) Object_prototype = false.
Proof.
  intros Hk. apply not_true_is_false. intros H.
  apply existsb_exists in H. destruct H as (name & Hin & Heq).
  apply String.eqb_eq in Heq. subst name.
  apply prototype_names_have_lower_case in Hin. congruence.
Qed.

Lemma chart_config_table key :
  Str.existsb Str.is_lower key = false ->
  chart_config key =
    let '(multiplier, timespan, days) := range_table key in
    interval multiplier timespan days.
Proof.
  intros Hk. unfold chart_config, member, range_table. cbn [POLYGON_INTERVALS assoc].
  repeat (destruct (String.eqb key _); [reflexivity|]).
  now rewrite (not_inherited key Hk).
Qed.

Lemma range_key_no_lower r : Str.existsb Str.is_lower (range_key r) = false.
Proof.
  unfold range_key. destruct r; [reflexivity|].
  apply QuoteFacts.toUpperCase_no_lower.
Qed.

Lemma chart_range_key r : chart_range (VStr r) = Normal (range_key r).
Proof. destruct r; reflexivity. Qed.

Lemma range_table_days key : 0 <= snd (range_table key) <= 1825.
Proof.
  unfold range_table. repeat (destruct (String.eqb key _); [cbn; lia|]). cbn; lia.
Qed.

(** *** The dates *)

Lemma from_date now d :
  0 <= now <= JsDate.maxTime -> 0 <= d <= 1825 ->
  JsDate.setTime (Num.sub (JsDate.getTime (JsDate.new_Date now)) (msPerDayFactors (vnum d))) =
    Some (now - d * JsDate.msPerDay).
Proof.
  intros Hn Hd. unfold JsDate.new_Date, JsDate.TimeClip.
  replace (Z.abs now <=? JsDate.maxTime) with true
    by (symmetry; apply Z.leb_le; lia).
  unfold JsDate.getTime, msPerDayFactors, vnum, ToNumber, Num.of_Z, Num.mul, Num.sub,
    JsDate.setTime.
  cbn. unfold Qle_bool. cbn [Qnum Qden inject_Z].
  unfold JsDate.maxTime, JsDate.msPerDay in *.
  replace (_ <=? _) with true by (symmetry; apply Z.leb_le; lia).
  rewrite Z.quot_1_r. f_equal. lia.
Qed.

Lemma day_before now d :
  JsDate.Day (now - d * JsDate.msPerDay) = JsDate.Day now - d.
Proof.
  unfold JsDate.Day.
  replace (now - d * JsDate.msPerDay) with (now + (- d) * JsDate.msPerDay) by lia.
  rewrite Z.div_add by (unfold JsDate.msPerDay; lia). lia.
Qed.

(** *** The date of a time, as a string *)

Lemma existsb_append p s t :
  Str.existsb p (s ++ t)%string = Str.existsb p s || Str.existsb p t.
Proof. induction s as [|c s IH]; cbn; [reflexivity | now rewrite IH, orb_assoc]. Qed.

Lemma digit_not_T n : is_T (JsDate.digit n) = false.
Proof.
  unfold JsDate.digit.
  assert (H : (Z.to_nat (n mod 10) < 10)%nat).
  { pose proof (Z.mod_pos_bound n 10 ltac:(lia)). lia. }
  generalize dependent (Z.to_nat (n mod 10)). intros k H.
  do 10 (destruct k as [|k]; [reflexivity|]). lia.
Qed.

Lemma pad_no_T width : forall n, Str.existsb is_T (JsDate.pad width n) = false.
Proof.
  induction width as [|width IH]; intros n; cbn [JsDate.pad]; [reflexivity|].
  rewrite existsb_append, IH. cbn [Str.existsb orb]. now rewrite digit_not_T.
Qed.

Lemma isoDate_no_T d : Str.existsb is_T (JsDate.isoDate d) = false.
Proof.
  unfold JsDate.isoDate. destruct (JsDate.civil d) as [[y m] dd].
  cbn [String.concat]. rewrite !existsb_append, !pad_no_T.
  unfold JsDate.year_string.
  destruct ((0 <=? y) && (y <=? 9999)).
  - rewrite pad_no_T. reflexivity.
  - rewrite existsb_append, pad_no_T. now destruct (y <? 0).
Qed.

Lemma split_head c s rest :
  Str.existsb (fun ch => Ascii.eqb ch c) s = false ->
  nth 0 (Str.split c (s ++ String c rest)%string) ""%string = s.
Proof.
  induction s as [|a s IH]; cbn.
  - now rewrite Ascii.eqb_refl.
  - intros H. apply orb_false_elim in H. destruct H as [Ha Hs]. rewrite Ha.
    specialize (IH Hs). destruct (Str.split c (s ++ String c rest)); cbn in *; congruence.
Qed.

Lemma date_string_of_time t :
  date_string (Some t) = Normal (JsDate.isoDate (JsDate.Day t)).
Proof.
  unfold date_string, JsDate.toISOString. cbn [String.concat]. f_equal.
  change ("T" ++ JsDate.isoTime (JsDate.TimeWithinDay t))%string
    with (String "T" (JsDate.isoTime (JsDate.TimeWithinDay t))).
  apply split_head. apply isoDate_no_T.
Qed.

(** *** The calendar date of a day number *)

Lemma all_from_spec fuel : forall i p,
  all_from fuel i p = true -> forall j, i <= j < i + Z.of_nat fuel -> p j = true.
Proof.
  induction fuel as [|fuel IH]; intros i p H j Hj; [lia|].
  cbn [all_from] in H. apply andb_prop in H. destruct H as [Hi Hr].
  destruct (Z.eq_dec j i) as [->|Hne]; [exact Hi|].
  apply (IH (i + 1) p Hr). lia.
Qed.

(** The 146097 days of the era that starts on 1 March of year 0, one
    by one. *)
Lemma civil_gregorian_era_0 :
  all_from (Z.to_nat 146097) (-719468) (fun d => gregorian d (JsDate.civil d)) = true.
Proof. vm_compute. reflexivity. Qed.

(** The calendar repeats every 400 years, which are 146097 days. *)
Lemma civil_shift d e :
  JsDate.civil (d + 146097 * e) =
    let '(y, m, dd) := JsDate.civil d in (y + 400 * e, m, dd).
Proof.
  unfold JsDate.civil. cbv zeta.
  replace (d + 146097 * e + 719468) with (d + 719468 + e * 146097) by lia.
  rewrite Z.div_add by lia.
  set (z := d + 719468). set (era := z / 146097).
  replace (z + e * 146097 - (era + e) * 146097) with (z - era * 146097) by lia.
  set (doe := z - era * 146097).
  set (yoe := (doe - doe / 1460 + doe / 36524 - doe / 146096) / 365).
  set (doy := doe - (365 * yoe + yoe / 4 - yoe / 100)).
  set (mp := (5 * doy + 2) / 153).
  f_equal. f_equal. lia.
Qed.

Lemma DayFromYear_shift y e : DayFromYear (y + 400 * e) = DayFromYear y + 146097 * e.
Proof.
  unfold DayFromYear.
  replace (y + 400 * e - 1969) with (y - 1969 + (100 * e) * 4) by lia.
  replace (y + 400 * e - 1901) with (y - 1901 + (4 * e) * 100) by lia.
  replace (y + 400 * e - 1601) with (y - 1601 + e * 400) by lia.
  rewrite !Z.div_add by lia. lia.
Qed.

Lemma InLeapYear_shift y e : InLeapYear (y + 400 * e) = InLeapYear y.
Proof.
  unfold InLeapYear.
  replace (y + 400 * e) with (y + (100 * e) * 4) at 1 by lia.
  replace (y + 400 * e) with (y + (4 * e) * 100) at 1 by lia.
  replace (y + 400 * e) with (y + e * 400) by lia.
  now rewrite !Z.mod_add by lia.
Qed.

(** The date [civil] computes is the date of the day in the calendar of
    ECMAScript, for every day number. *)
Lemma civil_gregorian d : gregorian d (JsDate.civil d) = true.
Proof.
  set (e := (d + 719468) / 146097).
  set (d0 := d - 146097 * e).
  assert (Hd0 : -719468 <= d0 < -719468 + Z.of_nat (Z.to_nat 146097)).
  { unfold d0, e. pose proof (Z.div_mod (d + 719468) 146097 ltac:(lia)).
    pose proof (Z.mod_pos_bound (d + 719468) 146097 ltac:(lia)). lia. }
  pose proof (all_from_spec _ _ _ civil_gregorian_era_0 d0 Hd0) as H0. cbv beta in H0.
  replace d with (d0 + 146097 * e) by (unfold d0; lia).
  rewrite civil_shift. destruct (JsDate.civil d0) as [[y m] dd].
  unfold gregorian in *. rewrite InLeapYear_shift, DayFromYear_shift.
  repeat (apply andb_prop in H0; destruct H0 as [H0 ?]).
  repeat (apply andb_true_intro; split); auto.
  - apply Z.eqb_eq in H1. apply Z.eqb_eq. lia.
  - apply Z.ltb_lt in H. apply Z.ltb_lt. lia.
Qed.

(** *** The handler *)

Lemma chart_run symbol query r w :
  0 <= Date_now w <= JsDate.maxTime ->
  own query "range" = VStr r ->
  let url := chart_url w symbol (range_key r) (JsDate.Day (Date_now w)) in
  run (chart symbol query) w =
    (match axios_get w url with
     | Throw _ => Reply 500 (VObj [("error", VStr "Failed to fetch chart data")])
     | Normal data =>
         if negb (truthy (opt data "results")) || length_is_zero (opt data "results")
         then Reply 200 (VArr [])
         else Reply 200 (opt data "results")
     end, [AxiosGet url]).
Proof.
  intros Hn Hq. cbv zeta. unfold chart_url, chart.
  rewrite Hq, chart_range_key.
  unfold run. unfold bind at 1. unfold lift at 1. cbv beta iota zeta.
  rewrite (chart_config_table _ (range_key_no_lower r)).
  pose proof (range_table_days (range_key r)) as Hd.
  destruct (range_table (range_key r)) as [[multiplier timespan] days]. cbn [snd] in Hd.
  change (own (interval multiplier timespan days) "multiplier") with (vnum multiplier).
  change (own (interval multiplier timespan days) "timespan") with (VStr timespan).
  change (own (interval multiplier timespan days) "from") with (vnum days).
  unfold bind at 1. unfold ask at 1. cbv beta iota zeta.
  rewrite (from_date _ _ Hn Hd).
  unfold JsDate.new_Date, JsDate.TimeClip.
  replace (Z.abs (Date_now w) <=? JsDate.maxTime) with true
    by (symmetry; apply Z.leb_le; lia).
  rewrite !date_string_of_time, day_before.
  unfold bind, lift, try_catch, axios, json, error, ret. cbn [app].
  destruct (axios_get w _) as [data|e]; [|reflexivity].
  destruct (negb (truthy (opt data "results")) || length_is_zero (opt data "results"));
    reflexivity.
Qed.



End ChartFacts.

(** ** The rate limiter *)

Module LimiterFacts.

Import Spec.

Local Open Scope Z_scope.

Section Window.

Variable opts : RateLimit.options.
Variable c : string.
Variable t0 : Z.

Local Abbreviation counted := (Spec.counted opts c t0).

Lemma lookup_other key cl st :
  String.eqb key c = false ->
  RateLimit.lookup c ((key, cl) :: st) = RateLimit.lookup c st.
Proof. intros H. cbn. rewrite String.eqb_sym. now rewrite H. Qed.

Lemma lookup_same cl st : RateLimit.lookup c ((c, cl) :: st) = Some cl.
Proof. cbn [RateLimit.lookup]. now rewrite String.eqb_refl. Qed.

Lemma counted_other st k key cl :
  String.eqb key c = false -> counted st k -> counted ((key, cl) :: st) k.
Proof.
  intros Hk [[-> Hw]|[Hpos (reset & Hl & Hr)]]; [left|right].
  - split; [reflexivity|]. unfold no_window. now rewrite lookup_other.
  - split; [exact Hpos|]. exists reset. now rewrite lookup_other.
Qed.

(** The count of the client's window goes up by one with each of its
    requests in the window. *)
Lemma increment_counted st k now :
  0 <= k -> counted st k ->
  t0 <= now < t0 + RateLimit.windowMs opts ->
  let (cl, st') := RateLimit.increment opts st c now in
  RateLimit.totalHits cl = k + 1 /\ counted st' (k + 1).
Proof.
  intros Hk Hc Hn. unfold RateLimit.increment, RateLimit.current.
  destruct Hc as [[-> Hw]|[Hpos (reset & Hl & Hr)]].
  - unfold no_window in Hw.
    assert (Hcur : (match RateLimit.lookup c st with
                    | Some cl => if RateLimit.resetTime cl <=? now
                                 then {| RateLimit.totalHits := 0;
                                         RateLimit.resetTime := now + RateLimit.windowMs opts |}
                                 else cl
                    | None => {| RateLimit.totalHits := 0;
                                 RateLimit.resetTime := now + RateLimit.windowMs opts |}
                    end) = {| RateLimit.totalHits := 0;
                              RateLimit.resetTime := now + RateLimit.windowMs opts |}).
    { destruct (RateLimit.lookup c st) as [cl|]; [|reflexivity].
      apply Z.leb_le in Hw.
      replace (RateLimit.resetTime cl <=? now) with true by (symmetry; apply Z.leb_le; lia).
      reflexivity. }
    rewrite Hcur. cbn [RateLimit.totalHits RateLimit.resetTime].
    split; [reflexivity|]. right. split; [lia|].
    exists (now + RateLimit.windowMs opts). rewrite lookup_same. split; [reflexivity | lia].
  - rewrite Hl. cbn [RateLimit.totalHits RateLimit.resetTime].
    replace (reset <=? now) with false by (symmetry; apply Z.leb_gt; lia).
    cbn [RateLimit.totalHits RateLimit.resetTime].
    split; [reflexivity|]. right. split; [lia|].
    exists reset. rewrite lookup_same. split; [reflexivity | exact Hr].
Qed.

Lemma headers_names cl now :
  List.map fst (RateLimit.headers opts cl now) = header_names opts.
Proof.
  unfold RateLimit.headers, header_names.
  destruct (RateLimit.standardHeaders opts), (RateLimit.legacyHeaders opts); reflexivity.
Qed.

Lemma count_client_cons x rs :
  count_client c (x :: rs) = (if from_client c x then 1 else 0) + count_client c rs.
Proof.
  unfold count_client. cbn [List.filter]. destruct (from_client c x); cbn [List.length]; lia.
Qed.

Lemma count_client_nonneg rs : 0 <= count_client c rs.
Proof. unfold count_client. lia. Qed.

(** One request of the client in the window: it is counted, and
    answered by its route or refused, by the count. *)
Lemma serve_client st k w req :
  0 <= k -> counted st k ->
  from_client c (w, req) = true ->
  t0 <= Date_now w < t0 + RateLimit.windowMs opts ->
  exists resp calls st',
    App.serve opts st w req = (resp, calls, st') /\
    counted st' (k + 1) /\
    App.answer resp = (if k + 1 <=? RateLimit.max opts
                       then fst (App.dispatch w req) else too_many opts) /\
    List.map fst (App.headers resp) = header_names opts.
Proof.
  intros Hk Hc Hf Hn. unfold from_client in Hf. cbn [snd] in Hf.
  apply andb_prop in Hf. destruct Hf as [Hu Hip]. apply String.eqb_eq in Hip.
  unfold App.serve. rewrite Hu, Hip.
  pose proof (increment_counted st k (Date_now w) Hk Hc Hn) as Hi.
  destruct (RateLimit.increment opts st c (Date_now w)) as [cl st'].
  destruct Hi as [Hh Hc']. unfold RateLimit.exceeded. rewrite Hh.
  destruct (Z.leb_spec (k + 1) (RateLimit.max opts)) as [Hle|Hgt].
  - replace (RateLimit.max opts <? k + 1) with false by (symmetry; apply Z.ltb_ge; lia).
    destruct (App.dispatch w req) as [r calls]. do 3 eexists.
    split; [reflexivity|]. cbn [App.answer App.headers fst]. repeat split; auto.
    apply headers_names.
  - replace (RateLimit.max opts <? k + 1) with true by (symmetry; apply Z.ltb_lt; lia).
    do 3 eexists. split; [reflexivity|]. cbn [App.answer App.headers]. repeat split; auto.
    apply headers_names.
Qed.

(** A request that is not the client's leaves the client's count as it
    is. *)
Lemma serve_other st k w req :
  counted st k -> from_client c (w, req) = false ->
  exists resp calls st', App.serve opts st w req = (resp, calls, st') /\ counted st' k.
Proof.
  intros Hc Hf. unfold from_client in Hf. cbn [snd] in Hf. unfold App.serve.
  destruct (App.under_api req); cbn [andb] in Hf.
  - unfold RateLimit.increment.
    destruct (RateLimit.exceeded opts _); [|destruct (App.dispatch w req)];
      do 3 eexists; (split; [reflexivity|]); now apply counted_other.
  - destruct (App.dispatch w req). do 3 eexists. split; [reflexivity | exact Hc].
Qed.

Lemma serve_all_counted rs : forall st k,
  0 <= k -> counted st k -> in_window opts c t0 rs = true ->
  forall i w req,
    nth_error rs i = Some (w, req) -> from_client c (w, req) = true ->
    exists resp,
      nth_error (App.serve_all opts st rs) i = Some resp /\
      App.answer resp =
        (if k + count_client c (firstn (S i) rs) <=? RateLimit.max opts
         then fst (App.dispatch w req) else too_many opts) /\
      List.map fst (App.headers resp) = header_names opts.
Proof.
  induction rs as [|[w0 r0] rs IH]; intros st k Hk Hc Hw i w req Hi Hf.
  - destruct i; discriminate.
  - cbn [in_window forallb] in Hw. apply andb_prop in Hw. destruct Hw as [Hw0 Hw].
    fold (in_window opts c t0 rs) in Hw.
    cbn [App.serve_all]. rewrite firstn_cons, count_client_cons.
    destruct (from_client c (w0, r0)) eqn:Hf0.
    + cbn [negb orb fst] in Hw0. apply andb_prop in Hw0. destruct Hw0 as [H1 H2].
      apply Z.leb_le in H1. apply Z.ltb_lt in H2.
      destruct (serve_client st k w0 r0 Hk Hc Hf0 (conj H1 H2))
        as (resp & calls & st' & -> & Hc' & Ha & Hh).
      destruct i as [|i].
      * cbn in Hi. injection Hi as <- <-. exists resp. cbn [nth_error firstn].
        split; [reflexivity|]. split; [|exact Hh].
        rewrite Ha. now replace (k + (1 + count_client c [])) with (k + 1) by reflexivity.
      * cbn [nth_error] in Hi |- *.
        destruct (IH st' (k + 1) ltac:(lia) Hc' Hw i w req Hi Hf) as (resp' & Hn & Ha' & Hh').
        exists resp'. split; [exact Hn|]. split; [|exact Hh'].
        rewrite Ha'. now rewrite Z.add_assoc.
    + destruct (serve_other st k w0 r0 Hc Hf0) as (resp & calls & st' & -> & Hc').
      destruct i as [|i].
      * cbn in Hi. injection Hi as <- <-. congruence.
      * cbn [nth_error] in Hi |- *.
        destruct (IH st' k Hk Hc' Hw i w req Hi Hf) as (resp' & Hn & Ha' & Hh').
        exists resp'. split; [exact Hn|]. split; [|exact Hh'].
        rewrite Ha'. now rewrite Z.add_0_l.
Qed.

End Window.

(** Every route is registered under [/api]: a request that some route
    handles has gone through the limiter. *)
Lemma routes_under_api req h : App.routes req = Some h -> App.under_api req = true.
Proof.
  unfold App.routes, App.under_api.
  destruct (App.path req) as [|api [|a [|b [|x [|y rest]]]]]; try discriminate;
    destruct (App.seg api "api"); cbn [negb]; intros H; try discriminate; reflexivity.
Qed.



Lemma eleventh_request_refused :
  List.map (fun resp => match App.answer resp with Reply code _ => code | _ => 0 end)
    (App.serve_all (App.with_max 10 App.apiLimiter) [] Examples.eleven) =
    [200; 200; 200; 200; 200; 200; 200; 200; 200; 200; 429].
Proof. vm_compute. reflexivity. Qed.

End LimiterFacts.

(** ** Strings of the replies *)

Module StringFacts.

Import Js Server Spec.

Lemma trimEnd_idempotent s : Str.trimEnd (Str.trimEnd s) = Str.trimEnd s.
Proof.
  induction s as [|c s IH]; [reflexivity|]. cbn [Str.trimEnd].
  destruct (Str.trimEnd s) as [|d r] eqn:Hs.
  - destruct (Str.is_space c) eqn:Hc; [reflexivity|]. cbn. now rewrite Hc.
  - cbn [Str.trimEnd] in *. now rewrite IH.
Qed.

Lemma trimEnd_head c r :
  Str.is_space c = false -> exists r', Str.trimEnd (String c r) = String c r'.
Proof.
  intros Hc. cbn [Str.trimEnd]. destruct (Str.trimEnd r); rewrite ?Hc; eauto.
Qed.

Lemma trimStart_head s :
  match Str.trimStart s with
  | EmptyString => True
  | String c _ => Str.is_space c = false
  end.
Proof.
  induction s as [|c s IH]; cbn; [exact I|].
  destruct (Str.is_space c) eqn:Hc; [exact IH | exact Hc].
Qed.

(** Trimming a trimmed string changes nothing. *)
Lemma trim_idempotent s : Str.trim (Str.trim s) = Str.trim s.
Proof.
  unfold Str.trim. pose proof (trimStart_head s) as H.
  destruct (Str.trimStart s) as [|c r]; [reflexivity|].
  destruct (trimEnd_head c r H) as [r' Hr]. rewrite Hr.
  cbn [Str.trimStart]. rewrite H, <- Hr. apply trimEnd_idempotent.
Qed.

(** [text.trim() || fallback], for a fallback that is itself trimmed. *)
Lemma trim_or_trimmed s fallback :
  trimmed fallback ->
  exists a, or (VStr (Str.trim s)) (VStr fallback) = VStr a /\ trimmed a.
Proof.
  intros Hf. unfold or. cbn [truthy].
  destruct (Str.trim s) as [|c r] eqn:Hs; cbn [Str.is_empty negb].
  - eauto.
  - exists (String c r). split; [reflexivity|]. split; [discriminate|].
    rewrite <- Hs. apply trim_idempotent.
Qed.

End StringFacts.

(** ** The search handler *)

Module SearchFacts.

Import Js Server Spec.

Lemma search_run query w :
  run (search query) w =
    (match axios_get w (search_url w query) with
     | Throw e => if is_404 e then Reply 200 (VArr []) else search_failed
     | Normal data =>
         if nullish data then search_failed
         else Reply 200 (or (own data "results") (VArr []))
     end, [AxiosGet (search_url w query)]).
Proof.
  unfold run, search, search_url, search_failed, try_catch, bind, ask, axios, lift, get,
    json, error, ret. cbn [app].
  destruct (axios_get w _) as [data|e].
  - destruct (nullish data); reflexivity.
  - destruct (is_404 e); reflexivity.
Qed.

(** X1: the search handler asks the provider once, with the query as it
    was typed, and answers 200 or 500 only. When the provider answers
    404 the reply is 200 with the empty list; when it answers a body
    that is not [null], the reply is 200 with the body's [results], or
    with the empty list when [results] is missing or falsy; every other
    failure gives 500 with the message of the search. *)
Theorem search_replies query w :
  let r := run (search query) w in
  snd r = [AxiosGet (search_url w query)] /\
  In (Sub (VStr query)) (search_url w query) /\
  (fst r = search_failed \/ exists results, fst r = Reply 200 results) /\
  (forall e, axios_get w (search_url w query) = Throw e ->
     is_404 e = true -> fst r = Reply 200 (VArr [])) /\
  (forall e, axios_get w (search_url w query) = Throw e ->
     is_404 e = false -> fst r = search_failed) /\
  (forall data, axios_get w (search_url w query) = Normal data -> nullish data = false ->
     (truthy (own data "results") = true -> fst r = Reply 200 (own data "results")) /\
     (truthy (own data "results") = false -> fst r = Reply 200 (VArr []))).
Proof.
  cbv zeta. rewrite search_run. cbn [fst snd].
  split; [reflexivity|]. split; [cbn; auto|]. split; [|split; [|split]].
  - destruct (axios_get w (search_url w query)) as [data|e].
    + destruct (nullish data); eauto.
    + destruct (is_404 e); eauto.
  - intros e -> ->. reflexivity.
  - intros e -> ->. reflexivity.
  - intros data -> ->. unfold or. split; intros ->; reflexivity.
Qed.

End SearchFacts.

(** ** The chat handler *)

Module ChatFacts.

Import Js Server Spec.

Lemma chat_run body w :
  nullish body = false ->
  let prompt := chat_prompt (own body "symbol") (own body "question") in
  run (chat body) w =
    (match models_generateContent w 0 prompt with
     | Throw _ => chat_failed
     | Normal response =>
         match trimmed_text response with
         | Throw _ => chat_failed
         | Normal text =>
             Reply 200 (VObj [("answer", or text (VStr "Sorry, I couldn’t find an answer."))])
         end
     end, [GenerateContent model prompt]).
Proof.
  intros Hb. unfold chat, get. rewrite Hb. cbv zeta.
  unfold run. unfold bind at 1. unfold lift at 1. cbv beta iota zeta.
  unfold bind at 1. unfold lift at 1. cbv beta iota zeta.
  fold (chat_prompt (own body "symbol") (own body "question")).
  unfold chat_failed, try_catch, bind, generateContent, lift, json, error, ret.
  cbn [app List.filter List.length].
  destruct (models_generateContent w 0 _) as [response|e]; [|reflexivity].
  destruct (trimmed_text response); reflexivity.
Qed.

Lemma trimmed_text_cases response :
  (exists e, trimmed_text response = Throw e) \/
  trimmed_text response = Normal VUndefined \/
  exists s, trimmed_text response = Normal (VStr (Str.trim s)).
Proof.
  unfold trimmed_text. destruct (first_text response) as [text|e]; [|eauto].
  destruct text; cbn; eauto.
Qed.

(** X2: the answer of a chat reply is never blank: it is a text with no
    white space around it, the provider's text trimmed or, when that is
    blank or missing, the handler's apology. One prompt was asked for
    it. *)
Theorem chat_answer_is_trimmed body w reply_body :
  fst (run (chat body) w) = Reply 200 reply_body ->
  exists a,
    reply_body = VObj [("answer", VStr a)] /\ trimmed a /\
    generated (snd (run (chat body) w)) = 1%nat.
Proof.
  destruct (nullish body) eqn:Hb.
  - unfold chat, get, run, bind, lift. rewrite Hb. discriminate.
  - rewrite (chat_run body w Hb). cbv zeta. cbn [fst snd].
    destruct (models_generateContent w 0 _) as [response|e]; [|discriminate].
    assert (Hf : trimmed "Sorry, I couldn’t find an answer.")
      by (split; [discriminate | reflexivity]).
    destruct (trimmed_text_cases response) as [[e ->]|[->|[s ->]]]; [discriminate| |].
    + intros [= <-]. eexists. split; [reflexivity|]. split; [exact Hf | reflexivity].
    + intros [= <-]. destruct (StringFacts.trim_or_trimmed s _ Hf) as (a & -> & Ha).
      exists a. split; [reflexivity|]. split; [exact Ha | reflexivity].
Qed.

Lemma chat_answer_is_trimmed_example :
  let body := VObj [("symbol", VStr "AAPL"); ("question", VStr "Why?")] in
  let w := Examples.ai_says "  Because.
" "" in
  fst (run (chat body) w) = Reply 200 (VObj [("answer", VStr "Because.")]) /\
  exists a,
    VObj [("answer", VStr "Because.")] = VObj [("answer", VStr a)] /\ trimmed a /\
    generated (snd (run (chat body) w)) = 1%nat.
Proof.
  cbv zeta. split; [vm_compute; reflexivity|].
  apply chat_answer_is_trimmed. vm_compute. reflexivity.
Defined.


End ChatFacts.

(** ** The suggestions *)

Module SuggestFacts.

Import Js Server Spec.

Lemma suggest_run symbol w :
  let first := GenerateContent model (suggestion_prompt symbol) in
  let second := GenerateContent model (highlights_prompt symbol) in
  run (suggest symbol) w =
    match models_generateContent w 0 (suggestion_prompt symbol) with
    | Throw _ => (suggest_failed, [first])
    | Normal suggestionRes =>
        match first_text suggestionRes with
        | Throw _ => (suggest_failed, [first])
        | Normal text =>
            match Call.split_lines (or text (VStr "")) with
            | Throw _ => (suggest_failed, [first])
            | Normal lines =>
                (match models_generateContent w 1 (highlights_prompt symbol) with
                 | Throw _ => suggest_failed
                 | Normal highlightsRes =>
                     match first_text highlightsRes with
                     | Throw _ => suggest_failed
                     | Normal text' =>
                         match Call.trim (or text' (VStr "")) with
                         | Throw _ => suggest_failed
                         | Normal highlights => Reply 200 (suggestion lines highlights)
                         end
                     end
                 end, [first; second])
            end
        end
    end.
Proof.
  cbv zeta. unfold suggest. cbv zeta.
  fold (suggestion_prompt symbol) (highlights_prompt symbol).
  unfold suggest_failed, suggestion, outlooks, run, try_catch, bind, generateContent, lift,
    json, error, ret.
  cbn [app List.filter List.length is_generate].
  destruct (models_generateContent w 0 _) as [r1|e]; [|reflexivity].
  destruct (first_text r1) as [text|e]; [|reflexivity].
  destruct (Call.split_lines (or text (VStr ""))) as [lines|e]; [|reflexivity].
  destruct (models_generateContent w 1 _) as [r2|e]; [|reflexivity].
  destruct (first_text r2) as [text'|e]; [|reflexivity].
  destruct (Call.trim (or text' (VStr ""))) as [highlights|e]; reflexivity.
Qed.

(** *** What the clean-up of a line keeps *)

Lemma span_digits_app s : forall ds r,
  Num.span_digits s = (ds, r) -> s = ds ++ r /\ Str.forallb Str.is_digit ds = true.
Proof.
  induction s as [|c s IH]; cbn; intros ds r H.
  - injection H as <- <-. auto.
  - destruct (Str.is_digit c) eqn:Hc.
    + destruct (Num.span_digits s) as [d r'] eqn:Hs. injection H as <- <-.
      destruct (IH d r' eq_refl) as [-> Hd]. cbn. rewrite Hc. auto.
    + injection H as <- <-. auto.
Qed.

Lemma forallb_append p s t :
  Str.forallb p (s ++ t) = Str.forallb p s && Str.forallb p t.
Proof. induction s as [|c s IH]; cbn; [reflexivity | now rewrite IH, andb_assoc]. Qed.

Lemma forallb_impl (p q : ascii -> bool) s :
  (forall c, p c = true -> q c = true) -> Str.forallb p s = true -> Str.forallb q s = true.
Proof.
  intros Hpq. induction s as [|c s IH]; cbn; [reflexivity|].
  intros H. apply andb_prop in H. destruct H as [Hc Hs]. now rewrite (Hpq c Hc), IH.
Qed.

Lemma append_assoc (s t u : string) : (s ++ t) ++ u = s ++ (t ++ u).
Proof. induction s as [|c s IH]; cbn; [reflexivity | now rewrite IH]. Qed.

Lemma append_empty (s : string) : s ++ "" = s.
Proof. induction s as [|c s IH]; cbn; [reflexivity | now rewrite IH]. Qed.

(** The clean-up removes a prefix made of stars, white space, digits
    and dots, and nothing else. *)
Lemma strip_markup_suffix fuel : forall line,
  exists removed,
    line = removed ++ strip_markup fuel line /\ Str.forallb markup removed = true.
Proof.
  induction fuel as [|fuel IH]; intros line; cbn [strip_markup].
  - exists "". auto.
  - destruct line as [|c rest]; [exists ""; auto|].
    destruct (Ascii.eqb c "*") eqn:Hstar.
    { destruct (IH rest) as (removed & Hr & Hm). exists (String c removed). cbn.
      unfold markup at 1. rewrite Hstar, Hm. split; [now rewrite <- Hr | reflexivity]. }
    destruct (Str.is_space c) eqn:Hsp.
    { destruct (IH rest) as (removed & Hr & Hm). exists (String c removed). cbn.
      unfold markup at 1. rewrite Hsp, Hm, orb_true_r. split; [now rewrite <- Hr | reflexivity]. }
    destruct (Num.span_digits (String c rest)) as [ds r] eqn:Hspan.
    destruct ds as [|d ds]; [exists ""; auto|].
    destruct r as [|dot r']; [exists ""; auto|].
    destruct (Ascii.eqb dot ".") eqn:Hdot.
    + apply Ascii.eqb_eq in Hdot. subst dot.
      destruct (span_digits_app _ _ _ Hspan) as [Hline Hds].
      destruct (IH r') as (removed & Hr & Hm).
      exists (String d ds ++ String "." removed). split.
      * rewrite Hline, append_assoc. cbn. now rewrite <- Hr.
      * assert (Hd : Str.forallb markup (String d ds) = true).
        { apply (forallb_impl Str.is_digit); [|exact Hds].
          intros x Hx. unfold markup. rewrite Hx. now rewrite !orb_true_r. }
        rewrite forallb_append, Hd. cbn [Str.forallb andb]. now rewrite Hm.
    + exists "". split; [|reflexivity].
      destruct dot as [[] [] [] [] [] [] [] []]; try reflexivity. discriminate.
Qed.

Lemma trimStart_suffix s :
  exists removed, s = removed ++ Str.trimStart s /\ Str.forallb Str.is_space removed = true.
Proof.
  induction s as [|c s IH]; cbn; [exists ""; auto|].
  destruct (Str.is_space c) eqn:Hc; [|exists ""; auto].
  destruct IH as (removed & Hr & Hs). exists (String c removed). cbn.
  rewrite Hc, Hs. split; [now rewrite <- Hr | reflexivity].
Qed.

Lemma trimEnd_prefix s :
  exists removed, s = Str.trimEnd s ++ removed /\ Str.forallb Str.is_space removed = true.
Proof.
  induction s as [|c s IH]; cbn [Str.trimEnd]; [exists ""; auto|].
  destruct IH as (removed & Hr & Hs).
  destruct (Str.trimEnd s) as [|d r] eqn:Ht.
  - destruct (Str.is_space c) eqn:Hc.
    + exists (String c removed). cbn in *. rewrite Hc, Hs. split; [now rewrite <- Hr | reflexivity].
    + exists removed. cbn in *. split; [now rewrite <- Hr | exact Hs].
  - exists removed. split; [|exact Hs]. cbn in *. now rewrite <- Hr.
Qed.

Lemma toLowerCase_append s t :
  Str.toLowerCase (s ++ t) = Str.toLowerCase s ++ Str.toLowerCase t.
Proof. unfold Str.toLowerCase. induction s as [|c s IH]; cbn; [reflexivity | now rewrite IH]. Qed.

Lemma downcase_space c : Str.is_space (Str.downcase c) = Str.is_space c.
Proof. destruct c as [[] [] [] [] [] [] [] []]; reflexivity. Qed.

Lemma toLowerCase_spaces s :
  Str.forallb Str.is_space (Str.toLowerCase s) = Str.forallb Str.is_space s.
Proof.
  unfold Str.toLowerCase. induction s as [|c s IH]; cbn; [reflexivity|].
  now rewrite downcase_space, IH.
Qed.

(** A marker that starts with a letter is not lost with the removed
    prefix. *)
Lemma includes_after_markup m0 m' removed : forall s,
  (forall c, markup c = true -> Str.downcase c <> m0) ->
  Str.forallb markup removed = true ->
  Str.includes (Str.toLowerCase (removed ++ s)) (String m0 m') =
  Str.includes (Str.toLowerCase s) (String m0 m').
Proof.
  intros s Hm0. induction removed as [|c removed IH]; [reflexivity|].
  cbn [Str.forallb]. intros H. apply andb_prop in H. destruct H as [Hc Hr].
  change (Str.toLowerCase (String c removed ++ s))
    with (String (Str.downcase c) (Str.toLowerCase (removed ++ s))).
  cbn [Str.includes String.prefix].
  destruct (ascii_dec m0 (Str.downcase c)) as [E|_]; [exfalso; apply (Hm0 c Hc); now symmetry|].
  cbn [orb]. now apply IH.
Qed.

Lemma prefix_before_spaces m : forall s spaces,
  Str.existsb Str.is_space m = false -> Str.forallb Str.is_space spaces = true ->
  String.prefix m (s ++ spaces) = true -> String.prefix m s = true.
Proof.
  induction m as [|a m IH]; intros s spaces Hm Hs; [intros _; now destruct s|].
  cbn [Str.existsb] in Hm. apply orb_false_elim in Hm. destruct Hm as [Ha Hm].
  destruct s as [|b s]; cbn [String.append].
  - destruct spaces as [|b spaces]; cbn [String.prefix]; [discriminate|].
    cbn [Str.forallb] in Hs. apply andb_prop in Hs. destruct Hs as [Hb _].
    destruct (ascii_dec a b) as [->|_]; [congruence | discriminate].
  - cbn [String.prefix]. destruct (ascii_dec a b); [now apply IH | discriminate].
Qed.

Lemma includes_spaces m0 m' spaces :
  Str.is_space m0 = false -> Str.forallb Str.is_space spaces = true ->
  Str.includes spaces (String m0 m') = false.
Proof.
  intros Hm0. induction spaces as [|c spaces IH]; [reflexivity|].
  cbn [Str.forallb]. intros H. apply andb_prop in H. destruct H as [Hc Hs].
  cbn [Str.includes String.prefix].
  destruct (ascii_dec m0 c) as [->|_]; [congruence|]. cbn [orb]. now apply IH.
Qed.

Lemma includes_before_spaces m0 m' spaces : forall s,
  Str.existsb Str.is_space (String m0 m') = false ->
  Str.forallb Str.is_space spaces = true ->
  Str.includes (s ++ spaces) (String m0 m') = true ->
  Str.includes s (String m0 m') = true.
Proof.
  intros s Hm Hs. induction s as [|c s IH].
  - cbn [String.append]. rewrite includes_spaces; [discriminate| |exact Hs].
    cbn [Str.existsb] in Hm. now apply orb_false_elim in Hm.
  - change (String c s ++ spaces) with (String c (s ++ spaces)).
    cbn [Str.includes]. intros H. apply orb_prop in H. destruct H as [H|H].
    + change (String c (s ++ spaces)) with (String c s ++ spaces) in H.
      now rewrite (prefix_before_spaces _ _ _ Hm Hs H).
    + rewrite (IH H). apply orb_true_r.
Qed.

Lemma space_is_markup c : Str.is_space c = true -> markup c = true.
Proof. intros H. unfold markup. rewrite H. now rewrite orb_true_r. Qed.

(** The clean-up keeps a marker that starts with a letter and has no
    white space. *)
Lemma clean_keeps m0 m' line :
  (forall c, markup c = true -> Str.downcase c <> m0) ->
  Str.existsb Str.is_space (String m0 m') = false ->
  Str.includes (Str.toLowerCase line) (String m0 m') = true ->
  Str.includes (Str.toLowerCase (clean line)) (String m0 m') = true.
Proof.
  intros Hm0 Hm H. unfold clean, Str.trim.
  destruct (strip_markup_suffix (String.length line) line) as (r1 & H1 & M1).
  set (stripped := strip_markup (String.length line) line) in *.
  destruct (trimStart_suffix stripped) as (r2 & H2 & M2).
  destruct (trimEnd_prefix (Str.trimStart stripped)) as (r3 & H3 & M3).
  rewrite H1, (includes_after_markup _ _ _ _ Hm0 M1) in H.
  rewrite H2, (includes_after_markup _ _ _ _ Hm0
                 (forallb_impl _ _ _ space_is_markup M2)) in H.
  rewrite H3, toLowerCase_append in H.
  apply (includes_before_spaces _ _ (Str.toLowerCase r3)); [exact Hm| |exact H].
  now rewrite toLowerCase_spaces.
Qed.

Lemma markup_not_letter c : markup c = true -> Str.is_lower (Str.downcase c) = false.
Proof. destruct c as [[] [] [] [] [] [] [] []]; cbn; intros H; try reflexivity; discriminate. Qed.

Lemma clean_is_outlook line : is_outlook line = true -> is_outlook (clean line) = true.
Proof.
  unfold is_outlook. intros H. apply orb_prop in H. apply orb_true_iff.
  destruct H as [H|H]; [left | right];
    (apply clean_keeps; [|reflexivity|exact H]);
    intros c Hc E; apply markup_not_letter in Hc; rewrite E in Hc; discriminate.
Qed.

Lemma clean_trimmed line : is_outlook line = true -> trimmed (clean line).
Proof.
  intros H. apply clean_is_outlook in H. split.
  - intros E. rewrite E in H. discriminate.
  - unfold clean. apply StringFacts.trim_idempotent.
Qed.

Lemma outlooks_are_outlooks lines :
  Forall (fun s => trimmed s /\ is_outlook s = true) (outlooks lines).
Proof.
  unfold outlooks. induction lines as [|line lines IH]; cbn [List.filter List.map]; [constructor|].
  destruct (is_outlook line) eqn:H; [|exact IH].
  cbn [List.map]. constructor; [|exact IH].
  split; [now apply clean_trimmed | now apply clean_is_outlook].
Qed.

Lemma outlook_field i fallback lines :
  trimmed fallback ->
  exists s,
    coalesce (nth_or_undefined i (outlooks lines)) (VStr fallback) = VStr s /\ trimmed s /\
    (s = fallback \/ is_outlook s = true).
Proof.
  intros Hf. unfold nth_or_undefined.
  destruct (nth_error (outlooks lines) i) as [s|] eqn:Hn; cbn.
  - apply nth_error_In in Hn.
    pose proof (outlooks_are_outlooks lines) as Hall. rewrite Forall_forall in Hall.
    destruct (Hall s Hn) as [Ht Ho]. eauto.
  - eauto.
Qed.

Lemma suggest_200 symbol w body :
  fst (run (suggest symbol) w) = Reply 200 body ->
  exists text lines highlights,
    Call.split_lines (or text (VStr "")) = Normal lines /\
    (exists r, models_generateContent w 0 (suggestion_prompt symbol) = Normal r /\
               first_text r = Normal text) /\
    body = suggestion lines (Str.trim highlights) /\
    snd (run (suggest symbol) w) =
      [GenerateContent model (suggestion_prompt symbol);
       GenerateContent model (highlights_prompt symbol)].
Proof.
  rewrite suggest_run. cbv zeta.
  destruct (models_generateContent w 0 _) as [r1|e]; [|discriminate].
  destruct (first_text r1) as [text|e] eqn:Ht; [|discriminate].
  destruct (Call.split_lines (or text (VStr ""))) as [lines|e] eqn:Hl; [|discriminate].
  cbn [fst snd].
  destruct (models_generateContent w 1 _) as [r2|e]; [|discriminate].
  destruct (first_text r2) as [text'|e]; [|discriminate].
  destruct (or text' (VStr "")) as [| | | |highlights| |]; try discriminate.
  intros [= <-]. exists text, lines, highlights. repeat split; eauto.
Qed.

(** X4: every field of a suggestion is a text that is not blank and has
    no white space around it. Each outlook is either the handler's
    fallback or a line of the provider's answer that still mentions the
    marker it was selected for ([short-term] or [long-term], in any
    case); the highlights are the fallback when the provider's text is
    blank or missing. *)
Theorem suggestion_fields_are_texts symbol w body :
  fst (run (suggest symbol) w) = Reply 200 body ->
  exists shortTerm longTerm highlights,
    body = VObj [("shortTerm", VStr shortTerm); ("longTerm", VStr longTerm);
                 ("highlights", VStr highlights)] /\
    trimmed shortTerm /\ trimmed longTerm /\ trimmed highlights /\
    (shortTerm = "Short-term insight unavailable." \/ is_outlook shortTerm = true) /\
    (longTerm = "Long-term insight unavailable." \/ is_outlook longTerm = true).
Proof.
  intros H. destruct (suggest_200 _ _ _ H) as (text & lines & h & _ & _ & -> & _).
  unfold suggestion.
  destruct (outlook_field 0 "Short-term insight unavailable." lines) as (s & -> & Hs & Hs');
    [split; [discriminate | reflexivity]|].
  destruct (outlook_field 1 "Long-term insight unavailable." lines) as (l & -> & Hl & Hl');
    [split; [discriminate | reflexivity]|].
  exists s, l.
  destruct (StringFacts.trim_or_trimmed h "No highlights available.") as (a & -> & Ha);
    [split; [discriminate | reflexivity]|].
  exists a. repeat split; try apply Hs; try apply Hl; try apply Ha; auto.
Qed.

Lemma suggestion_fields_are_texts_example :
  let w := Examples.ai_says Examples.long_term_first "  " in
  let body := VObj [("shortTerm", VStr "Long-Term: hold"); ("longTerm", VStr "Short-Term: wait");
                    ("highlights", VStr "No highlights available.")] in
  fst (run (suggest "AAPL") w) = Reply 200 body /\
  exists shortTerm longTerm highlights,
    body = VObj [("shortTerm", VStr shortTerm); ("longTerm", VStr longTerm);
                 ("highlights", VStr highlights)] /\
    trimmed shortTerm /\ trimmed longTerm /\ trimmed highlights /\
    (shortTerm = "Short-term insight unavailable." \/ is_outlook shortTerm = true) /\
    (longTerm = "Long-term insight unavailable." \/ is_outlook longTerm = true).
Proof.
  cbv zeta. split; [vm_compute; reflexivity|].
  apply (suggestion_fields_are_texts "AAPL" (Examples.ai_says Examples.long_term_first "  ")).
  vm_compute. reflexivity.
Defined.

(** X5: the two outlooks are told apart by their position, not by
    their marker: of the lines of the first answer that mention
    [short-term] or [long-term], the first one, cleaned, is the
    short-term outlook and the second one the long-term outlook,
    whichever marker each mentions; a missing line gives the fallback
    of its field. *)
Theorem suggestion_outlooks_by_position symbol w body :
  fst (run (suggest symbol) w) = Reply 200 body ->
  exists response text lines,
    models_generateContent w 0 (suggestion_prompt symbol) = Normal response /\
    first_text response = Normal text /\
    Call.split_lines (or text (VStr "")) = Normal lines /\
    own body "shortTerm" =
      match List.filter is_outlook lines with
      | first :: _ => VStr (clean first)
      | [] => VStr "Short-term insight unavailable."
      end /\
    own body "longTerm" =
      match List.filter is_outlook lines with
      | _ :: second :: _ => VStr (clean second)
      | _ => VStr "Long-term insight unavailable."
      end.
Proof.
  intros H. destruct (suggest_200 _ _ _ H) as (text & lines & h & Hl & (r & Hr & Ht) & -> & _).
  exists r, text, lines. repeat split; auto.
  - unfold suggestion, outlooks. destruct (List.filter is_outlook lines); reflexivity.
  - unfold suggestion, outlooks. destruct (List.filter is_outlook lines) as [|a [|b l]]; reflexivity.
Qed.

Lemma suggestion_outlooks_by_position_example :
  let w := Examples.ai_says Examples.long_term_first "* Earnings" in
  let body := VObj [("shortTerm", VStr "Long-Term: hold"); ("longTerm", VStr "Short-Term: wait");
                    ("highlights", VStr "* Earnings")] in
  fst (run (suggest "AAPL") w) = Reply 200 body /\
  exists response text lines,
    models_generateContent w 0 (suggestion_prompt "AAPL") = Normal response /\
    first_text response = Normal text /\
    Call.split_lines (or text (VStr "")) = Normal lines /\
    own body "shortTerm" =
      match List.filter is_outlook lines with
      | first :: _ => VStr (clean first)
      | [] => VStr "Short-term insight unavailable."
      end /\
    own body "longTerm" =
      match List.filter is_outlook lines with
      | _ :: second :: _ => VStr (clean second)
      | _ => VStr "Long-term insight unavailable."
      end.
Proof.
  cbv zeta. split; [vm_compute; reflexivity|].
  apply (suggestion_outlooks_by_position "AAPL" (Examples.ai_says Examples.long_term_first "* Earnings")).
  vm_compute. reflexivity.
Defined.

(** X6: the two prompts of a suggestion are asked one after the other,
    the second only once the first answer has been read: a reply is 200
    or 500; a reply 200 has asked both prompts, in that order; when the
    first prompt fails the second is not asked; and when the second
    fails the reply is 500, the outlooks read from the first answer
    being dropped. *)
Theorem suggest_asks_in_sequence symbol w :
  let out := run (suggest symbol) w in
  let first := GenerateContent model (suggestion_prompt symbol) in
  let second := GenerateContent model (highlights_prompt symbol) in
  (fst out = suggest_failed \/ exists body, fst out = Reply 200 body) /\
  (snd out = [first] \/ snd out = [first; second]) /\
  (forall body, fst out = Reply 200 body -> snd out = [first; second]) /\
  (forall e, models_generateContent w 0 (suggestion_prompt symbol) = Throw e ->
     out = (suggest_failed, [first])) /\
  (forall e, models_generateContent w 1 (highlights_prompt symbol) = Throw e ->
     fst out = suggest_failed).
Proof.
  cbv zeta. rewrite suggest_run. cbv zeta.
  destruct (models_generateContent w 0 _) as [r1|e1].
  2:{ cbn [fst snd]. repeat split; auto; intros; discriminate. }
  destruct (first_text r1) as [text|e].
  2:{ cbn [fst snd]. repeat split; auto; intros; discriminate. }
  destruct (Call.split_lines (or text (VStr ""))) as [lines|e].
  2:{ cbn [fst snd]. repeat split; auto; intros; discriminate. }
  cbn [fst snd]. split; [|split; [auto|split; [auto|split; [intros; discriminate|]]]].
  - destruct (models_generateContent w 1 _) as [r2|e]; [|auto].
    destruct (first_text r2) as [text'|e]; [|auto].
    destruct (Call.trim (or text' (VStr ""))); eauto.
  - intros e ->. reflexivity.
Qed.

End SuggestFacts.

(** ** The replies of the chart handler *)

Module ChartReplyFacts.

Import Js Server Spec.

Local Open Scope Z_scope.

(** X7: for a range given as a string, the chart handler asks the
    provider once and answers 200 or 500: when the provider's body has
    an array of results the reply is that array, unchanged; when the
    body is [null] or its results are missing or falsy, the reply is the
    empty list; every failure of the call, a 404 of the provider
    included, gives 500. *)
Theorem chart_replies symbol query r w :
  0 <= Date_now w <= JsDate.maxTime ->
  own query "range" = VStr r ->
  let url := chart_url w symbol (range_key r) (JsDate.Day (Date_now w)) in
  let out := run (chart symbol query) w in
  snd out = [AxiosGet url] /\
  (forall e, axios_get w url = Throw e -> fst out = chart_failed) /\
  (forall data bars, axios_get w url = Normal data -> opt data "results" = VArr bars ->
     fst out = Reply 200 (VArr bars)) /\
  (forall data, axios_get w url = Normal data -> truthy (opt data "results") = false ->
     fst out = Reply 200 (VArr [])).
Proof.
  intros Hn Hq. cbv zeta. rewrite (ChartFacts.chart_run symbol query r w Hn Hq). cbv zeta.
  cbn [fst snd]. split; [reflexivity|]. split; [|split].
  - intros e ->. reflexivity.
  - intros data bars -> ->. destruct bars; reflexivity.
  - intros data -> ->. reflexivity.
Qed.

Lemma chart_replies_example :
  let w := Examples.refuses 404 in
  let query := VObj [("range", VStr "1w")] in
  let url := chart_url w "aapl" "1W" (JsDate.Day (Date_now w)) in
  (0 <= Date_now w <= JsDate.maxTime) /\
  own query "range" = VStr "1w" /\
  fst (run (chart "aapl" query) w) = chart_failed /\
  snd (run (chart "aapl" query) w) = [AxiosGet url].
Proof.
  cbv zeta.
  assert (Hn : 0 <= Date_now (Examples.refuses 404) <= JsDate.maxTime) by (vm_compute; split; discriminate).
  split; [exact Hn|]. split; [reflexivity|].
  destruct (chart_replies "aapl" (VObj [("range", VStr "1w")]) "1w" (Examples.refuses 404) Hn eq_refl)
    as (Hc & Hf & _).
  split; [|exact Hc].
  apply (Hf (AxiosError "Request failed" (Some {| status := 404; data := VNull |}))).
  reflexivity.
Defined.

(** X8: what the range can be besides a string. A range that is
    missing or falsy (the empty string) is served as [1D]. A range that
    is truthy and not a string (the array of a repeated parameter, an
    object) has no [toUpperCase]: the handler throws before its [try]
    block, sends no reply of its own and asks nothing. *)
Theorem chart_range_other_values symbol query w :
  (truthy (own query "range") = false ->
     run (chart symbol query) w = run (chart symbol (VObj [("range", VStr "1D")])) w) /\
  (truthy (own query "range") = true -> (forall s, own query "range" <> VStr s) ->
     exists e, run (chart symbol query) w = (Unhandled e, [])).
Proof.
  split.
  - intros H. unfold chart, chart_range, or. rewrite H. reflexivity.
  - intros H Hs. unfold chart, chart_range, or. rewrite H.
    destruct (own query "range") as [| |b|n|s| |]; try discriminate;
      try (unfold run, bind, lift; cbn; eauto; fail).
    now destruct (Hs s).
Qed.

End ChartReplyFacts.

(** ** The fields of a quote, and the symbols it refuses *)

Module QuoteFieldFacts.

Import Js Server Spec.

Lemma own_cons k k' v ps :
  own (VObj ((k', v) :: ps)) k = if String.eqb k k' then v else own (VObj ps) k.
Proof. cbn. destruct (String.eqb k k'); reflexivity. Qed.

Lemma truthy_not_nullish v : truthy v = true -> nullish v = false.
Proof. destruct v; cbn; intros H; try reflexivity; discriminate. Qed.

Lemma or_not_nullish a b : nullish b = false -> nullish (or a b) = false.
Proof.
  intros Hb. unfold or. destruct (truthy a) eqn:Ha; [now apply truthy_not_nullish | exact Hb].
Qed.

Lemma coalesce_not_nullish a b : nullish b = false -> nullish (coalesce a b) = false.
Proof. intros Hb. unfold coalesce. destruct (nullish a) eqn:Ha; [exact Hb | exact Ha]. Qed.

Lemma coalesce_null a : coalesce a VNull <> VUndefined.
Proof. destruct a; discriminate. Qed.

Ltac read_field := rewrite !own_cons; cbn [String.eqb Ascii.eqb Bool.eqb].



Lemma alphanumeric_not_empty s : Validator.isAlphanumeric s = true -> (1 <= String.length s)%nat.
Proof. destruct s; cbn; [discriminate | lia]. Qed.

(** X10: a symbol that fails the checks is answered 400 and nothing is
    asked upstream. The message [Invalid stock symbol] belongs to the
    check of the length alone: it is the reply's message exactly when
    the symbol is alphanumeric and longer than ten characters; a symbol
    with any other character gets the validator's [Invalid value],
    whatever its length. *)
Theorem quote_invalid_symbol_message symbol w :
  valid symbol = false ->
  (Validator.isAlphanumeric symbol = true /\ (10 < String.length symbol)%nat /\
   run (quote symbol) w = (Reply 400 (VObj [("error", VStr "Invalid stock symbol")]), [])) \/
  (Validator.isAlphanumeric symbol = false /\
   run (quote symbol) w = (Reply 400 (VObj [("error", VStr "Invalid value")]), [])).
Proof.
  intros Hv. rewrite (QuoteFacts.quote_run_invalid symbol w Hv).
  destruct (Validator.isAlphanumeric symbol) eqn:Ha; [left | right; auto].
  split; [reflexivity|]. split; [|reflexivity].
  pose proof (alphanumeric_not_empty _ Ha) as Hl.
  unfold valid in Hv. rewrite Ha in Hv. cbn [andb] in Hv.
  unfold Validator.isLength in Hv. apply andb_false_iff in Hv.
  destruct Hv as [Hv|Hv]; [apply Nat.leb_gt in Hv | apply Nat.leb_gt in Hv]; lia.
Qed.

Lemma quote_invalid_symbol_message_example :
  valid "ABCDEFGHIJK" = false /\
  valid "BRK.B" = false /\
  run (quote "ABCDEFGHIJK") (Examples.always VNull) =
    (Reply 400 (VObj [("error", VStr "Invalid stock symbol")]), []) /\
  run (quote "BRK.B") (Examples.always VNull) =
    (Reply 400 (VObj [("error", VStr "Invalid value")]), []).
Proof.
  split; [reflexivity|]. split; [reflexivity|]. split.
  - destruct (quote_invalid_symbol_message "ABCDEFGHIJK" (Examples.always VNull) eq_refl)
      as [(_ & _ & H)|(H & _)]; [exact H | discriminate H].
  - destruct (quote_invalid_symbol_message "BRK.B" (Examples.always VNull) eq_refl)
      as [(H & _)|(_ & H)]; [discriminate H | exact H].
Defined.

End QuoteFieldFacts.

(** ** The news: calls and items *)

Module NewsFacts.

Import Js Server Spec.

Local Open Scope nat_scope.

Lemma prompts_all articles :
  forallb (fun a => negb (nullish a)) articles = true ->
  prompts articles =
    List.map (fun a => GenerateContent model (sentiment_prompt (own a "title"))) articles.
Proof.
  unfold prompts. induction articles as [|a rest IH]; cbn; [reflexivity|].
  destruct (nullish a); cbn; [discriminate|]. intros H. now rewrite (IH H).
Qed.

(** X11: a news handler fetches the articles first, then asks one
    sentiment for each article the provider returned, in the order of the
    articles and with the article's title: as many prompts as there are
    articles in a reply 200, whatever the [limit] of the URL. It asks no
    sentiment at all when it answers 404, which it does when the results
    are missing, falsy or empty. *)
Theorem news_asks_once_per_article by_symbol symbol w :
  let url := news_url by_symbol w symbol in
  let out := run (news by_symbol symbol) w in
  hd_error (snd out) = Some (AxiosGet url) /\
  (forall data, axios_get w url = Normal data -> nullish data = false ->
     truthy (own data "results") = false \/ own data "results" = VArr [] ->
     out = (Reply 404 (VObj [("error", VStr "No news found for this ticker")]), [AxiosGet url])) /\
  (forall body, fst out = Reply 404 body -> snd out = [AxiosGet url]) /\
  (forall body, fst out = Reply 200 body ->
     exists data articles items,
       axios_get w url = Normal data /\ own data "results" = VArr articles /\
       body = VArr items /\ List.length items = List.length articles /\
       snd out = AxiosGet url ::
         List.map (fun a => GenerateContent model (sentiment_prompt (own a "title"))) articles).
Proof.
  cbv zeta. rewrite BatchFacts.news_run. cbv zeta.
  set (url := news_url by_symbol w symbol).
  destruct (axios_get w url) as [data|e].
  2:{ cbn [fst snd]. split; [reflexivity|]. split; [intros; discriminate|].
      split; intros body H; exfalso; revert H; unfold news_failed; discriminate. }
  unfold get. destruct (nullish data) eqn:Hn.
  { cbn [fst snd]. split; [reflexivity|]. split; [intros d [= <-]; congruence|].
    split; intros body H; exfalso; revert H; unfold news_failed; discriminate. }
  destruct (negb (truthy (or (own data "results") (VArr []))) ||
            length_is_zero (or (own data "results") (VArr []))) eqn:Hz.
  { cbn [fst snd]. split; [reflexivity|]. split; [reflexivity|]. split; [reflexivity|].
    intros; discriminate. }
  assert (Hno : ~ (truthy (own data "results") = false \/ own data "results" = VArr [])).
  { intros [H|H]; unfold or in Hz; rewrite H in Hz; cbn in Hz; discriminate. }
  destruct (or (own data "results") (VArr [])) as [| | | | |xs|] eqn:Hor;
    try (cbn [fst snd]; split; [reflexivity|]; split; [intros d [= <-] _ H; now destruct Hno|];
         split; intros body H; exfalso; revert H; unfold news_failed; discriminate).
  destruct (forallb (fun a => negb (nullish a)) xs) eqn:Hall; cbn [fst snd hd_error].
  - split; [reflexivity|]. split; [intros d [= <-] _ H; now destruct Hno|].
    split; [intros; discriminate|].
    intros body [= <-]. exists data, xs, (analyzed by_symbol w 0 xs).
    split; [reflexivity|]. split.
    { unfold or in Hor. destruct (truthy (own data "results")); [exact Hor|].
      injection Hor as <-. cbn in Hz. discriminate. }
    split; [reflexivity|]. split; [apply BatchFacts.analyzed_length|].
    now rewrite (prompts_all _ Hall).
  - split; [reflexivity|]. split; [intros d [= <-] _ H; now destruct Hno|].
    split; intros body H; exfalso; revert H; unfold news_failed; discriminate.
Qed.

Lemma sentiment_text_trimmed answer : trimmed (sentiment_text answer).
Proof.
  assert (Hn : trimmed "Neutral") by (split; [discriminate | reflexivity]).
  unfold sentiment_text. destruct answer as [response|e]; [|exact Hn].
  destruct (first_part response) as [[p|]|e]; try exact Hn.
  destruct (own p "text"); try exact Hn.
  destruct (Str.trim s) as [|c r] eqn:Hs; cbn [Str.is_empty]; [exact Hn|].
  split; [discriminate|]. rewrite <- Hs. apply StringFacts.trim_idempotent.
Qed.

Lemma item_shape by_symbol w n article :
  item_of by_symbol article (item by_symbol w n article).
Proof.
  unfold item_of, item, news_item, published_field, published_as.
  destruct by_symbol.
  - repeat split; try reflexivity.
    + cbn. unfold or. destruct (truthy (opt (own article "publisher") "name")) eqn:H; [exact H | reflexivity].
    + cbn. unfold or. now intros ->.
    + cbn. eexists. split; [reflexivity | apply sentiment_text_trimmed].
    + cbn. destruct (own article "published_utc"); discriminate.
  - repeat split; try reflexivity.
    + cbn. unfold or. destruct (truthy (opt (own article "publisher") "name")) eqn:H; [exact H | reflexivity].
    + cbn. unfold or. now intros ->.
    + cbn. eexists. split; [reflexivity | apply sentiment_text_trimmed].
Qed.



End NewsFacts.

(** ** The routes of the news *)

Module RouteFacts.

Import Js Server Spec.

Lemma seg_literals :
  forall s, App.seg s "news" = true ->
    App.seg s "quote" = false /\ App.seg s "search" = false /\ App.seg s "chart" = false /\
    App.seg s "ai" = false.
Proof.
  intros s H. unfold App.seg in *. apply String.eqb_eq in H. rewrite H. auto.
Qed.



End RouteFacts.

(** ** The entries of the movers *)

Module EntryFacts.

Import Js Server Spec.

Local Open Scope nat_scope.

(** An entry of a list of movers: its name is its symbol, and price,
    changePercent and volume hold a value. *)
Lemma entry_shape t : mover_entry (entry t).
Proof.
  unfold mover_entry, entry. repeat split; try reflexivity;
    cbn; apply QuoteFieldFacts.coalesce_not_nullish; reflexivity.
Qed.

Lemma Forall_entries tickers : Forall mover_entry (List.map entry tickers).
Proof. induction tickers; cbn; constructor; [apply entry_shape | assumption]. Qed.

Lemma Forall_firstn {A} (P : A -> Prop) n l : Forall P l -> Forall P (firstn n l).
Proof.
  rewrite !Forall_forall. intros H x Hx. apply H. eapply MoverFacts.firstn_incl, Hx.
Qed.

(** X14: in the three lists of movers every entry is named by its
    symbol (the name is the provider's ticker, as the symbol is), and
    its price, changePercent and volume are never missing or [null]:
    they are [0] for want of the provider's value. The lists hold at
    most five entries (gainers, losers) and seven (most active). *)
Theorem movers_entries_shape w body :
  (fst (run top_gainers w) = Reply 200 body \/ fst (run top_losers w) = Reply 200 body ->
   exists entries, body = VArr entries /\ Forall mover_entry entries /\ List.length entries <= 5) /\
  (fst (run most_active w) = Reply 200 body ->
   exists entries, body = VArr entries /\ Forall mover_entry entries /\ List.length entries <= 7).
Proof.
  split.
  - rewrite MoverFacts.top_gainers_run, MoverFacts.top_losers_run.
    intros [H|H]; destruct (MoverFacts.listing_200 _ _ _ _ _ H) as (data & ts & _ & _ & ->);
      (eexists; split; [reflexivity|]; split;
        [apply Forall_firstn, Forall_entries | apply firstn_le_length]).
  - rewrite MoverFacts.most_active_run. intros H.
    destruct (MoverFacts.listing_200 _ _ _ _ _ H) as (data & ts & _ & _ & ->).
    eexists. split; [reflexivity|]. split; [|apply firstn_le_length].
    apply Forall_firstn.
    eapply Permutation_Forall; [|apply Forall_entries].
    symmetry. apply MoverFacts.sort_perm.
Qed.

(** *** Ties of the sort *)

Lemma by_volume_desc_same q x y :
  by_volume_desc x y = Gt -> same_volume q x = true -> same_volume q y = false.
Proof.
  unfold by_volume_desc, same_volume. fold (volume_of x) (volume_of y).
  destruct (volume_of x) as [vx| |]; try discriminate.
  destruct (volume_of y) as [vy| |]; try reflexivity.
  cbn. intros Hgt Hx. apply Qeq_bool_iff in Hx.
  destruct (Qeq_bool vy q) eqn:Hy; [|reflexivity].
  apply Qeq_bool_iff in Hy. apply Qgt_alt in Hgt. lra.
Qed.

Lemma insert_keeps_ties q x l :
  List.filter (same_volume q) (Call.insert by_volume_desc x l) =
  List.filter (same_volume q) (x :: l).
Proof.
  induction l as [|y l IH]; [reflexivity|].
  cbn [Call.insert]. destruct (by_volume_desc x y) eqn:Hc; try reflexivity.
  cbn [List.filter] in *. rewrite IH.
  destruct (same_volume q x) eqn:Hx; [|reflexivity].
  now rewrite (by_volume_desc_same q x y Hc Hx).
Qed.

Lemma sort_keeps_ties q l :
  List.filter (same_volume q) (Call.sort by_volume_desc l) = List.filter (same_volume q) l.
Proof.
  unfold Call.sort. induction l as [|x l IH]; [reflexivity|].
  cbn [fold_right]. rewrite insert_keeps_ties. cbn [List.filter]. now rewrite IH.
Qed.



End EntryFacts.

(** ** The sectors *)

Module SectorFacts.

Import Js Server Spec.

Lemma collect_map_sector w etfs : forall entries,
  collect (List.map (sector_outcome w) etfs) = Normal entries ->
  List.map (fun e => own e "name") entries = List.map (fun etf => VStr (fst etf)) etfs /\
  Forall (fun e => nullish (own e "changePercent") = false) entries.
Proof.
  induction etfs as [|etf rest IH]; cbn [List.map collect]; intros entries.
  - intros [= <-]. split; [reflexivity | constructor].
  - destruct (sector_outcome w etf) as [b|e] eqn:Hb; [|discriminate].
    destruct (collect (List.map (sector_outcome w) rest)) as [bs|e]; [|discriminate].
    intros [= <-]. destruct (IH bs eq_refl) as [Hn Hc].
    unfold sector_outcome in Hb.
    destruct (axios_get w (snapshot_url w (snd etf))) as [data|e]; [|discriminate].
    destruct (get data "ticker") as [ticker|e]; [|discriminate].
    destruct (get ticker "todaysChangePerc") as [changePerc|e]; [|discriminate].
    injection Hb as <-. split.
    + cbn [List.map]. now rewrite Hn.
    + constructor; [|exact Hc]. cbn. now apply QuoteFieldFacts.coalesce_not_nullish.
Qed.

(** X16: the sectors handler always asks for the five snapshots, of
    XLK, XLV, XLF, XLE and XLY in that order, whatever any of them
    answers: a failure of one does not stop the others from being asked.
    A reply 200 lists the five sectors in the fixed order Technology,
    Healthcare, Financials, Energy, Consumer Discretionary, each with a
    changePercent that is not [null] ([0] for want of the provider's
    value). *)
Theorem sectors_asks_all_five w :
  let out := run sectors w in
  snd out = List.map (fun symbol => AxiosGet (snapshot_url w symbol))
              ["XLK"; "XLV"; "XLF"; "XLE"; "XLY"] /\
  (forall body, fst out = Reply 200 body ->
     exists entries,
       body = VArr entries /\
       List.map (fun e => own e "name") entries =
         [VStr "Technology"; VStr "Healthcare"; VStr "Financials"; VStr "Energy";
          VStr "Consumer Discretionary"] /\
       Forall (fun e => nullish (own e "changePercent") = false) entries).
Proof.
  cbv zeta. rewrite BatchFacts.sectors_run. cbn [fst snd]. split; [reflexivity|].
  intros body.
  destruct (collect (List.map (sector_outcome w) sectorETFs)) as [entries|e] eqn:Hc;
    [|discriminate].
  intros [= <-]. exists entries. split; [reflexivity|].
  exact (collect_map_sector w sectorETFs entries Hc).
Qed.

End SectorFacts.

(** ** The dashboard *)

Module DashboardFacts.

Import Js Server Spec.

Lemma settle_axios {A} (url : A -> template) w xs : forall t,
  settle (fun x => axios (url x)) xs w t =
    (Normal (List.map (fun x => axios_get w (url x)) xs),
     (t ++ List.map (fun x => AxiosGet (url x)) xs)%list).
Proof.
  induction xs as [|x xs IH]; intros t; cbn [settle List.map].
  - unfold ret. now rewrite app_nil_r.
  - unfold axios at 1. rewrite IH. now rewrite <- app_assoc.
Qed.

(** *** The quick picks *)

Lemma quickPicks_run w :
  Dashboard.settled Dashboard.quickPicks w =
    (match collect (List.map (fun sym => axios_get w (Dashboard.quote_url sym))
                      Dashboard.popularSymbols) with
     | Normal results => [Dashboard.setQuickPicks (VArr results)]
     | Throw _ => []
     end,
     List.map (fun sym => AxiosGet (Dashboard.quote_url sym)) Dashboard.popularSymbols).
Proof.
  unfold Dashboard.settled, Dashboard.quickPicks, Promise_all, bind, lift, ret.
  rewrite settle_axios. cbn [app].
  destruct (collect _); reflexivity.
Qed.

Lemma collect_throw {B} (rs : list (completion B)) e :
  In (Throw e) rs -> exists e', collect rs = Throw e'.
Proof.
  induction rs as [|[b|e0] rs IH]; cbn [In collect]; [contradiction| |eauto].
  intros [H|H]; [discriminate|]. destruct (IH H) as [e' ->]. eauto.
Qed.

Lemma collect_normal {B} (bs : list B) : collect (List.map Normal bs) = Normal bs.
Proof. induction bs as [|b bs IH]; cbn; [reflexivity | now rewrite IH]. Qed.

(** X17: the quick picks are all or nothing. The dashboard asks the
    six quotes in any case; it sets the quick picks, to the six bodies
    in the order of the symbols, only when the six requests succeed.
    When one of them fails, no quick pick is set at all, the five
    others having been answered or not. *)
Theorem quick_picks_all_or_nothing w :
  let out := Dashboard.settled Dashboard.quickPicks w in
  snd out = List.map (fun sym => AxiosGet (Dashboard.quote_url sym)) Dashboard.popularSymbols /\
  (forall sym e, In sym Dashboard.popularSymbols ->
     axios_get w (Dashboard.quote_url sym) = Throw e -> fst out = []) /\
  (forall quotes,
     List.map (fun sym => axios_get w (Dashboard.quote_url sym)) Dashboard.popularSymbols =
       List.map Normal quotes ->
     fst out = [Dashboard.setQuickPicks (VArr quotes)]).
Proof.
  cbv zeta. rewrite quickPicks_run. cbn [fst snd]. split; [reflexivity|]. split.
  - intros sym e Hin He.
    destruct (collect_throw
                (List.map (fun s => axios_get w (Dashboard.quote_url s)) Dashboard.popularSymbols) e)
      as [e' ->]; [|reflexivity].
    rewrite <- He. now apply (in_map (fun s => axios_get w (Dashboard.quote_url s))).
  - intros quotes ->. now rewrite collect_normal.
Qed.

(** *** The requests of [fetchAllData] *)

Lemma index_loop_run w idxs : forall indexResults t,
  Dashboard.index_loop idxs indexResults w t =
    (Normal (indexResults ++ flat_map (index_row w) idxs)%list,
     (t ++ List.map (fun idx => AxiosGet (Dashboard.quote_url (fst idx))) idxs)%list).
Proof.
  induction idxs as [|[symbol name] rest IH]; intros acc t;
    cbn [Dashboard.index_loop flat_map List.map].
  - unfold ret. now rewrite !app_nil_r.
  - unfold bind at 1.
    assert (H : try_catch
      (data <- axios (Dashboard.quote_url symbol) ;;
       price <- lift (get data "price") ;;
       changePercent <- lift (get data "changePercent") ;;
       ret (acc ++ [VObj [("name", VStr name); ("price", price);
                          ("changePercent", changePercent)]])%list)
      (fun _ => ret acc) w t =
      (Normal (acc ++ index_row w (symbol, name))%list,
       (t ++ [AxiosGet (Dashboard.quote_url symbol)])%list)).
    { unfold try_catch, bind, axios, lift, get, ret, index_row. cbn [fst snd].
      destruct (axios_get w (Dashboard.quote_url symbol)) as [data|e];
        [|now rewrite app_nil_r].
      destruct (nullish data); [now rewrite app_nil_r | reflexivity]. }
    rewrite H, IH. cbn [fst]. now rewrite <- !app_assoc.
Qed.

Lemma fetchAllData_run w :
  Dashboard.settled Dashboard.fetchAllData w =
    ((Dashboard.setIndices (VArr (flat_map (index_row w) Dashboard.indexSymbols)) ::
      sectors_part w ++ movers_part w ++ news_part w)%list,
     dashboard_requests).
Proof.
  unfold Dashboard.settled, Dashboard.fetchAllData.
  unfold bind at 1. rewrite index_loop_run. cbn [app].
  unfold bind at 1.
  set (t1 := List.map _ Dashboard.indexSymbols).
  assert (H1 : forall t,
    try_catch (data <- axios Dashboard.sectors_url ;; ret [Dashboard.setSectors data])
      (fun _ => ret []) w t =
    (Normal (sectors_part w), (t ++ [AxiosGet Dashboard.sectors_url])%list)).
  { intros t. unfold try_catch, bind, axios, ret, sectors_part.
    destruct (axios_get w Dashboard.sectors_url); reflexivity. }
  rewrite H1. unfold bind at 1.
  assert (H2 : forall t,
    try_catch
      (responses <- Promise_all axios
         [Dashboard.top_gainers_url; Dashboard.top_losers_url; Dashboard.most_active_url] ;;
       ret [Dashboard.setTopGainers (nth 0 responses VUndefined);
            Dashboard.setTopLosers (nth 1 responses VUndefined);
            Dashboard.setMostActive (nth 2 responses VUndefined)])
      (fun _ => ret []) w t =
    (Normal (movers_part w),
     (t ++ List.map AxiosGet [Dashboard.top_gainers_url; Dashboard.top_losers_url;
                              Dashboard.most_active_url])%list)).
  { intros t. unfold try_catch, bind, Promise_all, bind, lift, ret.
    rewrite (settle_axios (fun u => u)). unfold movers_part. cbn [List.map collect].
    destruct (axios_get w Dashboard.top_gainers_url);
      destruct (axios_get w Dashboard.top_losers_url);
      destruct (axios_get w Dashboard.most_active_url); reflexivity. }
  rewrite H2. unfold bind at 1.
  assert (H3 : forall t,
    try_catch (data <- axios Dashboard.top_news_url ;; ret [Dashboard.setTopNews data])
      (fun _ => ret []) w t =
    (Normal (news_part w), (t ++ [AxiosGet Dashboard.top_news_url])%list)).
  { intros t. unfold try_catch, bind, axios, ret, news_part.
    destruct (axios_get w Dashboard.top_news_url); reflexivity. }
  rewrite H3. unfold ret, dashboard_requests. fold t1.
  cbn [List.map app]. reflexivity.
Qed.

(** X18: the index quotes are fetched one at a time and a failure is
    skipped. [fetchAllData] asks the quotes of SPY, QQQ and DIA in that
    order, each once, whatever the others answer, and always goes on
    with its five other requests. The indices it sets are, in that
    order, those whose request was answered with a body, under the
    names S&P 500, NASDAQ 100 and Dow Jones, with the price and the
    changePercent of the body; an index whose request fails is left
    out, and the others are kept. *)
Theorem indices_skip_failures w :
  let out := Dashboard.settled Dashboard.fetchAllData w in
  snd out = dashboard_requests /\
  hd_error (fst out) =
    Some (Dashboard.setIndices (VArr (flat_map (index_row w) Dashboard.indexSymbols))) /\
  (forall idx e, axios_get w (Dashboard.quote_url (fst idx)) = Throw e -> index_row w idx = []) /\
  (forall idx data, axios_get w (Dashboard.quote_url (fst idx)) = Normal data ->
     nullish data = false ->
     index_row w idx = [VObj [("name", VStr (snd idx)); ("price", own data "price");
                              ("changePercent", own data "changePercent")]]).
Proof.
  cbv zeta. rewrite fetchAllData_run. cbn [fst snd hd_error].
  split; [reflexivity|]. split; [reflexivity|]. split.
  - intros idx e H. unfold index_row. now rewrite H.
  - intros idx data H Hn. unfold index_row. now rewrite H, Hn.
Qed.

Lemma movers_part_sets w : forallb sets_movers (movers_part w) = true.
Proof.
  unfold movers_part.
  destruct (axios_get w Dashboard.top_gainers_url);
    destruct (axios_get w Dashboard.top_losers_url);
    destruct (axios_get w Dashboard.most_active_url); reflexivity.
Qed.

Lemma filter_sets_movers w :
  List.filter sets_movers (fst (Dashboard.settled Dashboard.fetchAllData w)) = movers_part w.
Proof.
  rewrite fetchAllData_run. cbn [fst List.filter sets_movers].
  rewrite !filter_app.
  replace (List.filter sets_movers (sectors_part w)) with (@nil Dashboard.update)
    by (unfold sectors_part; destruct (axios_get w Dashboard.sectors_url); reflexivity).
  replace (List.filter sets_movers (news_part w)) with (@nil Dashboard.update)
    by (unfold news_part; destruct (axios_get w Dashboard.top_news_url); reflexivity).
  rewrite app_nil_r. cbn [app].
  pose proof (movers_part_sets w) as H.
  induction (movers_part w) as [|u us IH]; [reflexivity|].
  cbn [forallb] in H. apply andb_prop in H. destruct H as [Hu Hus].
  cbn [List.filter]. rewrite Hu. f_equal. now apply IH.
Qed.

(** X19: the three lists of movers are set together or not at all: the
    dashboard sets the gainers, the losers and the most active, each to
    the body of its request, when the three requests succeed; when one
    of the three fails it sets none of the three lists, the two others
    being lost. The sectors and the news do not depend on them. *)
Theorem movers_lists_are_set_together w :
  let updates := fst (Dashboard.settled Dashboard.fetchAllData w) in
  (forall gainers losers active,
     axios_get w Dashboard.top_gainers_url = Normal gainers ->
     axios_get w Dashboard.top_losers_url = Normal losers ->
     axios_get w Dashboard.most_active_url = Normal active ->
     List.filter sets_movers updates =
       [Dashboard.setTopGainers gainers; Dashboard.setTopLosers losers;
        Dashboard.setMostActive active]) /\
  (forall url e,
     In url [Dashboard.top_gainers_url; Dashboard.top_losers_url; Dashboard.most_active_url] ->
     axios_get w url = Throw e ->
     List.filter sets_movers updates = []) /\
  (forall data, axios_get w Dashboard.sectors_url = Normal data ->
     In (Dashboard.setSectors data) updates) /\
  (forall data, axios_get w Dashboard.top_news_url = Normal data ->
     In (Dashboard.setTopNews data) updates).
Proof.
  cbv zeta. rewrite filter_sets_movers. split; [|split; [|split]].
  - intros g l a Hg Hl Ha. unfold movers_part. now rewrite Hg, Hl, Ha.
  - intros url e Hin He. unfold movers_part. cbn [In] in Hin.
    destruct Hin as [<-|[<-|[<-|[]]]]; rewrite He.
    + reflexivity.
    + destruct (axios_get w Dashboard.top_gainers_url); reflexivity.
    + destruct (axios_get w Dashboard.top_gainers_url);
        destruct (axios_get w Dashboard.top_losers_url); reflexivity.
  - intros data H. rewrite fetchAllData_run. cbn [fst]. right.
    apply in_or_app. left. unfold sectors_part. rewrite H. now left.
  - intros data H. rewrite fetchAllData_run. cbn [fst]. right.
    apply in_or_app. right. apply in_or_app. right. unfold news_part. rewrite H. now left.
Qed.

(** *** The market status, from the provider to the dashboard *)

Lemma market_status_reply w :
  fst (run market_status w) = Reply 500 (VObj [("error", VStr "Failed to fetch market status")]) \/
  exists status nextOpen nextClose,
    (status = "OPEN" \/ status = "CLOSED") /\
    fst (run market_status w) =
      Reply 200 (VObj [("status", VStr status); ("nextOpen", nextOpen); ("nextClose", nextClose)]).
Proof.
  unfold run, market_status, try_catch, bind, ask, axios, lift, get, json, error, ret.
  destruct (axios_get w _) as [data|e]; [|now left].
  destruct (nullish data); [now left|]. right. cbn [fst].
  destruct (is_str (own data "market") "open"); eauto 7.
Qed.

Lemma app_market_status st w req :
  asks_market_status req ->
  App.answer (fst (fst (App.app st w req))) = Reply 429 (VStr (RateLimit.message App.apiLimiter)) \/
  App.answer (fst (fst (App.app st w req))) = fst (run market_status w).
Proof.
  intros [Hv Hp].
  assert (Hroute : App.routes req = Some market_status)
    by (unfold App.routes; rewrite Hp, Hv; reflexivity).
  assert (Hunder : App.under_api req = true)
    by (unfold App.under_api; rewrite Hp; reflexivity).
  unfold App.app, App.serve, App.dispatch. rewrite Hunder, Hroute.
  destruct (RateLimit.increment App.apiLimiter st (App.ip req) (Date_now w)) as [c st'].
  destruct (RateLimit.exceeded App.apiLimiter c); [now left|]. right.
  destruct (run market_status w); reflexivity.
Qed.

(** X20: from the provider to the screen, the market status is one of
    OPEN, CLOSED and UNKNOWN. Whatever the application answers to the
    request for the market status (the limiter's refusal included), the
    dashboard sets the status exactly once: to the backend's OPEN or
    CLOSED when the reply is 200, to UNKNOWN otherwise. UNKNOWN is
    the dashboard's own word for a failed request; the backend never
    sends it. *)
Theorem dashboard_market_status st w req browser code body :
  asks_market_status req ->
  App.answer (fst (fst (App.app st w req))) = Reply code body ->
  axios_get browser Dashboard.market_status_url = Dashboard.response_of code body ->
  exists status,
    fst (Dashboard.settled Dashboard.marketStatus browser) =
      [Dashboard.setMarketStatus (VStr status)] /\
    (status = "OPEN" \/ status = "CLOSED" \/ status = "UNKNOWN") /\
    (code = 200%Z -> own body "status" = VStr status /\ status <> "UNKNOWN") /\
    (code <> 200%Z -> status = "UNKNOWN").
Proof.
  intros Hreq Hr Hb.
  unfold Dashboard.settled, Dashboard.marketStatus, try_catch, bind, axios, lift, ret.
  rewrite Hb.
  destruct (app_market_status st w req Hreq) as [H|H]; rewrite H in Hr.
  - injection Hr as <- <-. cbn. exists "UNKNOWN". repeat split; auto; intros; discriminate.
  - destruct (market_status_reply w) as [H5|(s & no & nc & Hs & H2)]; rewrite Hr in *.
    + injection H5 as -> ->. cbn. exists "UNKNOWN". repeat split; auto; intros; discriminate.
    + injection H2 as -> ->. exists s. cbn. split; [reflexivity|].
      split; [tauto|]. split; [|congruence].
      intros _. split; [reflexivity|]. destruct Hs as [->| ->]; discriminate.
Qed.

Lemma dashboard_market_status_example :
  let body := VObj [("status", VStr "OPEN"); ("nextOpen", VUndefined);
                    ("nextClose", VUndefined)] in
  let browser := Examples.always (VObj [("status", VStr "OPEN")]) in
  asks_market_status Examples.status_request /\
  App.answer (fst (fst (App.app [] (Examples.at_time Examples.noon) Examples.status_request))) =
    Reply 200 body /\
  axios_get browser Dashboard.market_status_url = Dashboard.response_of 200 body /\
  fst (Dashboard.settled Dashboard.marketStatus browser) =
    [Dashboard.setMarketStatus (VStr "OPEN")].
Proof.
  cbv zeta.
  assert (Hreq : asks_market_status Examples.status_request) by (split; reflexivity).
  split; [exact Hreq|]. split; [vm_compute; reflexivity|]. split; [reflexivity|].
  destruct (dashboard_market_status [] (Examples.at_time Examples.noon) Examples.status_request
              (Examples.always (VObj [("status", VStr "OPEN")])) 200
              (VObj [("status", VStr "OPEN"); ("nextOpen", VUndefined);
                     ("nextClose", VUndefined)])
              Hreq eq_refl eq_refl) as (status & Hset & _ & H200 & _).
  destruct (H200 eq_refl) as [Hstatus _]. injection Hstatus as <-. exact Hset.
Defined.

(** With the quote of QQQ failing, the dashboard shows the two other
    indices. *)
Lemma indices_without_one :
  hd_error (fst (Dashboard.settled Dashboard.fetchAllData (Examples.backend_without "QQQ"))) =
    Some (Dashboard.setIndices (VArr
      [ VObj [("name", VStr "S&P 500"); ("price", vnum 100); ("changePercent", vnum 1)];
        VObj [("name", VStr "Dow Jones"); ("price", vnum 100); ("changePercent", vnum 1)] ])) /\
  fst (Dashboard.settled Dashboard.quickPicks (Examples.backend_without "NVDA")) = [].
Proof. split; vm_compute; reflexivity. Qed.

End DashboardFacts.

(** ** The error replies *)

Module ErrorFacts.

Import Js Server Spec.

Ltac in_catalogue :=
  first [ exact I
        | left; reflexivity
        | right; unfold error_catalogue, failed; cbn [In];
          repeat (first [left; reflexivity | right]) ].

Lemma quote_catalogued symbol w : catalogued (fst (run (quote symbol) w)).
Proof.
  destruct (valid symbol) eqn:Hv.
  - rewrite (QuoteFacts.quote_run symbol w Hv). cbv zeta. unfold failure.
    destruct (axios_get w (snapshot_url w (Str.toUpperCase symbol))) as [sd|e].
    + destruct (axios_get w (reference_url w (Str.toUpperCase symbol))) as [md|e].
      * destruct (no_snapshot sd); cbn [fst]; in_catalogue.
      * destruct (is_404 e); cbn [fst]; in_catalogue.
    + destruct (is_404 e); cbn [fst]; in_catalogue.
  - rewrite (QuoteFacts.quote_run_invalid symbol w Hv).
    destruct (Validator.isAlphanumeric symbol); cbn [fst]; in_catalogue.
Qed.

Lemma search_catalogued query w : catalogued (fst (run (search query) w)).
Proof.
  rewrite SearchFacts.search_run. cbn [fst]. unfold search_failed.
  destruct (axios_get w (search_url w query)) as [data|e].
  - destruct (nullish data); in_catalogue.
  - destruct (is_404 e); in_catalogue.
Qed.

Lemma chart_catalogued symbol query w : catalogued (fst (run (chart symbol query) w)).
Proof.
  unfold run, chart, bind, lift, ask, try_catch, axios, json, error, ret.
  destruct (chart_range (own query "range")) as [range|e]; [|exact I].
  destruct (date_string _) as [fromStr|e]; [|exact I].
  destruct (date_string _) as [toStr|e]; [|exact I].
  destruct (axios_get w _) as [data|e]; [|cbn [fst]; in_catalogue].
  destruct (negb _ || _); cbn [fst]; in_catalogue.
Qed.

Lemma suggest_catalogued symbol w : catalogued (fst (run (suggest symbol) w)).
Proof.
  rewrite SuggestFacts.suggest_run. cbv zeta. unfold suggest_failed.
  destruct (models_generateContent w 0 _) as [r1|e]; [|cbn [fst]; in_catalogue].
  destruct (first_text r1) as [text|e]; [|cbn [fst]; in_catalogue].
  destruct (Call.split_lines _) as [lines|e]; [|cbn [fst]; in_catalogue].
  cbn [fst].
  destruct (models_generateContent w 1 _) as [r2|e]; [|in_catalogue].
  destruct (first_text r2) as [text'|e]; [|in_catalogue].
  destruct (Call.trim _); in_catalogue.
Qed.

Lemma movers_catalogued w :
  catalogued (fst (run top_gainers w)) /\ catalogued (fst (run top_losers w)) /\
  catalogued (fst (run most_active w)).
Proof.
  rewrite MoverFacts.top_gainers_run, MoverFacts.top_losers_run, MoverFacts.most_active_run.
  unfold listing. cbn [fst]. repeat split.
  - destruct (axios_get w _) as [data|e]; [destruct (movers data)|]; in_catalogue.
  - destruct (axios_get w _) as [data|e]; [destruct (movers data)|]; in_catalogue.
  - destruct (axios_get w _) as [data|e]; [destruct (movers data)|]; in_catalogue.
Qed.

Lemma news_catalogued by_symbol symbol w :
  catalogued (fst (run (news by_symbol symbol) w)).
Proof.
  rewrite BatchFacts.news_run. cbv zeta. unfold news_failed.
  destruct (axios_get w _) as [data|e]; [|destruct by_symbol; cbn [fst]; in_catalogue].
  destruct (get data "results") as [results|e]; [|destruct by_symbol; cbn [fst]; in_catalogue].
  destruct (negb _ || _); [cbn [fst]; in_catalogue|].
  destruct (or results (VArr [])) as [| | | | |xs|];
    try (destruct by_symbol; cbn [fst]; in_catalogue).
  destruct (forallb _ xs); [cbn [fst]; in_catalogue|].
  destruct by_symbol; cbn [fst]; in_catalogue.
Qed.

Lemma chat_catalogued body w : catalogued (fst (run (chat body) w)).
Proof.
  destruct (nullish body) eqn:Hb.
  - unfold chat, get, run, bind, lift. rewrite Hb. exact I.
  - rewrite (ChatFacts.chat_run body w Hb). cbv zeta. cbn [fst]. unfold chat_failed.
    destruct (models_generateContent w 0 _) as [response|e]; [|in_catalogue].
    destruct (trimmed_text response); in_catalogue.
Qed.

Lemma sectors_catalogued w : catalogued (fst (run sectors w)).
Proof.
  rewrite BatchFacts.sectors_run. cbn [fst].
  destruct (collect _); in_catalogue.
Qed.

Lemma market_status_catalogued w : catalogued (fst (run market_status w)).
Proof.
  destruct (DashboardFacts.market_status_reply w) as [->|(s & no & nc & _ & ->)]; in_catalogue.
Qed.

(** X21: the handlers answer with four statuses only, and an error
    never carries what went wrong. Whatever the request and whatever the
    providers answer, a reply of a route is a 200, or one of the fixed
    error replies of the file: a 400, 404 or 500 whose body is an object
    with the one field [error] and one of seventeen fixed messages. No
    message of an exception and nothing sent by a provider is in an
    error reply. *)
Theorem error_replies_are_fixed w req : catalogued (fst (App.dispatch w req)).
Proof.
  unfold App.dispatch.
  destruct (App.routes req) as [h|] eqn:Hr; [|exact I].
  unfold App.routes in Hr.
  destruct (App.path req) as [|api [|a [|b [|c [|d rest]]]]]; try discriminate.
  - destruct (negb (App.seg api "api")); [discriminate|].
    repeat match type of Hr with
           | (if ?c then _ else _) = _ => destruct c
           end; try discriminate; injection Hr as <-;
      first [ apply movers_catalogued | apply sectors_catalogued
            | apply market_status_catalogued ].
  - destruct (negb (App.seg api "api")); [discriminate|].
    repeat match type of Hr with
           | (if ?c then _ else _) = _ => destruct c
           end; try discriminate; injection Hr as <-;
      first [ apply quote_catalogued | apply search_catalogued | apply chart_catalogued
            | apply (news_catalogued false "") | apply chat_catalogued
            | apply (news_catalogued true) ].
  - destruct (negb (App.seg api "api")); [discriminate|].
    repeat match type of Hr with
           | (if ?c then _ else _) = _ => destruct c
           end; try discriminate; injection Hr as <-.
    apply suggest_catalogued.
Qed.

End ErrorFacts.

(** ** Where the calls go *)

Module CallFacts.

Import Js Server Spec.

Ltac to_providers := repeat (constructor; try reflexivity).

Lemma quote_calls symbol w : Forall to_provider (snd (run (quote symbol) w)).
Proof.
  destruct (valid symbol) eqn:Hv.
  - rewrite (QuoteFacts.quote_run symbol w Hv). cbv zeta.
    destruct (axios_get w (snapshot_url w (Str.toUpperCase symbol))) as [sd|e].
    + destruct (axios_get w (reference_url w (Str.toUpperCase symbol))) as [md|e].
      * destruct (no_snapshot sd); cbn [snd]; to_providers.
      * cbn [snd]. to_providers.
    + cbn [snd]. to_providers.
  - rewrite (QuoteFacts.quote_run_invalid symbol w Hv). constructor.
Qed.

Lemma chart_calls symbol query w : Forall to_provider (snd (run (chart symbol query) w)).
Proof.
  unfold run, chart, bind, lift, ask, try_catch, axios, json, error, ret.
  destruct (chart_range (own query "range")) as [range|e]; [|constructor].
  destruct (date_string _) as [fromStr|e]; [|constructor].
  destruct (date_string _) as [toStr|e]; [|constructor].
  destruct (axios_get w _) as [data|e]; [|cbn [snd app]; to_providers].
  destruct (negb _ || _); cbn [snd app]; to_providers.
Qed.

Lemma suggest_calls symbol w : Forall to_provider (snd (run (suggest symbol) w)).
Proof.
  rewrite SuggestFacts.suggest_run. cbv zeta.
  destruct (models_generateContent w 0 _) as [r1|e]; [|cbn [snd]; to_providers].
  destruct (first_text r1) as [text|e]; [|cbn [snd]; to_providers].
  destruct (Call.split_lines _) as [lines|e]; cbn [snd]; to_providers.
Qed.

Lemma movers_calls w :
  Forall to_provider (snd (run top_gainers w)) /\ Forall to_provider (snd (run top_losers w)) /\
  Forall to_provider (snd (run most_active w)).
Proof.
  rewrite MoverFacts.top_gainers_run, MoverFacts.top_losers_run, MoverFacts.most_active_run.
  unfold listing. cbn [snd]. repeat split; to_providers.
Qed.

Lemma prompts_calls articles : Forall to_provider (prompts articles).
Proof.
  unfold prompts. induction articles as [|a rest IH]; cbn [flat_map]; [constructor|].
  destruct (nullish a); cbn [app]; [exact IH|]. constructor; [reflexivity | exact IH].
Qed.

Lemma news_calls by_symbol symbol w :
  Forall to_provider (snd (run (news by_symbol symbol) w)).
Proof.
  rewrite BatchFacts.news_run. cbv zeta.
  assert (Hurl : to_provider (AxiosGet (news_url by_symbol w symbol)))
    by (destruct by_symbol; reflexivity).
  destruct (axios_get w _) as [data|e]; [|cbn [snd]; now repeat constructor].
  destruct (get data "results") as [results|e]; [|cbn [snd]; now repeat constructor].
  destruct (negb _ || _); [cbn [snd]; now repeat constructor|].
  destruct (or results (VArr [])) as [| | | | |xs|]; try (cbn [snd]; now repeat constructor).
  destruct (forallb _ xs); cbn [snd]; (constructor; [exact Hurl | apply prompts_calls]).
Qed.

Lemma chat_calls body w : Forall to_provider (snd (run (chat body) w)).
Proof.
  destruct (nullish body) eqn:Hb.
  - unfold chat, get, run, bind, lift. rewrite Hb. constructor.
  - rewrite (ChatFacts.chat_run body w Hb). cbv zeta. cbn [snd]. to_providers.
Qed.

Lemma sectors_calls w : Forall to_provider (snd (run sectors w)).
Proof. rewrite BatchFacts.sectors_run. cbn [snd]. to_providers. Qed.

Lemma market_status_calls w : Forall to_provider (snd (run market_status w)).
Proof.
  unfold run, market_status, try_catch, bind, ask, axios, lift, get, json, error, ret.
  destruct (axios_get w _) as [data|e]; [|cbn [snd app]; to_providers].
  destruct (nullish data); cbn [snd app]; to_providers.
Qed.

Lemma search_calls query w : Forall to_provider (snd (run (search query) w)).
Proof. rewrite SearchFacts.search_run. cbn [snd]. to_providers. Qed.

(** X22: what a request can make the backend call. Whatever the request
    and whatever the providers answer, every URL the backend fetches
    starts with the fixed text [https://api.polygon.io/], written in the
    file before anything of the request is substituted, and every prompt
    goes to the model [gemini-1.5-pro]: nothing of a request (a symbol, a
    query, a range, a body) reaches the address of a call or the choice of
    the model. *)
Theorem calls_go_to_the_providers w req : Forall to_provider (snd (App.dispatch w req)).
Proof.
  unfold App.dispatch.
  destruct (App.routes req) as [h|] eqn:Hr; [|constructor].
  unfold App.routes in Hr.
  destruct (App.path req) as [|api [|a [|b [|c [|d rest]]]]]; try discriminate.
  - destruct (negb (App.seg api "api")); [discriminate|].
    repeat match type of Hr with
           | (if ?c then _ else _) = _ => destruct c
           end; try discriminate; injection Hr as <-;
      first [ apply movers_calls | apply sectors_calls | apply market_status_calls ].
  - destruct (negb (App.seg api "api")); [discriminate|].
    repeat match type of Hr with
           | (if ?c then _ else _) = _ => destruct c
           end; try discriminate; injection Hr as <-;
      first [ apply quote_calls | apply search_calls | apply chart_calls
            | apply (news_calls false "") | apply chat_calls | apply (news_calls true) ].
  - destruct (negb (App.seg api "api")); [discriminate|].
    repeat match type of Hr with
           | (if ?c then _ else _) = _ => destruct c
           end; try discriminate; injection Hr as <-.
    apply suggest_calls.
Qed.

End CallFacts.

(** ** No URL is fetched twice *)

Module RetryFacts.

Import Js Server Spec.

Local Open Scope nat_scope.

Ltac few :=
  unfold at_most, fetched; cbn [snd List.filter is_generate negb List.length];
  split; [|lia];
  repeat (apply NoDup_cons;
    [cbn [In]; let H := fresh in
     intros H; repeat (destruct H as [H|H]; [cbv in H; discriminate H|]); exact H|]);
  apply NoDup_nil.

Lemma at_most_le n m t : n <= m -> at_most n t -> at_most m t.
Proof. intros Hnm [Hd Hl]. split; [exact Hd | lia]. Qed.

Lemma quote_fetches symbol w : at_most 2 (snd (run (quote symbol) w)).
Proof.
  destruct (valid symbol) eqn:Hv.
  - rewrite (QuoteFacts.quote_run symbol w Hv). cbv zeta.
    destruct (axios_get w (snapshot_url w (Str.toUpperCase symbol))) as [sd|e].
    + destruct (axios_get w (reference_url w (Str.toUpperCase symbol))) as [md|e].
      * destruct (no_snapshot sd); cbn [snd]; few.
      * cbn [snd]. few.
    + cbn [snd]. few.
  - rewrite (QuoteFacts.quote_run_invalid symbol w Hv). few.
Qed.

Lemma chart_fetches symbol query w : at_most 1 (snd (run (chart symbol query) w)).
Proof.
  unfold run, chart, bind, lift, ask, try_catch, axios, json, error, ret.
  destruct (chart_range (own query "range")) as [range|e]; [|few].
  destruct (date_string _) as [fromStr|e]; [|few].
  destruct (date_string _) as [toStr|e]; [|few].
  destruct (axios_get w _) as [data|e]; [|cbn [snd app]; few].
  destruct (negb _ || _); cbn [snd app]; few.
Qed.

Lemma suggest_fetches symbol w : at_most 0 (snd (run (suggest symbol) w)).
Proof.
  rewrite SuggestFacts.suggest_run. cbv zeta.
  destruct (models_generateContent w 0 _) as [r1|e]; [|cbn [snd]; few].
  destruct (first_text r1) as [text|e]; [|cbn [snd]; few].
  destruct (Call.split_lines _) as [lines|e]; cbn [snd]; few.
Qed.

Lemma movers_fetches w :
  at_most 1 (snd (run top_gainers w)) /\ at_most 1 (snd (run top_losers w)) /\
  at_most 1 (snd (run most_active w)).
Proof.
  rewrite MoverFacts.top_gainers_run, MoverFacts.top_losers_run, MoverFacts.most_active_run.
  unfold listing. cbn [snd]. split; [few | split; few].
Qed.

Lemma prompts_fetched articles : fetched (prompts articles) = [].
Proof.
  unfold prompts, fetched. induction articles as [|a rest IH]; cbn [flat_map]; [reflexivity|].
  destruct (nullish a); cbn [app List.filter is_generate negb]; exact IH.
Qed.

Lemma news_fetches by_symbol symbol w :
  at_most 1 (snd (run (news by_symbol symbol) w)).
Proof.
  rewrite BatchFacts.news_run. cbv zeta.
  destruct (axios_get w _) as [data|e]; [|cbn [snd]; few].
  destruct (get data "results") as [results|e]; [|cbn [snd]; few].
  destruct (negb _ || _); [cbn [snd]; few|].
  destruct (or results (VArr [])) as [| | | | |xs|]; try (cbn [snd]; few).
  assert (H : forall url, at_most 1 (AxiosGet url :: prompts xs)).
  { intros url. unfold at_most, fetched. cbn [List.filter is_generate negb].
    fold (fetched (prompts xs)). rewrite prompts_fetched. few. }
  destruct (forallb _ xs); cbn [snd]; apply H.
Qed.

Lemma chat_fetches body w : at_most 0 (snd (run (chat body) w)).
Proof.
  destruct (nullish body) eqn:Hb.
  - unfold chat, get, run, bind, lift. rewrite Hb. few.
  - rewrite (ChatFacts.chat_run body w Hb). cbv zeta. cbn [snd]. few.
Qed.

Lemma sectors_fetches w : at_most 5 (snd (run sectors w)).
Proof. rewrite BatchFacts.sectors_run. unfold sectorETFs. cbn [snd List.map]. few. Qed.

Lemma market_status_fetches w : at_most 1 (snd (run market_status w)).
Proof.
  unfold run, market_status, try_catch, bind, ask, axios, lift, get, json, error, ret.
  destruct (axios_get w _) as [data|e]; [|cbn [snd app]; few].
  destruct (nullish data); cbn [snd app]; few.
Qed.

Lemma search_fetches query w : at_most 1 (snd (run (search query) w)).
Proof. rewrite SearchFacts.search_run. cbn [snd]. few. Qed.

(** X23: nothing is fetched twice. Whatever the request and whatever the
    providers answer, the URLs the backend fetches for one request are
    all different and at most five (the five sectors; two for a quote,
    one or none for every other route): no fetch is tried again after a
    failure. *)
Theorem no_url_is_fetched_twice w req :
  NoDup (fetched (snd (App.dispatch w req))) /\
  List.length (fetched (snd (App.dispatch w req))) <= 5.
Proof.
  change (at_most 5 (snd (App.dispatch w req))).
  unfold App.dispatch.
  destruct (App.routes req) as [h|] eqn:Hr; [|few].
  unfold App.routes in Hr.
  destruct (App.path req) as [|api [|a [|b [|c [|d rest]]]]]; try discriminate.
  - destruct (negb (App.seg api "api")); [discriminate|].
    repeat match type of Hr with
           | (if ?c then _ else _) = _ => destruct c
           end; try discriminate; injection Hr as <-;
      first [ apply sectors_fetches
            | apply (at_most_le 1); [lia|];
              first [ apply movers_fetches | apply market_status_fetches ] ].
  - destruct (negb (App.seg api "api")); [discriminate|].
    repeat match type of Hr with
           | (if ?c then _ else _) = _ => destruct c
           end; try discriminate; injection Hr as <-;
      (apply (at_most_le 2); [lia|]);
      first [ apply quote_fetches
            | apply (at_most_le 1); [lia|];
              first [ apply search_fetches | apply chart_fetches
                    | apply (news_fetches false "") | apply (news_fetches true) ]
            | apply (at_most_le 0); [lia|]; apply chat_fetches ].
  - destruct (negb (App.seg api "api")); [discriminate|].
    repeat match type of Hr with
           | (if ?c then _ else _) = _ => destruct c
           end; try discriminate; injection Hr as <-.
    apply (at_most_le 0); [lia|]. apply suggest_fetches.
Qed.

End RetryFacts.
